(** * Bria FIBO Studio backend: retrier, API client, profile namer,
      style DNA parser and the two route handlers, embedded in Rocq.

    The TypeScript sources are embedded function by function, under the
    names they have in the repository.  JavaScript values coming from
    [JSON.parse] or from the remote service are kept as values of [JSON];
    effects (HTTP calls through axios, [setTimeout] suspensions) are threaded
    through an explicit world that records every call and every wait;
    [throw]/[try]/[catch] are a completion type.  [console.log] lines print
    and do nothing else, and are left out unless evaluating their arguments
    can throw. *)

From Stdlib Require Import ZArith NArith List String Ascii Bool Lia Arith DecimalString
  Permutation Sorted.
From Stdlib Require PrimFloat.
Import ListNotations.
Open Scope string_scope.
Set Warnings "-register-all".

(* ================================================================== *)
(** ** JavaScript values and the built-ins the sources call *)
(* ================================================================== *)

Module Js.

(** A decoded JSON document.  A number is kept as the text JavaScript
    prints for it ([Number::toString], what [String(x)], a template literal
    and [JSON.stringify(x)] show): the sources only test numbers for
    truthiness and print them.  An object is the list of its own properties
    in enumeration order, keys distinct.  Strings are byte strings (UTF-8). *)
Inductive JSON : Type :=
| JNull
| JBool (b : bool)
| JNumber (shown : string)
| JString (s : string)
| JArray (items : list JSON)
| JObject (props : list (string * JSON)).

(** A JavaScript value as the sources see one: [None] is [undefined]. *)
Definition Value := option JSON.

(** An axios response as far as the sources read it. *)
Record AxiosResponse := mkResponse {
  resp_status : Z;
  resp_statusText : string;
  resp_data : JSON
}.

(** An [Error] object: [message], and for an [AxiosError] the [code] and
    the [response] it may carry. *)
Record JsError := mkJsError {
  message : string;
  isAxiosError : bool;
  code : option string;
  response : option AxiosResponse
}.

Definition Error (msg : string) : JsError :=
  {| message := msg; isAxiosError := false; code := None; response := None |}.

(** What a [throw] carries: an [Error] instance or any other value. *)
Inductive Thrown : Type :=
| ThrowError (e : JsError)
| ThrowOther (v : Value).

(** How a call ends. *)
Inductive Completion (A : Type) : Type :=
| Normal (a : A)
| Throw (t : Thrown).
Arguments Normal {A} a.
Arguments Throw {A} t.

Definition TypeError (msg : string) : Thrown := ThrowError (Error msg).

(** *** Strings *)

Definition is_upper (c : ascii) : bool :=
  let n := nat_of_ascii c in (65 <=? n)%nat && (n <=? 90)%nat.
Definition is_lower (c : ascii) : bool :=
  let n := nat_of_ascii c in (97 <=? n)%nat && (n <=? 122)%nat.

Definition lower_char (c : ascii) : ascii :=
  if is_upper c then ascii_of_nat (nat_of_ascii c + 32) else c.
Definition upper_char (c : ascii) : ascii :=
  if is_lower c then ascii_of_nat (nat_of_ascii c - 32) else c.

(** [s.toLowerCase()] and [s.toUpperCase()], on the ASCII letters. *)
Fixpoint toLowerCase (s : string) : string :=
  match s with
  | EmptyString => EmptyString
  | String c r => String (lower_char c) (toLowerCase r)
  end.
Fixpoint toUpperCase (s : string) : string :=
  match s with
  | EmptyString => EmptyString
  | String c r => String (upper_char c) (toUpperCase r)
  end.

(** [s.startsWith(p)]. *)
Fixpoint startsWith (p s : string) : bool :=
  match p, s with
  | EmptyString, _ => true
  | String a p', String b s' => Ascii.eqb a b && startsWith p' s'
  | String _ _, EmptyString => false
  end.

(** [s.includes(sub)]. *)
Fixpoint includes (s sub : string) : bool :=
  startsWith sub s ||
  match s with
  | EmptyString => false
  | String _ r => includes r sub
  end.

(** [s.split(sep)] for a one-character separator. *)
Fixpoint split (sep : ascii) (s : string) : list string :=
  match s with
  | EmptyString => [EmptyString]
  | String c r =>
      if Ascii.eqb c sep then EmptyString :: split sep r
      else match split sep r with
           | [] => [String c EmptyString]
           | w :: ws => String c w :: ws
           end
  end.

(** [parts.join(sep)] on strings. *)
Fixpoint join (sep : string) (parts : list string) : string :=
  match parts with
  | [] => EmptyString
  | [p] => p
  | p :: rest => p ++ sep ++ join sep rest
  end.

(** White space and line terminators, as [trim] takes them, in the UTF-8
    bytes of a string: U+0009 to U+000D and U+0020 are one byte; U+00A0 is
    two; U+1680, U+2000 to U+200A, U+2028, U+2029, U+202F, U+205F, U+3000 and
    U+FEFF are three. *)
Definition is_space (c : ascii) : bool :=
  match nat_of_ascii c with
  | 9 | 10 | 11 | 12 | 13 | 32 => true
  | _ => false
  end.

Definition is_space2 (a b : ascii) : bool :=
  (nat_of_ascii a =? 194)%nat && (nat_of_ascii b =? 160)%nat.

Definition is_space3 (a b c : ascii) : bool :=
  let x := nat_of_ascii a in
  let y := nat_of_ascii b in
  let z := nat_of_ascii c in
  ((x =? 225) && (y =? 154) && (z =? 128)
   || (x =? 226) && (y =? 128)
      && ((128 <=? z) && (z <=? 138) || (z =? 168) || (z =? 169) || (z =? 175))
   || (x =? 226) && (y =? 129) && (z =? 159)
   || (x =? 227) && (y =? 128) && (z =? 128)
   || (x =? 239) && (y =? 187) && (z =? 191))%nat.

(** [s.trimStart()]. *)
Fixpoint trimStart (s : string) : string :=
  match s with
  | EmptyString => EmptyString
  | String a r =>
      if is_space a then trimStart r
      else match r with
           | String b r' =>
               if is_space2 a b then trimStart r'
               else match r' with
                    | String c r'' => if is_space3 a b c then trimStart r'' else s
                    | EmptyString => s
                    end
           | EmptyString => s
           end
  end.

(** The same on the reversed bytes of a string: the white space at its end. *)
Fixpoint trimStart_reversed (s : string) : string :=
  match s with
  | EmptyString => EmptyString
  | String a r =>
      if is_space a then trimStart_reversed r
      else match r with
           | String b r' =>
               if is_space2 b a then trimStart_reversed r'
               else match r' with
                    | String c r'' =>
                        if is_space3 c b a then trimStart_reversed r'' else s
                    | EmptyString => s
                    end
           | EmptyString => s
           end
  end.

Fixpoint rev_string (s acc : string) : string :=
  match s with
  | EmptyString => acc
  | String c r => rev_string r (String c acc)
  end.

(** [s.trim()]. *)
Definition trim (s : string) : string :=
  rev_string (trimStart_reversed (rev_string (trimStart s) EmptyString)) EmptyString.

(** *** Truthiness, [typeof], [String(x)], [JSON.stringify(x)] *)

(** [!!v].  [JSON.parse] never yields [NaN]; the zero prints as ["0"]. *)
Definition truthy (v : Value) : bool :=
  match v with
  | None => false
  | Some JNull => false
  | Some (JBool b) => b
  | Some (JNumber shown) => negb (String.eqb shown "0")
  | Some (JString s) => negb (String.eqb s "")
  | Some (JArray _) => true
  | Some (JObject _) => true
  end.

Inductive TypeTag := t_undefined | t_object | t_boolean | t_number | t_string.

Definition typeof (v : Value) : TypeTag :=
  match v with
  | None => t_undefined
  | Some JNull => t_object
  | Some (JBool _) => t_boolean
  | Some (JNumber _) => t_number
  | Some (JString _) => t_string
  | Some (JArray _) => t_object
  | Some (JObject _) => t_object
  end.

Definition is_string (v : Value) : bool :=
  match v with Some (JString _) => true | _ => false end.

(** [a || b] on values. *)
Definition or_else (a b : Value) : Value := if truthy a then a else b.

(** [a || d] with a default that is there. *)
Definition or_default (a : Value) (d : JSON) : JSON :=
  match a with
  | Some j => if truthy a then j else d
  | None => d
  end.

(** [String(x)] of a JSON value. *)
Fixpoint ToString (v : JSON) : string :=
  match v with
  | JNull => "null"
  | JBool true => "true"
  | JBool false => "false"
  | JNumber shown => shown
  | JString s => s
  | JArray items =>
      join "," (map (fun x => match x with JNull => "" | _ => ToString x end) items)
  | JObject _ => "[object Object]"
  end.

(** [String(x)], also of [undefined]. *)
Definition ToStringValue (v : Value) : string :=
  match v with None => "undefined" | Some j => ToString j end.

(** [items.join(sep)]: [null] and [undefined] elements print as nothing. *)
Definition array_join (sep : string) (items : list JSON) : string :=
  join sep (map (fun x => match x with JNull => "" | _ => ToString x end) items).

Definition hex_digit (n : nat) : ascii :=
  if (n <? 10)%nat then ascii_of_nat (48 + n) else ascii_of_nat (87 + n).

Definition dquote : ascii := ascii_of_nat 34.
Definition backslash : ascii := ascii_of_nat 92.
Definition esc (c : string) : string := String backslash c.

(** One character of a string literal as [JSON.stringify] writes it. *)
Definition quote_char (c : ascii) : string :=
  let n := nat_of_ascii c in
  match n with
  | 34 => esc (String dquote "")
  | 92 => esc (String backslash "")
  | 8 => esc "b"
  | 12 => esc "f"
  | 10 => esc "n"
  | 13 => esc "r"
  | 9 => esc "t"
  | _ => if (n <? 32)%nat
         then esc ("u00" ++ String (hex_digit (n / 16)) (String (hex_digit (n mod 16)) ""))
         else String c ""
  end.

Fixpoint quote_chars (s : string) : string :=
  match s with
  | EmptyString => EmptyString
  | String c r => quote_char c ++ quote_chars r
  end.

Definition quote (s : string) : string :=
  String dquote (quote_chars s ++ String dquote "").

(** A number that overflowed to an infinity prints as [null] in JSON. *)
Definition finite_shown (shown : string) : bool :=
  negb (String.eqb shown "Infinity" || String.eqb shown "-Infinity").

(** [JSON.stringify(v)], the compact form. *)
Fixpoint stringify (v : JSON) : string :=
  match v with
  | JNull => "null"
  | JBool true => "true"
  | JBool false => "false"
  | JNumber shown => if finite_shown shown then shown else "null"
  | JString s => quote s
  | JArray items => "[" ++ join "," (map stringify items) ++ "]"
  | JObject props =>
      "{" ++ join "," (map (fun '(k, x) => quote k ++ ":" ++ stringify x) props) ++ "}"
  end.

Fixpoint spaces (n : nat) : string :=
  match n with O => "" | S m => String " " (spaces m) end.

Definition newline : string := String (ascii_of_nat 10) "".

(** [JSON.stringify(v, null, 2)], with [indent] spaces already in front. *)
Fixpoint stringify_pretty (indent : nat) (v : JSON) : string :=
  match v with
  | JArray [] => "[]"
  | JObject [] => "{}"
  | JArray items =>
      "[" ++ newline
      ++ join ("," ++ newline)
           (map (fun x => spaces (indent + 2) ++ stringify_pretty (indent + 2) x) items)
      ++ newline ++ spaces indent ++ "]"
  | JObject props =>
      "{" ++ newline
      ++ join ("," ++ newline)
           (map (fun '(k, x) =>
                   spaces (indent + 2) ++ quote k ++ ": " ++ stringify_pretty (indent + 2) x)
                props)
      ++ newline ++ spaces indent ++ "}"
  | _ => stringify v
  end.

(** *** Property access *)

Fixpoint own (k : string) (props : list (string * JSON)) : Value :=
  match props with
  | [] => None
  | (k', x) :: rest => if String.eqb k' k then Some x else own k rest
  end.

(** [v.k] where [v] is known not to be [null] or [undefined]: a property of
    an object, [undefined] on an array or a primitive (none of the names the
    sources read is a method of [Array], [String], [Number] or [Boolean]). *)
Definition prop (v : JSON) (k : string) : Value :=
  match v with
  | JObject props => own k props
  | _ => None
  end.

(** [v.k]: reading a property of [null] or [undefined] throws. *)
Definition getProp (v : Value) (k : string) : Completion Value :=
  match v with
  | None => Throw (TypeError ("Cannot read properties of undefined (reading '" ++ k ++ "')"))
  | Some JNull => Throw (TypeError ("Cannot read properties of null (reading '" ++ k ++ "')"))
  | Some j => Normal (prop j k)
  end.

(** [v?.k]. *)
Definition getOpt (v : Value) (k : string) : Value :=
  match v with
  | None => None
  | Some JNull => None
  | Some j => prop j k
  end.

(** [v?.[0]]: the first element of an array, the first character of a
    string. *)
Definition first (v : Value) : Value :=
  match v with
  | Some (JArray (x :: _)) => Some x
  | Some (JString (String c _)) => Some (JString (String c ""))
  | Some (JObject props) => own "0" props
  | _ => None
  end.

(** [Object.keys(v)], which throws on [null] and [undefined]; the keys of a
    string are its indices, of an array its indices too: only the number of
    keys is kept for those. *)
Definition keys_count (v : Value) : Completion nat :=
  match v with
  | None => Throw (TypeError "Cannot convert undefined or null to object")
  | Some JNull => Throw (TypeError "Cannot convert undefined or null to object")
  | Some (JObject props) => Normal (List.length props)
  | Some (JArray items) => Normal (List.length items)
  | Some (JString s) => Normal (String.length s)
  | Some _ => Normal 0%nat
  end.

(** *** Sequencing of completions *)

Definition bindC {A B} (c : Completion A) (k : A -> Completion B) : Completion B :=
  match c with
  | Normal a => k a
  | Throw t => Throw t
  end.

(** [try { c } catch (e) { h e }]. *)
Definition try_catch {A} (c : Completion A) (h : Thrown -> Completion A) : Completion A :=
  match c with
  | Normal a => Normal a
  | Throw t => h t
  end.

(** [error instanceof Error ? error : new Error(String(error))]. *)
Definition toError (t : Thrown) : JsError :=
  match t with
  | ThrowError e => e
  | ThrowOther v => Error (ToStringValue v)
  end.

End Js.

Declare Scope js_scope.
Delimit Scope js_scope with js.
Notation "x <- c ;; k" := (Js.bindC c (fun x => k))
  (at level 61, c at next level, right associativity) : js_scope.

(* ================================================================== *)
(** ** A reference decoder for JSON text *)
(* ================================================================== *)

(** [JSON.parse] is the host's.  The functions that call it take the decoder
    as a parameter, so what is proved of them holds of any decoder; this
    module is a decoder for the JSON grammar (ECMA-404) to run them on
    concrete text.  Two approximations, neither met by an example below: a
    numeral of more than 15 significant digits, or beyond the range of a
    double, is printed from its exact decimal value where JavaScript rounds
    it first; and keys that look like array indices are kept where they stand
    in the text, where JavaScript enumerates them first. *)
Module JsonText.
Import Js.

Definition code (c : ascii) : nat := nat_of_ascii c.

Definition is_ws (c : ascii) : bool :=
  let n := code c in
  (n =? 32)%nat || (n =? 9)%nat || (n =? 10)%nat || (n =? 13)%nat.

Fixpoint skip_ws (s : string) : string :=
  match s with
  | EmptyString => EmptyString
  | String c r => if is_ws c then skip_ws r else s
  end.

Definition is_digit (c : ascii) : bool :=
  (48 <=? code c)%nat && (code c <=? 57)%nat.

Definition hex_of (c : ascii) : option N :=
  let n := N_of_ascii c in
  if (48 <=? n)%N && (n <=? 57)%N then Some (n - 48)%N
  else if (97 <=? n)%N && (n <=? 102)%N then Some (n - 87)%N
  else if (65 <=? n)%N && (n <=? 70)%N then Some (n - 55)%N
  else None.

Definition hex4 (a b c d : ascii) : option N :=
  match hex_of a, hex_of b, hex_of c, hex_of d with
  | Some x, Some y, Some z, Some w => Some (((x * 16 + y) * 16 + z) * 16 + w)%N
  | _, _, _, _ => None
  end.

(** What a string literal holds: a byte of the text, or a UTF-16 code unit
    written as an escape. *)
Inductive CodeUnit := Raw (c : ascii) | Escaped (n : N).

(** The inside of a string literal, up to its closing quote. *)
Fixpoint string_body (s : string) (acc : list CodeUnit) : option (list CodeUnit * string) :=
  match s with
  | EmptyString => None
  | String c r =>
      if (code c =? 34)%nat then Some (rev acc, r)
      else if (code c =? 92)%nat then
        match r with
        | EmptyString => None
        | String e r' =>
            let n := code e in
            if (n =? 34)%nat || (n =? 92)%nat || (n =? 47)%nat
            then string_body r' (Raw e :: acc)
            else if (n =? 98)%nat then string_body r' (Escaped 8 :: acc)
            else if (n =? 102)%nat then string_body r' (Escaped 12 :: acc)
            else if (n =? 110)%nat then string_body r' (Escaped 10 :: acc)
            else if (n =? 114)%nat then string_body r' (Escaped 13 :: acc)
            else if (n =? 116)%nat then string_body r' (Escaped 9 :: acc)
            else if (n =? 117)%nat then
              match r' with
              | String h1 (String h2 (String h3 (String h4 r''))) =>
                  match hex4 h1 h2 h3 h4 with
                  | Some u => string_body r'' (Escaped u :: acc)
                  | None => None
                  end
              | _ => None
              end
            else None
        end
      else if (code c <? 32)%nat then None
      else string_body r (Raw c :: acc)
  end.

Definition byte (n : N) : ascii := ascii_of_N n.

(** A code point in (generalised) UTF-8. *)
Definition utf8 (n : N) : string :=
  if (n <? 128)%N then String (byte n) ""
  else if (n <? 2048)%N then
    String (byte (192 + n / 64)) (String (byte (128 + n mod 64)) "")
  else if (n <? 65536)%N then
    String (byte (224 + n / 4096))
      (String (byte (128 + (n / 64) mod 64)) (String (byte (128 + n mod 64)) ""))
  else
    String (byte (240 + n / 262144))
      (String (byte (128 + (n / 4096) mod 64))
         (String (byte (128 + (n / 64) mod 64)) (String (byte (128 + n mod 64)) ""))).

Definition is_high (n : N) : bool := (55296 <=? n)%N && (n <=? 56319)%N.
Definition is_low (n : N) : bool := (56320 <=? n)%N && (n <=? 57343)%N.

Fixpoint units_string (us : list CodeUnit) : string :=
  match us with
  | [] => ""
  | Raw c :: r => String c (units_string r)
  | Escaped hi :: r =>
      match r with
      | Escaped lo :: r' =>
          if is_high hi && is_low lo
          then utf8 (65536 + (hi - 55296) * 1024 + (lo - 56320)) ++ units_string r'
          else utf8 hi ++ units_string r
      | _ => utf8 hi ++ units_string r
      end
  end.

(** *** Numerals *)

Fixpoint digits (s : string) : string * string :=
  match s with
  | EmptyString => ("", "")
  | String c r =>
      if is_digit c then let (d, rest) := digits r in (String c d, rest)
      else ("", s)
  end.

Fixpoint strip_zeros (s : string) : string :=
  match s with
  | String c r => if (code c =? 48)%nat then strip_zeros r else s
  | EmptyString => EmptyString
  end.

Definition digits_value (d : string) : Z :=
  (fix go (s : string) (acc : Z) : Z :=
     match s with
     | EmptyString => acc
     | String c r => go r (acc * 10 + Z.of_nat (code c - 48))%Z
     end) d 0%Z.

Fixpoint zeros (n : nat) : string :=
  match n with O => "" | S m => String "0" (zeros m) end.

Definition show_Z (z : Z) : string := NilZero.string_of_int (Z.to_int z).

(** [Number::toString] of the decimal [d * 10^point], [d] a digit string. *)
Definition show_decimal (neg : bool) (d : string) (point : Z) : string :=
  let d1 := strip_zeros d in
  let d2 := rev_string (strip_zeros (rev_string d1 "")) "" in
  let t := Z.of_nat (String.length d1 - String.length d2) in
  let k := Z.of_nat (String.length d2) in
  let n := (k + point + t)%Z in
  let sign := if neg then "-" else "" in
  if String.eqb d2 "" then "0"
  else if ((k <=? n) && (n <=? 21))%Z then sign ++ d2 ++ zeros (Z.to_nat (n - k))
  else if ((0 <? n) && (n <=? 21))%Z then
    sign ++ substring 0 (Z.to_nat n) d2 ++ "." ++ substring (Z.to_nat n) (Z.to_nat (k - n)) d2
  else if ((-6 <? n) && (n <=? 0))%Z then sign ++ "0." ++ zeros (Z.to_nat (- n)) ++ d2
  else
    let e := (n - 1)%Z in
    let es := (if (0 <=? e)%Z then "+" else "-") ++ show_Z (Z.abs e) in
    if (k =? 1)%Z then sign ++ d2 ++ "e" ++ es
    else sign ++ substring 0 1 d2 ++ "." ++ substring 1 (Z.to_nat (k - 1)) d2 ++ "e" ++ es.

Definition number (s : string) : option (JSON * string) :=
  let (neg, s1) := match s with
                   | String c r => if (code c =? 45)%nat then (true, r) else (false, s)
                   | EmptyString => (false, s)
                   end in
  let (ip, s2) := digits s1 in
  if String.eqb ip "" then None
  else if startsWith "0" ip && negb (String.eqb ip "0") then None
  else
    let frac := match s2 with
                | String c r => if (code c =? 46)%nat then Some (digits r) else None
                | EmptyString => None
                end in
    match frac with
    | Some (EmptyString, _) => None
    | _ =>
        let (fp, s3) := match frac with Some p => p | None => ("", s2) end in
        let expo :=
          match s3 with
          | String c r =>
              if (code c =? 101)%nat || (code c =? 69)%nat then
                let (minus, r1) :=
                  match r with
                  | String g r' => if (code g =? 45)%nat then (true, r')
                                   else if (code g =? 43)%nat then (false, r')
                                   else (false, r)
                  | EmptyString => (false, r)
                  end in
                let (ed, r2) := digits r1 in
                Some (if minus then (- digits_value ed)%Z else digits_value ed, ed, r2)
              else None
          | EmptyString => None
          end in
        match expo with
        | Some (_, EmptyString, _) => None
        | Some (e, _, s4) =>
            Some (JNumber (show_decimal neg (ip ++ fp) (e - Z.of_nat (String.length fp))), s4)
        | None =>
            Some (JNumber (show_decimal neg (ip ++ fp) (- Z.of_nat (String.length fp))), s3)
        end
    end.

(** *** Values *)

(** A member of an object: a key met again keeps its place and takes the
    new value. *)
Fixpoint put (k : string) (x : JSON) (props : list (string * JSON)) : list (string * JSON) :=
  match props with
  | [] => [(k, x)]
  | (k', y) :: rest => if String.eqb k' k then (k', x) :: rest else (k', y) :: put k x rest
  end.

Definition drop (n : nat) (s : string) : string := substring n (String.length s - n) s.

Fixpoint value (fuel : nat) (s : string) : option (JSON * string) :=
  match fuel with
  | O => None
  | S f =>
      match skip_ws s with
      | EmptyString => None
      | String c r as s' =>
          if (code c =? 123)%nat then
            match skip_ws r with
            | String c' r' => if (code c' =? 125)%nat then Some (JObject [], r')
                              else members f r []
            | EmptyString => None
            end
          else if (code c =? 91)%nat then
            match skip_ws r with
            | String c' r' => if (code c' =? 93)%nat then Some (JArray [], r')
                              else elements f r []
            | EmptyString => None
            end
          else if (code c =? 34)%nat then
            match string_body r [] with
            | Some (us, rest) => Some (JString (units_string us), rest)
            | None => None
            end
          else if startsWith "true" s' then Some (JBool true, drop 4 s')
          else if startsWith "false" s' then Some (JBool false, drop 5 s')
          else if startsWith "null" s' then Some (JNull, drop 4 s')
          else number s'
      end
  end
with elements (fuel : nat) (s : string) (acc : list JSON) : option (JSON * string) :=
  match fuel with
  | O => None
  | S f =>
      match value f s with
      | Some (x, r) =>
          match skip_ws r with
          | String c r' =>
              if (code c =? 44)%nat then elements f r' (x :: acc)
              else if (code c =? 93)%nat then Some (JArray (rev (x :: acc)), r')
              else None
          | EmptyString => None
          end
      | None => None
      end
  end
with members (fuel : nat) (s : string) (acc : list (string * JSON)) : option (JSON * string) :=
  match fuel with
  | O => None
  | S f =>
      match skip_ws s with
      | String q r =>
          if (code q =? 34)%nat then
            match string_body r [] with
            | Some (us, r1) =>
                match skip_ws r1 with
                | String c1 r2 =>
                    if (code c1 =? 58)%nat then
                      match value f r2 with
                      | Some (x, r3) =>
                          let acc' := put (units_string us) x acc in
                          match skip_ws r3 with
                          | String c3 r4 =>
                              if (code c3 =? 44)%nat then members f r4 acc'
                              else if (code c3 =? 125)%nat then Some (JObject acc', r4)
                              else None
                          | EmptyString => None
                          end
                      | None => None
                      end
                    else None
                | EmptyString => None
                end
            | None => None
            end
          else None
      | EmptyString => None
      end
  end.

(** The decoder: one value, white space around it, nothing after. *)
Definition decode (text : string) : option JSON :=
  match value (2 * String.length text + 2) text with
  | Some (x, rest) => if String.eqb (skip_ws rest) "" then Some x else None
  | None => None
  end.

End JsonText.

(* ================================================================== *)
(** ** Numbers *)
(* ================================================================== *)

(** The numbers of JavaScript are IEEE 754 doubles.  The retrier computes
    with them: it counts with [+ 1], compares with [<=] and [===], scales a
    delay with [*] and caps it with [Math.min].  An [Arithmetic] is a carrier
    with these operations; the retrier is embedded over any of them.
    [doubles] is the arithmetic the program runs on; [integers] is the same
    operations on the integers, where nothing is rounded and every number
    compares. *)
Module Number.
Import PrimFloat.

Record Arithmetic := mkArithmetic {
  number : Type;
  lit : Z -> number;
  add : number -> number -> number;
  mul : number -> number -> number;
  leb : number -> number -> bool;
  eqb : number -> number -> bool;
  min : number -> number -> number
}.

(** The double an integer literal of the source denotes (the integers of up
    to 53 bits, which doubles hold). *)
Fixpoint double_of_pos (p : positive) : float :=
  match p with
  | xH => 1%float
  | xO q => (2 * double_of_pos q)%float
  | xI q => (2 * double_of_pos q + 1)%float
  end.

Definition double (z : Z) : float :=
  match z with
  | Z0 => 0%float
  | Zpos p => double_of_pos p
  | Zneg p => (- double_of_pos p)%float
  end.

(** [Math.min(a, b)]: [NaN] when one of them is; of the two zeros the
    negative one. *)
Definition math_min (a b : float) : float :=
  if is_nan a || is_nan b then nan
  else if (a <? b)%float then a
  else if (b <? a)%float then b
  else if get_sign a then a else b.

(** [a + b], [a * b], [a <= b], [a === b] and [Math.min(a, b)] on numbers.
    An option that is present with the value [undefined] behaves in each of
    them as [NaN] does. *)
Definition doubles : Arithmetic :=
  {| number := float; lit := double; add := PrimFloat.add; mul := PrimFloat.mul;
     leb := PrimFloat.leb; eqb := PrimFloat.eqb; min := math_min |}.

Definition integers : Arithmetic :=
  {| number := Z; lit := fun z => z; add := Z.add; mul := Z.mul;
     leb := Z.leb; eqb := Z.eqb; min := Z.min |}.

(** The largest integer that is at most [x], among those below [2 ^ bits]
    from [below] on. *)
Fixpoint whole (bits : nat) (x : float) (below : Z) : Z :=
  match bits with
  | O => below
  | S b =>
      let next := (below + 2 ^ Z.of_nat b)%Z in
      if (double next <=? x)%float then whole b x next else whole b x below
  end.

(** The milliseconds a timer runs for [setTimeout(f, ms)]: Node sets a delay
    that is not between 1 and [2^31 - 1] ([NaN] is not) to 1, and drops the
    fraction of the others. *)
Definition millis (ms : float) : Z :=
  if (1 <=? ms)%float && (ms <=? 2147483647)%float then whole 31 ms 0 else 1%Z.

End Number.

(* ================================================================== *)
(** ** utils/retry.ts *)
(* ================================================================== *)

Module Retry.
Import Js Number.

(** [RetryOptions]: every field optional. *)
Record RetryOptions (N : Arithmetic) := mkRetryOptions {
  maxRetries : option (number N);
  initialDelay : option (number N);
  maxDelay : option (number N);
  backoffMultiplier : option (number N)
}.
Arguments mkRetryOptions {N}.
Arguments maxRetries {N}.
Arguments initialDelay {N}.
Arguments maxDelay {N}.
Arguments backoffMultiplier {N}.

Definition no_options {N : Arithmetic} : RetryOptions N :=
  {| maxRetries := None; initialDelay := None; maxDelay := None; backoffMultiplier := None |}.

(** [Required<RetryOptions>]. *)
Record Options (N : Arithmetic) := mkOptions {
  opt_maxRetries : number N;
  opt_initialDelay : number N;
  opt_maxDelay : number N;
  opt_backoffMultiplier : number N
}.
Arguments mkOptions {N}.
Arguments opt_maxRetries {N}.
Arguments opt_initialDelay {N}.
Arguments opt_maxDelay {N}.
Arguments opt_backoffMultiplier {N}.

Definition defaultOptions {N : Arithmetic} : Options N :=
  {| opt_maxRetries := lit N 3; opt_initialDelay := lit N 1000;
     opt_maxDelay := lit N 10000; opt_backoffMultiplier := lit N 2 |}.

Definition pick {N : Arithmetic} (o : option (number N)) (d : number N) : number N :=
  match o with Some z => z | None => d end.

(** [{ ...defaultOptions, ...options }]. *)
Definition spread {N : Arithmetic} (d : Options N) (o : RetryOptions N) : Options N :=
  {| opt_maxRetries := pick (maxRetries o) (opt_maxRetries d);
     opt_initialDelay := pick (initialDelay o) (opt_initialDelay d);
     opt_maxDelay := pick (maxDelay o) (opt_maxDelay d);
     opt_backoffMultiplier := pick (backoffMultiplier o) (opt_backoffMultiplier d) |}.

Section Retrier.
(** The retrier runs over any state [St] in which the operation has its
    effects; [sleep ms] is what awaiting [setTimeout(resolve, ms)] does to
    that state. *)
Context {N : Arithmetic} {St T : Type}.
Variable sleep : number N -> St -> St.

(** The [for] loop of [retryWithBackoff], from its guard
    [attempt <= opts.maxRetries] on.  Nothing bounds the passes of the loop
    (with [maxRetries] at [Infinity] it ends only when the operation
    succeeds): [fuel] is the number of passes that are run, and [None] says
    that the loop has not ended within them. *)
Fixpoint retry_loop (fn : St -> Completion T * St) (opts : Options N)
         (fuel : nat) (attempt : number N) (lastError : option JsError)
         (delay : number N) (s : St) : option (Completion T * St) :=
  if leb N attempt (opt_maxRetries opts)
  then
    match fuel with
    | O => None
    | S fuel' =>
        match fn s with
        | (Normal v, s1) => Some (Normal v, s1)
        | (Throw error, s1) =>
            let lastError := toError error in
            if eqb N attempt (opt_maxRetries opts)
            then Some (Throw (ThrowError lastError), s1)
            else
              let s2 := sleep delay s1 in
              retry_loop fn opts fuel' (add N attempt (lit N 1)) (Some lastError)
                (min N (mul N delay (opt_backoffMultiplier opts)) (opt_maxDelay opts)) s2
        end
    end
  else
    Some (Throw (ThrowError (match lastError with
                             | Some e => e
                             | None => Error "Retry failed"
                             end)), s).

Definition retryWithBackoff (passes : nat) (fn : St -> Completion T * St)
           (options : RetryOptions N) : St -> option (Completion T * St) :=
  fun s =>
    let opts := spread defaultOptions options in
    retry_loop fn opts passes (lit N 0) None (opt_initialDelay opts) s.
End Retrier.

(** An operation seen from the retrier: the outcome of its k-th invocation.
    The state counts the invocations and lists the waits. *)
Record Run (N : Arithmetic) := mkRun { invocations : nat; waits : list (number N) }.
Arguments mkRun {N}.
Arguments invocations {N}.
Arguments waits {N}.

Definition scripted {N : Arithmetic} {T} (outcome : nat -> Completion T)
  : Run N -> Completion T * Run N :=
  fun r => (outcome (invocations r),
            {| invocations := S (invocations r); waits := waits r |}).

Definition wait {N : Arithmetic} (ms : number N) (r : Run N) : Run N :=
  {| invocations := invocations r; waits := waits r ++ [ms] |}.

Definition fresh {N : Arithmetic} : Run N := {| invocations := 0; waits := [] |}.

(** An operation with its invocations counted beside its own state, and the
    wait that leaves the count alone. *)
Definition counted {St T} (fn : St -> Completion T * St)
  : St * nat -> Completion T * (St * nat) :=
  fun sn => let (c, s') := fn (fst sn) in (c, (s', S (snd sn))).

Definition uncounted {N : Arithmetic} {St} (sleep : number N -> St -> St) (ms : number N)
  : St * nat -> St * nat :=
  fun sn => (sleep ms (fst sn), snd sn).

End Retry.

(* ================================================================== *)
(** ** The world of the backend: the remote service and the clock *)
(* ================================================================== *)

Module World.
Import Js.

Inductive Method := GET | POST.

(** A call through the axios instance: method, URL as given, JSON body. *)
Record HttpRequest := mkRequest {
  req_method : Method;
  req_url : Value;
  req_body : Value
}.

(** What axios gives back: a response, or a rejection with an [AxiosError]. *)
Inductive HttpReply :=
| Resolved (r : AxiosResponse)
| Rejected (e : JsError).

Inductive Event :=
| Called (r : HttpRequest)
| Slept (ms : Z).

(** The remote service answers the n-th call (from 0) of the run, knowing
    the request; [events] holds what happened so far, latest first. *)
Record World := mkWorld {
  remote : nat -> HttpRequest -> HttpReply;
  events : list Event
}.

Definition is_call (e : Event) : bool :=
  match e with Called _ => true | Slept _ => false end.

Definition calls (w : World) : list HttpRequest :=
  flat_map (fun e => match e with Called r => [r] | Slept _ => [] end) (rev (events w)).

Definition sleeps (w : World) : list Z :=
  flat_map (fun e => match e with Slept ms => [ms] | Called _ => [] end) (rev (events w)).

(** The events in the order they happened. *)
Definition trace (w : World) : list Event := rev (events w).

Definition start (service : nat -> HttpRequest -> HttpReply) : World :=
  {| remote := service; events := [] |}.

(** An asynchronous computation. *)
Definition M (A : Type) : Type := World -> Completion A * World.

Definition ret {A} (a : A) : M A := fun w => (Normal a, w).

Definition bind {A B} (m : M A) (k : A -> M B) : M B :=
  fun w => match m w with
           | (Normal a, w1) => k a w1
           | (Throw t, w1) => (Throw t, w1)
           end.

Definition throw {A} (t : Thrown) : M A := fun w => (Throw t, w).

Definition throwError {A} (msg : string) : M A := throw (ThrowError (Error msg)).

(** [try { m } catch (error) { h error }]. *)
Definition catch {A} (m : M A) (h : Thrown -> M A) : M A :=
  fun w => match m w with
           | (Normal a, w1) => (Normal a, w1)
           | (Throw t, w1) => h t w1
           end.

(** A synchronous step that may throw. *)
Definition lift {A} (c : Completion A) : M A := fun w => (c, w).

(** [await new Promise(resolve => setTimeout(resolve, ms))]. *)
Definition pause (ms : Z) (w : World) : World :=
  {| remote := remote w; events := Slept ms :: events w |}.

Definition sleep (ms : Z) : M unit := fun w => (Normal tt, pause ms w).

(** [await this.client.get(url)] and [await this.client.post(url, body)]. *)
Definition request (r : HttpRequest) : M AxiosResponse :=
  fun w =>
    let w1 := {| remote := remote w; events := Called r :: events w |} in
    match remote w (List.length (calls w)) r with
    | Resolved resp => (Normal resp, w1)
    | Rejected e => (Throw (ThrowError e), w1)
    end.

Definition get (url : Value) : M AxiosResponse :=
  request {| req_method := GET; req_url := url; req_body := None |}.

Definition post (url : string) (body : JSON) : M AxiosResponse :=
  request {| req_method := POST; req_url := Some (JString url); req_body := Some body |}.

(** The wait of the retrier in the world, on the delay it holds: the timer
    runs for [Number.millis delay] milliseconds. *)
Definition backoff (delay : Number.number Number.doubles) (w : World) : World :=
  pause (Number.millis delay) w.

(** [retryWithBackoff(fn)] as the client calls it: on doubles, without
    options.  With the default [maxRetries] of 3 the loop ends within four
    passes, whatever [fn] does, so four are run. *)
Definition retried {A} (fn : M A) : M A :=
  fun w =>
    match Retry.retryWithBackoff backoff 4 fn Retry.no_options w with
    | Some result => result
    | None => (Throw (ThrowError (Error "Retry failed")), w)
    end.

(** What these four passes come to: the operation up to four times, with
    waits of 1000, 2000 and 4000 ms in between, ending at its first success
    or with its fourth failure. *)
Definition retried_passes {A} (fn : M A) : M A :=
  catch fn (fun _ =>
    bind (sleep 1000) (fun _ =>
      catch fn (fun _ =>
        bind (sleep 2000) (fun _ =>
          catch fn (fun _ =>
            bind (sleep 4000) (fun _ =>
              catch fn (fun t => throw (ThrowError (toError t))))))))).

End World.

Declare Scope world_scope.
Delimit Scope world_scope with world.
Notation "x <- c ;; k" := (World.bind c (fun x => k))
  (at level 61, c at next level, right associativity) : world_scope.
Notation "c ;;; k" := (World.bind c (fun _ => k))
  (at level 61, right associativity) : world_scope.

(* ================================================================== *)
(** ** services/briaApi.ts *)
(* ================================================================== *)

Module BriaApi.
Import Js World.
Local Open Scope world_scope.

(** A [Buffer]: its bytes.  (A buffer is never [null] here, so the [!buffer]
    half of the emptiness test is false.) *)
Definition Buffer := string.

Definition alphabet : string :=
  "ABCDEFGHIJKLMNOPQRSTUVWXYZabcdefghijklmnopqrstuvwxyz0123456789+/".

Definition sextet (n : N) : ascii :=
  match String.get (N.to_nat n) alphabet with
  | Some c => c
  | None => "="%char
  end.

(** [buffer.toString('base64')]. *)
Fixpoint base64 (b : Buffer) : string :=
  match b with
  | EmptyString => ""
  | String x EmptyString =>
      let x := N_of_ascii x in
      String (sextet (x / 4)) (String (sextet ((x mod 4) * 16)) "==")
  | String x (String y EmptyString) =>
      let x := N_of_ascii x in
      let y := N_of_ascii y in
      String (sextet (x / 4))
        (String (sextet ((x mod 4) * 16 + y / 16))
           (String (sextet ((y mod 16) * 4)) "="))
  | String x (String y (String z r)) =>
      let x := N_of_ascii x in
      let y := N_of_ascii y in
      let z := N_of_ascii z in
      String (sextet (x / 4))
        (String (sextet ((x mod 4) * 16 + y / 16))
           (String (sextet ((y mod 16) * 4 + z / 64))
              (String (sextet (z mod 64)) (base64 r))))
  end.

Record StyleExtractResponse := mkStyleExtractResponse {
  seed : JSON;
  structured_prompt : JSON;
  imageIndex : option nat
}.

Record PreviewResponse := mkPreviewResponse {
  requestId : Value;
  status : string;
  images : Value;
  error : Value
}.

Record ImageGenerateRequest := mkImageGenerateRequest {
  in_structured_prompt : Value;
  in_prompt : Value;
  in_seed : Value;
  in_sync : Value
}.

Record ImageGenerateResponse := mkImageGenerateResponse {
  image_url : Value;
  out_seed : JSON;
  request_id : Value
}.

(** [v === 'text']. *)
Definition is_text (v : Value) (text : string) : bool :=
  match v with
  | Some (JString s) => String.eqb s text
  | _ => false
  end.

(** [new Error(v)]: the message is [String(v)]. *)
Definition ErrorOf (v : JSON) : Thrown := ThrowError (Error (ToString v)).

(** [for (let i = from; i < from + passes; i++) { body i }  after]: a pass
    that yields [Some a] is a [return a] from the loop. *)
Fixpoint for_loop {A} (passes : nat) (i : nat) (body : nat -> M (option A)) (after : M A) : M A :=
  match passes with
  | O => after
  | S k => r <- body i ;;
           match r with
           | Some a => ret a
           | None => for_loop k (S i) body after
           end
  end.

(** [const result = data.result || data; return { seed: result.seed || 0,
    structured_prompt: result.structured_prompt || JSON.stringify(result) }]. *)
Definition styleResult (data : JSON) : Completion StyleExtractResponse :=
  (r <- getProp (Some data) "result" ;;
   let result := or_default r data in
   sd <- getProp (Some result) "seed" ;;
   sp <- getProp (Some result) "structured_prompt" ;;
   Normal {| seed := or_default sd (JNumber "0");
             structured_prompt := or_default sp (JString (stringify result));
             imageIndex := None |})%js.

Definition status_url_of (requestId statusUrl : Value) : Value :=
  if truthy statusUrl then statusUrl
  else Some (JString ("/status/" ++ ToStringValue requestId)).

(** What [pollStyleExtractStatus] does with the response to a poll: the
    [try] block after the [get]. *)
Definition style_settle (response : AxiosResponse) : M (option StyleExtractResponse) :=
  status <- lift (getProp (Some (resp_data response)) "status") ;;
  if is_text status "COMPLETED" then
    r <- lift (styleResult (resp_data response)) ;; ret (Some r)
  else if is_text status "ERROR" then
    e <- lift (getProp (Some (resp_data response)) "error") ;;
    throw (ErrorOf (or_default (getOpt e "message") (JString "Style extraction failed")))
  else
    sleep 2000 ;;; ret None.

(** The [try] block of [pollStyleExtractStatus]. *)
Definition style_poll (requestId statusUrl : Value) : M (option StyleExtractResponse) :=
  response <- get (status_url_of requestId statusUrl) ;;
  style_settle response.

Definition pollStyleExtractStatus (requestId statusUrl : Value) : M StyleExtractResponse :=
  let maxPolls := 30%nat in
  for_loop maxPolls 0
    (fun i =>
       catch (style_poll requestId statusUrl)
         (fun error =>
            if (i =? maxPolls - 1)%nat
            then throwError "Polling timeout for style extraction"
            else ret None))
    (throwError "Polling timeout for style extraction").

Definition preview_settle (requestId : Value) (response : AxiosResponse)
  : M (option PreviewResponse) :=
  status <- lift (getProp (Some (resp_data response)) "status") ;;
  if is_text status "completed" then
    imgs <- lift (getProp (Some (resp_data response)) "images") ;;
    ret (Some {| requestId := requestId; status := "completed";
                 images := Some (or_default imgs (JArray [])); error := None |})
  else if is_text status "failed" then
    e <- lift (getProp (Some (resp_data response)) "error") ;;
    ret (Some {| requestId := requestId; status := "failed"; images := None;
                 error := Some (or_default e (JString "Generation failed")) |})
  else
    sleep 2000 ;;; ret None.

(** The [try] block of [pollPreviewStatus]. *)
Definition preview_poll (requestId : Value) : M (option PreviewResponse) :=
  response <- get (Some (JString ("/fibo/status/" ++ ToStringValue requestId))) ;;
  preview_settle requestId response.

Definition pollPreviewStatus (requestId : Value) : M PreviewResponse :=
  let maxPolls := 30%nat in
  for_loop maxPolls 0
    (fun i =>
       catch (preview_poll requestId)
         (fun error =>
            if (i =? maxPolls - 1)%nat then throwError "Polling timeout" else ret None))
    (throwError "Polling timeout").

(** [axios.isAxiosError(error)]. *)
Definition is_axios (t : Thrown) : bool :=
  match t with
  | ThrowError e => isAxiosError e
  | ThrowOther _ => false
  end.

(** [error.response?.status], as a truth value. *)
Definition has_response_status (t : Thrown) : bool :=
  match t with
  | ThrowError e =>
      match response e with
      | Some r => negb (resp_status r =? 0)%Z
      | None => false
      end
  | ThrowOther _ => false
  end.

(** [{ image_url: result.image_url || result.images?.[0], seed: ... }]. *)
Definition imageResult (data : JSON) (seed_default : Value) (rid : Value)
  : Completion ImageGenerateResponse :=
  (r <- getProp (Some data) "result" ;;
   let result := or_default r data in
   url <- getProp (Some result) "image_url" ;;
   imgs <- getProp (Some result) "images" ;;
   sd <- getProp (Some result) "seed" ;;
   Normal {| image_url := if truthy url then url else first imgs;
             out_seed := or_default (or_else sd seed_default) (JNumber "0");
             request_id := rid |})%js.

Definition image_settle (requestId : Value) (response : AxiosResponse)
  : M (option ImageGenerateResponse) :=
  status <- lift (getProp (Some (resp_data response)) "status") ;;
  if is_text status "COMPLETED" || is_text status "completed" then
    r <- lift (imageResult (resp_data response) None requestId) ;; ret (Some r)
  else if is_text status "ERROR" || is_text status "failed" then
    e <- lift (getProp (Some (resp_data response)) "error") ;;
    throw (ErrorOf (or_default (getOpt e "message") (JString "Image generation failed")))
  else
    sleep 2000 ;;; ret None.

(** The [try] block of [pollImageGeneration]. *)
Definition image_poll (requestId statusUrl : Value) : M (option ImageGenerateResponse) :=
  response <- get (status_url_of requestId statusUrl) ;;
  image_settle requestId response.

Definition pollImageGeneration (requestId statusUrl : Value) : M ImageGenerateResponse :=
  let maxPolls := 60%nat in
  for_loop maxPolls 0
    (fun i =>
       catch (image_poll requestId statusUrl)
         (fun error =>
            if (i =? maxPolls - 1)%nat
            then throwError "Polling timeout for image generation"
            else if is_axios error && has_response_status error
            then throw error
            else ret None))
    (throwError "Polling timeout for image generation").

Definition network_code (e : JsError) : bool :=
  match code e with
  | Some c => String.eqb c "ENOTFOUND" || String.eqb c "ECONNREFUSED" || String.eqb c "ETIMEDOUT"
  | None => false
  end.

Definition cannot_connect (e : JsError) : string :=
  "Cannot connect to Bria API: " ++ message e
  ++ ". Please check your internet connection and API URL configuration.".

(** [`${statusCode}`] for [error.response?.status]. *)
Definition show_status (e : JsError) : string :=
  match response e with
  | Some r => JsonText.show_Z (resp_status r)
  | None => "undefined"
  end.

Definition errorData_of (e : JsError) : Value := option_map resp_data (response e).

(** The [catch] block of [extractStyle]. *)
Definition extractStyle_catch {A} (error : Thrown) : M A :=
  match error with
  | ThrowError e =>
      if isAxiosError e then
        if network_code e then throwError (cannot_connect e)
        else
          let errorData := errorData_of e in
          let errorMessage :=
            or_else (or_else (or_else (getOpt errorData "message") (getOpt errorData "error"))
                       (if is_string errorData then errorData
                        else option_map (fun d => JString (stringify d)) errorData))
                    (Some (JString (message e))) in
          throwError ("Bria API error (" ++ show_status e ++ "): " ++ ToStringValue errorMessage)
      else throw error
  | ThrowOther _ => throw error
  end.

(** [images.map((buffer, index) => ...)]: the first empty buffer throws. *)
Fixpoint encode_images (images : list Buffer) (index : nat) : Completion (list string) :=
  match images with
  | [] => Normal []
  | buffer :: rest =>
      if (String.length buffer =? 0)%nat
      then Throw (ThrowError (Error ("Image " ++ JsonText.show_Z (Z.of_nat index + 1)
                                     ++ " is empty or invalid")))
      else (more <- encode_images rest (S index) ;; Normal (base64 buffer :: more))%js
  end.

Definition one_image_only : string :=
  "Bria API v2 supports only 1 image per request. Please send images one at a time.".

(** The [try] block of the operation [extractStyle] hands to the retrier. *)
Definition extractStyle_try (images : list Buffer) : M StyleExtractResponse :=
  base64Images <- lift (encode_images images 0) ;;
  match base64Images with
  | [image] =>
      let jsonPayload := JObject [("images", JArray [JString image]); ("sync", JBool false)] in
      response <- post "/structured_prompt/generate" jsonPayload ;;
      request_id <- lift (getProp (Some (resp_data response)) "request_id") ;;
      status_url <- lift (getProp (Some (resp_data response)) "status_url") ;;
      if (resp_status response =? 202)%Z && truthy status_url
      then pollStyleExtractStatus request_id status_url
      else lift (styleResult (resp_data response))
  | _ => throwError one_image_only
  end.

(** The operation [extractStyle] hands to the retrier. *)
Definition extractStyle_operation (images : list Buffer) : M StyleExtractResponse :=
  catch (extractStyle_try images) extractStyle_catch.

Definition extractStyle (images : list Buffer) : M StyleExtractResponse :=
  retried (extractStyle_operation images).

(** The [catch] block of [generateImage]. *)
Definition generateImage_catch {A} (error : Thrown) : M A :=
  match error with
  | ThrowError e =>
      if isAxiosError e then
        if network_code e then throwError (cannot_connect e)
        else
          let errorData := errorData_of e in
          let errorMessage :=
            if is_string errorData then ToStringValue errorData
            else if truthy (getOpt errorData "message")
            then ToStringValue (getOpt errorData "message")
            else if truthy (getOpt errorData "error") then
              match getOpt errorData "error" with
              | Some (JString text) => text
              | Some (JArray items) => stringify_pretty 0 (JArray items)
              | Some (JObject props) => stringify_pretty 0 (JObject props)
              | _ => ""
              end
            else message e in
          throwError ("Bria API error (" ++ show_status e ++ "): " ++ errorMessage)
      else throw error
  | ThrowOther _ => throw error
  end.

(** The request body [generateImage] builds. *)
Definition generateImage_payload (request : ImageGenerateRequest) : JSON :=
  JObject
    ([("sync", JBool (negb match in_sync request with
                           | Some (JBool false) => true
                           | _ => false
                           end))]
     ++ (if truthy (in_structured_prompt request)
         then match in_structured_prompt request with
              | Some x => [("structured_prompt", x)]
              | None => []
              end
         else [])
     ++ (if truthy (in_prompt request)
         then match in_prompt request with Some x => [("prompt", x)] | None => [] end
         else [])
     ++ match in_seed request with Some x => [("seed", x)] | None => [] end).

(** The [try] block of the operation [generateImage] hands to the retrier.
    The log line before the call evaluates [payload.prompt?.substring(0, 150)],
    which throws when the prompt is there and is not a string. *)
Definition generateImage_try (request : ImageGenerateRequest) : M ImageGenerateResponse :=
  let payload := generateImage_payload request in
  (if truthy (in_prompt request) && negb (is_string (in_prompt request))
   then throw (TypeError "payload.prompt?.substring is not a function")
   else ret tt) ;;;
  response <- post "/image/generate" payload ;;
  _ <- lift (getProp (Some (resp_data response)) "result") ;;
  request_id <- lift (getProp (Some (resp_data response)) "request_id") ;;
  status_url <- lift (getProp (Some (resp_data response)) "status_url") ;;
  if (resp_status response =? 202)%Z && truthy status_url
  then pollImageGeneration request_id status_url
  else lift (imageResult (resp_data response) (in_seed request) request_id).

(** The operation [generateImage] hands to the retrier. *)
Definition generateImage_operation (request : ImageGenerateRequest) : M ImageGenerateResponse :=
  catch (generateImage_try request) generateImage_catch.

Definition generateImage (request : ImageGenerateRequest) : M ImageGenerateResponse :=
  retried (generateImage_operation request).

End BriaApi.

(* ================================================================== *)
(** ** utils/profileNameGenerator.ts *)
(* ================================================================== *)

Module ProfileName.
Import Js.
Local Open Scope js_scope.

(** [StyleAttributes]: every category optional; [{}] has none. *)
Record StyleAttributes := mkStyleAttributes {
  lighting : option (list string);
  colors : option (list string);
  mood : option (list string);
  atmosphere : option (list string);
  time : option (list string);
  weather : option (list string);
  location : option (list string);
  technical : option (list string)
}.

(** The literal [{}]. *)
Definition no_attributes : StyleAttributes :=
  {| lighting := None; colors := None; mood := None; atmosphere := None;
     time := None; weather := None; location := None; technical := None |}.

(** The literal with every category an empty array. *)
Definition empty_attributes : StyleAttributes :=
  {| lighting := Some []; colors := Some []; mood := Some []; atmosphere := Some [];
     time := Some []; weather := Some []; location := Some []; technical := Some [] |}.

Definition lighting_words : list string :=
  ["warm"; "cold"; "soft"; "harsh"; "natural"; "artificial"; "golden"; "blue";
   "dramatic"; "even"; "high contrast"; "low key"; "bright"; "dim"].
Definition mood_words : list string :=
  ["serene"; "dramatic"; "peaceful"; "energetic"; "calm"; "vibrant"; "moody";
   "cheerful"; "melancholic"; "mysterious"; "playful"; "elegant"].
Definition atmosphere_words : list string :=
  ["crisp"; "hazy"; "foggy"; "clear"; "ethereal"; "intimate"; "spacious"; "cozy";
   "urban"; "rural"].
Definition time_words : list string :=
  ["morning"; "afternoon"; "evening"; "night"; "dawn"; "dusk"; "twilight";
   "golden hour"; "blue hour"; "midday"].
Definition weather_words : list string :=
  ["sunny"; "cloudy"; "rainy"; "snowy"; "foggy"; "overcast"; "clear"; "stormy"].
Definition location_words : list string :=
  ["urban"; "city"; "street"; "nature"; "indoor"; "outdoor"; "studio"; "landscape";
   "portrait"; "architectural"].
Definition technical_words : list string :=
  ["shallow depth"; "bokeh"; "wide angle"; "telephoto"; "macro"; "long exposure"; "sharp"].
Definition color_words : list string :=
  ["cool"; "warm"; "vibrant"; "muted"; "pastel"; "bold"; "neutral"].
Definition coolColors : list string :=
  ["blue"; "cyan"; "teal"; "turquoise"; "#0"; "#1"; "#2"; "#3"; "#4"; "#5"].
Definition warmColors : list string :=
  ["red"; "orange"; "yellow"; "gold"; "#f"; "#e"; "#d"; "#c"].

(** [extractKeywords(text, keywords)] once [text] is a string. *)
Definition matching (text : string) (keywords : list string) : list string :=
  let lowerText := toLowerCase text in
  filter (fun keyword => includes lowerText (toLowerCase keyword)) keywords.

(** [extractKeywords]: [text.toLowerCase()] throws unless [text] is a
    string. *)
Definition extractKeywords (text : Value) (keywords : list string) : Completion (list string) :=
  match text with
  | Some (JString s) => Normal (matching s keywords)
  | None => Throw (TypeError "Cannot read properties of undefined (reading 'toLowerCase')")
  | Some JNull => Throw (TypeError "Cannot read properties of null (reading 'toLowerCase')")
  | Some _ => Throw (TypeError "text.toLowerCase is not a function")
  end.

Definition some {A} (f : A -> bool) (l : list A) : bool := existsb f l.

Definition extractColorDescriptors (colorData : Value) : list string :=
  match colorData with
  | Some (JArray items) =>
      let colors := map (fun c => toLowerCase (ToString c)) items in
      let hasCool := some (fun c => some (fun cool => includes c cool) coolColors) colors in
      let hasWarm := some (fun c => some (fun warm => includes c warm) warmColors) colors in
      (if hasCool && negb hasWarm then ["cool"] else [])
      ++ (if hasWarm && negb hasCool then ["warm"] else [])
      ++ (if hasCool && hasWarm then ["balanced"] else [])
      ++ (if some (fun c => includes c "blue") colors then ["blue"] else [])
      ++ (if some (fun c => includes c "gold" || includes c "yellow") colors
          then ["golden"] else [])
      ++ (if some (fun c => includes c "gray" || includes c "grey") colors
          then ["neutral"] else [])
  | Some (JString s) => matching s color_words
  | _ => []
  end.

(** [typeof v === 'string' ? v : JSON.stringify(v)] for a [v] that is there. *)
Definition text_of (v : Value) : Value :=
  match v with
  | Some (JString s) => v
  | Some j => Some (JString (stringify j))
  | None => None
  end.

Section WithDecoder.
(** [JSON.parse]: [None] is a [SyntaxError]. *)
Variable JSON_parse : string -> option JSON.

(** [JSON.parse(x)] for any value: the argument is turned into a string
    first. *)
Definition parse (x : JSON) : Completion JSON :=
  match JSON_parse (ToString x) with
  | Some v => Normal v
  | None => Throw (ThrowError (Error "SyntaxError: Unexpected token in JSON"))
  end.

(** The [try] block of [extractStyleAttributes]. *)
Definition extractStyleAttributes_try (structuredPrompt : JSON) : Completion StyleAttributes :=
  parsed <- parse structuredPrompt ;;
  let parsed := Some parsed in
  p_lighting <- getProp parsed "lighting" ;;
  a_lighting <- (if truthy p_lighting
                 then extractKeywords (text_of p_lighting) lighting_words
                 else Normal []) ;;
  p_colors <- getProp parsed "colors" ;;
  p_color_palette <- getProp parsed "color_palette" ;;
  p_palette <- getProp parsed "palette" ;;
  let colorData := or_else (or_else p_colors p_color_palette) p_palette in
  let a_colors := if truthy colorData then extractColorDescriptors colorData else [] in
  p_mood <- getProp parsed "mood" ;;
  p_vibe <- getProp parsed "vibe" ;;
  a_mood <- (if truthy (or_else p_mood p_vibe)
             then extractKeywords (or_else p_mood p_vibe) mood_words
             else Normal []) ;;
  p_atmosphere <- getProp parsed "atmosphere" ;;
  a_atmosphere <- (if truthy p_atmosphere
                   then extractKeywords p_atmosphere atmosphere_words
                   else Normal []) ;;
  p_time_of_day <- getProp parsed "time_of_day" ;;
  p_time <- getProp parsed "time" ;;
  a_time <- (if truthy (or_else p_time_of_day p_time)
             then extractKeywords (or_else p_time_of_day p_time) time_words
             else Normal []) ;;
  p_weather <- getProp parsed "weather" ;;
  a_weather <- (if truthy p_weather
                then extractKeywords p_weather weather_words
                else Normal []) ;;
  p_environment <- getProp parsed "environment" ;;
  p_location <- getProp parsed "location" ;;
  p_setting <- getProp parsed "setting" ;;
  let locationStr := or_else (or_else p_environment p_location) p_setting in
  a_location <- (if truthy locationStr
                 then extractKeywords locationStr location_words
                 else Normal []) ;;
  p_technical <- getProp parsed "technical" ;;
  p_photography <- getProp parsed "photography" ;;
  p_camera <- getProp parsed "camera" ;;
  let techData := or_else (or_else p_technical p_photography) p_camera in
  a_technical <- (if truthy techData
                  then extractKeywords (text_of techData) technical_words
                  else Normal []) ;;
  Normal {| lighting := Some a_lighting; colors := Some a_colors; mood := Some a_mood;
            atmosphere := Some a_atmosphere; time := Some a_time;
            weather := Some a_weather; location := Some a_location;
            technical := Some a_technical |}.

Definition extractStyleAttributes (structuredPrompt : JSON) : Completion StyleAttributes :=
  try_catch (extractStyleAttributes_try structuredPrompt)
    (fun error => Normal no_attributes).

(** One pass of the merge in [aggregateAttributes]: a category of
    [attrs] that is there is appended to the same category of [all]. *)
Definition merge_key (all attrs : option (list string)) : option (list string) :=
  match attrs, all with
  | Some a, Some l => Some (l ++ a)%list
  | _, _ => all
  end.

Definition merge (all attrs : StyleAttributes) : StyleAttributes :=
  {| lighting := merge_key (lighting all) (lighting attrs);
     colors := merge_key (colors all) (colors attrs);
     mood := merge_key (mood all) (mood attrs);
     atmosphere := merge_key (atmosphere all) (atmosphere attrs);
     time := merge_key (time all) (time attrs);
     weather := merge_key (weather all) (weather attrs);
     location := merge_key (location all) (location attrs);
     technical := merge_key (technical all) (technical attrs) |}.

(** [Array.from(new Set(values))]: first occurrences, in order. *)
Fixpoint dedupe (values : list string) : list string :=
  match values with
  | [] => []
  | v :: rest => v :: filter (fun w => negb (String.eqb w v)) (dedupe rest)
  end.

Definition dedupe_all (a : StyleAttributes) : StyleAttributes :=
  {| lighting := option_map dedupe (lighting a);
     colors := option_map dedupe (colors a);
     mood := option_map dedupe (mood a);
     atmosphere := option_map dedupe (atmosphere a);
     time := option_map dedupe (time a);
     weather := option_map dedupe (weather a);
     location := option_map dedupe (location a);
     technical := option_map dedupe (technical a) |}.

Fixpoint merge_prompts (structuredPrompts : list BriaApi.StyleExtractResponse)
         (allAttributes : StyleAttributes) : Completion StyleAttributes :=
  match structuredPrompts with
  | [] => Normal allAttributes
  | prompt :: rest =>
      attrs <- extractStyleAttributes (BriaApi.structured_prompt prompt) ;;
      merge_prompts rest (merge allAttributes attrs)
  end.

Definition aggregateAttributes (structuredPrompts : list BriaApi.StyleExtractResponse)
  : Completion StyleAttributes :=
  all <- merge_prompts structuredPrompts empty_attributes ;;
  Normal (dedupe_all all).

End WithDecoder.

(** [attributes[key]] when it is there and not empty, else nothing. *)
Definition values_of (category : option (list string)) : list string :=
  match category with
  | Some l => l
  | None => []
  end.

(** [frequency.set(val, (frequency.get(val) || 0) + 1)] on a [Map], which
    keeps its keys in the order they were first set. *)
Fixpoint count_in (frequency : list (string * nat)) (val : string) : list (string * nat) :=
  match frequency with
  | [] => [(val, 1%nat)]
  | (k, n) :: rest =>
      if String.eqb k val then (k, S n) :: rest else (k, n) :: count_in rest val
  end.

(** [entries.sort((a, b) => b[1] - a[1])]: by falling count, entries of equal
    count keeping their order (the sort is stable). *)
Fixpoint insert_entry (e : string * nat) (sorted : list (string * nat)) : list (string * nat) :=
  match sorted with
  | [] => [e]
  | x :: rest =>
      if (snd x <=? snd e)%nat then e :: sorted else x :: insert_entry e rest
  end.

Fixpoint sort_entries (entries : list (string * nat)) : list (string * nat) :=
  match entries with
  | [] => []
  | e :: rest => insert_entry e (sort_entries rest)
  end.

Definition getTopAttributes (attributes : StyleAttributes) (limit : nat) : list string :=
  let allValues :=
    (values_of (time attributes) ++ values_of (weather attributes)
     ++ values_of (location attributes) ++ values_of (lighting attributes)
     ++ values_of (mood attributes) ++ values_of (colors attributes)
     ++ values_of (atmosphere attributes) ++ values_of (technical attributes))%list in
  let frequency := fold_left count_in allValues [] in
  map fst (firstn limit (sort_entries frequency)).

Definition capitalize (word : string) : string :=
  match word with
  | EmptyString => EmptyString
  | String c rest => String (upper_char c) rest
  end.

Definition space : ascii := " "%char.

Definition capitalizeWords (text : string) : string :=
  join " " (map capitalize (split space text)).

(** [while (words.length > 2 && words.join(' ').length > maxLength)
    words.pop()]; each pass shortens [words], so [fuel] passes are enough
    when [fuel] is the number of words. *)
Fixpoint drop_words (fuel : nat) (maxLength : Z) (words : list string) : list string :=
  match fuel with
  | O => words
  | S f =>
      if (2 <? List.length words)%nat
         && (maxLength <? Z.of_nat (String.length (join " " words)))%Z
      then drop_words f maxLength (removelast words)
      else words
  end.

Definition default_maxLength : Z := 40.

Section Namer.
Variable JSON_parse : string -> option JSON.

(** The [try] block of [generateProfileName]. *)
Definition generateProfileName_try (structuredPrompts : list BriaApi.StyleExtractResponse)
           (maxLength : Z) : Completion string :=
  attributes <- aggregateAttributes JSON_parse structuredPrompts ;;
  let topAttributes := getTopAttributes attributes 4 in
  if (List.length topAttributes =? 0)%nat then Normal "Custom Style Profile"
  else
    let name := capitalizeWords (join " " topAttributes) in
    let name :=
      if (maxLength <? Z.of_nat (String.length name))%Z
      then let words := split space name in
           join " " (drop_words (List.length words) maxLength words)
      else name in
    Normal (if String.eqb name "" then "Style Profile" else name).

(** [generateProfileName(structuredPrompts, maxLength = 40)]; the length
    limit is taken over the integers. *)
Definition generateProfileName (structuredPrompts : list BriaApi.StyleExtractResponse)
           (maxLength : Z) : Completion string :=
  match structuredPrompts with
  | [] => Normal "Untitled Style"
  | _ =>
      try_catch (generateProfileName_try structuredPrompts maxLength)
        (fun error => Normal "Style Profile")
  end.
End Namer.

End ProfileName.

(* ================================================================== *)
(** ** utils/styleDnaParser.ts *)
(* ================================================================== *)

Module StyleDna.
Import Js.
Local Open Scope js_scope.

Record Technical := mkTechnical {
  depth_of_field : Value;
  focus : Value;
  lens : Value;
  aperture : Value;
  iso : Value;
  shutter_speed : Value
}.

(** [StyleDNA]: an object whose keys are all optional; a field that is
    [None] (for [technical], too) is a key the object does not have. *)
Record StyleDNA := mkStyleDNA {
  lighting : Value;
  color_palette : Value;
  colors : Value;
  mood : Value;
  atmosphere : Value;
  tone : Value;
  technical : option Technical;
  artistic_style : Value;
  photographic_style : Value;
  rendering_style : Value;
  time_of_day : Value;
  season : Value;
  weather : Value;
  original : Value
}.

(** [{ original: x }]. *)
Definition only_original (x : JSON) : StyleDNA :=
  {| lighting := None; color_palette := None; colors := None; mood := None;
     atmosphere := None; tone := None; technical := None; artistic_style := None;
     photographic_style := None; rendering_style := None; time_of_day := None;
     season := None; weather := None; original := Some x |}.

Definition has (v : Value) : nat := match v with Some _ => 1 | None => 0 end.

(** [Object.keys(styleDNA).length]. *)
Definition keys_length (d : StyleDNA) : nat :=
  has (lighting d) + has (color_palette d) + has (colors d) + has (mood d)
  + has (atmosphere d) + has (tone d)
  + match technical d with Some _ => 1 | None => 0 end
  + has (artistic_style d) + has (photographic_style d) + has (rendering_style d)
  + has (time_of_day d) + has (season d) + has (weather d) + has (original d).

(** [if (v) field = v]: the field keeps [current] unless [v] is truthy. *)
Definition assign (current v : Value) : Value := if truthy v then v else current.

Section WithDecoder.
Variable JSON_parse : string -> option JSON.

(** The [try] block of [parseStructuredPrompt].  Its first statement logs
    [Object.keys(parsed)], which throws on [null]. *)
Definition parseStructuredPrompt_try (structuredPromptStr : string) : Completion StyleDNA :=
  match JSON_parse structuredPromptStr with
  | None => Throw (ThrowError (Error "SyntaxError: Unexpected token in JSON"))
  | Some parsed =>
      _ <- keys_count (Some parsed) ;;
      let p := prop parsed in
      let technical :=
        let techSource := or_else (or_else (p "technical") (p "camera")) (p "photography") in
        match techSource with
        | Some src =>
            if truthy techSource then
              Some {| depth_of_field :=
                        assign (assign None (prop src "depth_of_field")) (prop src "dof");
                      focus := assign None (prop src "focus");
                      lens := assign None (prop src "lens");
                      aperture := assign None (prop src "aperture");
                      iso := assign None (prop src "iso");
                      shutter_speed := assign None (prop src "shutter_speed") |}
            else None
        | None => None
        end in
      Normal
        {| lighting := assign (assign (assign None (p "lighting")) (p "light")) (p "illumination");
           color_palette := assign (assign None (p "color_palette")) (p "palette");
           colors := assign None (p "colors");
           mood := assign (assign None (p "mood")) (p "vibe");
           atmosphere := assign None (p "atmosphere");
           tone := assign None (p "tone");
           technical := technical;
           artistic_style := assign (assign None (p "artistic_style")) (p "style");
           photographic_style := assign None (p "photographic_style");
           rendering_style := assign None (p "rendering_style");
           time_of_day := assign (assign None (p "time_of_day")) (p "time");
           season := assign None (p "season");
           weather := assign None (p "weather");
           original := Some parsed |}
  end.

Definition parseStructuredPrompt (structuredPromptStr : string) : Completion StyleDNA :=
  try_catch (parseStructuredPrompt_try structuredPromptStr)
    (fun error => Normal (only_original (JString structuredPromptStr))).
End WithDecoder.

(** A clause ["label: value"] when the value is truthy. *)
Definition clause (label : string) (v : Value) : list string :=
  if truthy v then [label ++ ": " ++ ToStringValue v] else [].

Definition lighting_clause (l : Value) : list string :=
  if truthy l then
    match l with
    | Some (JString text) => ["lighting: " ++ text]
    | Some (JObject _ as x) | Some (JArray _ as x) =>
        let cleanLighting :=
          flat_map (fun k => if truthy (prop x k)
                             then match prop x k with Some y => [y] | None => [] end
                             else [])
                   ["conditions"; "quality"; "type"] in
        if (0 <? List.length cleanLighting)%nat
        then ["lighting: " ++ array_join ", " cleanLighting]
        else []
    | _ => []
    end
  else [].

Definition color_clause (d : StyleDNA) : list string :=
  if truthy (color_palette d) || truthy (colors d) then
    match or_else (color_palette d) (colors d) with
    | Some (JArray items) => ["color palette: " ++ array_join ", " items]
    | Some x => ["color palette: " ++ stringify x]
    | None => []
    end
  else [].

Definition technical_clauses (d : StyleDNA) : list string :=
  match technical d with
  | Some tech =>
      (clause "depth of field" (depth_of_field tech) ++ clause "focus" (focus tech)
       ++ clause "lens" (lens tech) ++ clause "aperture" (aperture tech))%list
  | None => []
  end.

Definition style_clause (d : StyleDNA) : list string :=
  if truthy (artistic_style d) || truthy (photographic_style d) || truthy (rendering_style d)
  then ["style: " ++ ToStringValue (or_else (or_else (artistic_style d) (photographic_style d))
                                            (rendering_style d))]
  else [].

Definition styleDNAToPrompt (styleDNA : StyleDNA) : string :=
  let parts :=
    (lighting_clause (lighting styleDNA) ++ color_clause styleDNA
     ++ clause "mood" (mood styleDNA) ++ clause "atmosphere" (atmosphere styleDNA)
     ++ clause "tone" (tone styleDNA) ++ technical_clauses styleDNA
     ++ style_clause styleDNA ++ clause "time" (time_of_day styleDNA)
     ++ clause "season" (season styleDNA) ++ clause "weather" (weather styleDNA))%list in
  join ", " parts.

Definition fallback_sentence : string :=
  ", maintaining the same visual style, lighting, and atmosphere".

Definition createStyleTransferPrompt (newSubject : JSON) (styleDNA : StyleDNA) : string :=
  let styleDescription := styleDNAToPrompt styleDNA in
  if negb (String.eqb styleDescription "")
  then ToString newSubject ++ ", rendered with: " ++ styleDescription
  else ToString newSubject ++ fallback_sentence.

End StyleDna.

(* ================================================================== *)
(** ** api/generateImage.ts and api/styleExtract.ts *)
(* ================================================================== *)

(** What the handlers read of the process: [process.env.BRIA_API_KEY], the
    parsed [process.env.MAX_FILE_SIZE || '10485760'], and the clock behind
    [new Date().toISOString()] (its n-th reading). *)
Record Env := mkEnv {
  BRIA_API_KEY : option string;
  MAX_FILE_SIZE : Z;
  now : nat -> string
}.

(** [getBriaClient()]: throws when no key is configured. *)
Definition getBriaClient (env : Env) : World.M unit :=
  match BRIA_API_KEY env with
  | Some key => if String.eqb key "" then World.throwError "BRIA_API_KEY is not configured"
                else World.ret tt
  | None => World.throwError "BRIA_API_KEY is not configured"
  end.

(** [error.message], [error.response?.status] and [error.response?.data] of
    a caught value. *)
Definition message_of (t : Js.Thrown) : Js.Value :=
  match t with
  | Js.ThrowError e => Some (Js.JString (Js.message e))
  | Js.ThrowOther v => Js.getOpt v "message"
  end.

Definition response_of (t : Js.Thrown) : option Js.AxiosResponse :=
  match t with
  | Js.ThrowError e => Js.response e
  | Js.ThrowOther _ => None
  end.

(** [error.response?.status || 500]. *)
Definition statusCode_of (t : Js.Thrown) : Z :=
  match response_of t with
  | Some r => if (Js.resp_status r =? 0)%Z then 500%Z else Js.resp_status r
  | None => 500%Z
  end.

(** [error.response?.data || {}]. *)
Definition details_of (t : Js.Thrown) : Js.JSON :=
  Js.or_default (option_map Js.resp_data (response_of t)) (Js.JObject []).

Module GenerateImageRoute.
Import Js World.
Local Open Scope world_scope.

Inductive Reply :=
| BadRequest (error : string)
| Generated (result : BriaApi.ImageGenerateResponse) (style_dna : option StyleDna.StyleDNA)
| Failed (statusCode : Z) (error : string) (originalMessage : JSON) (details : JSON).

(** The HTTP status of a reply. *)
Definition status_of (r : Reply) : Z :=
  match r with
  | BadRequest _ => 400
  | Generated _ _ => 200
  | Failed statusCode _ _ _ => statusCode
  end.

(** The [catch] block of the handler. *)
Definition failure (error : Thrown) : Reply :=
  let statusCode := statusCode_of error in
  let errorMessage := or_default (message_of error) (JString "Internal server error") in
  let errorDetails := details_of error in
  let formattedError :=
    match errorDetails with
    | JObject _ | JArray _ | JNull => stringify_pretty 0 errorDetails
    | _ => ToString errorDetails
    end in
  let detailedMessage :=
    if (statusCode =? 422)%Z
    then "Bria validation error: "
         ++ (if String.eqb formattedError "" then "Invalid request format" else formattedError)
    else ToString errorMessage
         ++ (if String.eqb formattedError "" then "" else ": " ++ formattedError) in
  Failed statusCode detailedMessage errorMessage errorDetails.

Section Handler.
Variable JSON_parse : string -> option JSON.
Variable env : Env.

(** What the handler settles before it calls the client: the prompt, the
    structured prompt and the style DNA to answer with. *)
Definition prepare (structured_prompt prompt use_style_dna_parser : Value)
  : Value * Value * option StyleDna.StyleDNA :=
  if truthy use_style_dna_parser && truthy structured_prompt then
    match StyleDna.parseStructuredPrompt JSON_parse (ToStringValue structured_prompt) with
    | Normal styleDNA =>
        if (1 <? StyleDna.keys_length styleDNA)%nat
        then (Some (JString (StyleDna.createStyleTransferPrompt
                               (or_default prompt (JString "")) styleDNA)),
              None, Some styleDNA)
        else (prompt, None, Some styleDNA)
    | Throw parseError => (prompt, None, None)
    end
  else (prompt, structured_prompt, None).

(** The request the handler hands to [client.generateImage]. *)
Definition requestPayload (finalPrompt finalStructuredPrompt seed : Value)
  : BriaApi.ImageGenerateRequest :=
  {| BriaApi.in_structured_prompt :=
       if truthy finalStructuredPrompt then finalStructuredPrompt else None;
     BriaApi.in_prompt := finalPrompt;
     BriaApi.in_seed := seed;
     BriaApi.in_sync := Some (JBool true) |}.

(** [router.post('/', ...)] on a request whose JSON body is [body]. *)
Definition handler (body : JSON) : M Reply :=
  catch
    (structured_prompt <- lift (getProp (Some body) "structured_prompt") ;;
     prompt <- lift (getProp (Some body) "prompt") ;;
     seed <- lift (getProp (Some body) "seed") ;;
     use_style_dna_parser <- lift (getProp (Some body) "use_style_dna_parser") ;;
     if negb (truthy structured_prompt) && negb (truthy prompt)
     then ret (BadRequest "Either structured_prompt or prompt is required")
     else if truthy structured_prompt && negb (is_string structured_prompt)
     then ret (BadRequest "structured_prompt must be a string")
     else
       let '(finalPrompt, finalStructuredPrompt, styleDNA) :=
         prepare structured_prompt prompt use_style_dna_parser in
       getBriaClient env ;;;
       result <- BriaApi.generateImage
                   (requestPayload finalPrompt finalStructuredPrompt seed) ;;
       ret (Generated result styleDNA))
    (fun error => ret (failure error)).
End Handler.
End GenerateImageRoute.

(** *** The upload middleware *)

(** multer is a library the route configures.  This is its documented
    behaviour for [upload.array(field, maxCount)] under [limits] (a positive
    [limits.fileSize]): the file parts of the form are taken in order; a part
    beyond [limits.files] ends the upload with [LIMIT_FILE_COUNT]; a part
    with an empty file name counts as one and is left out; a part under
    another field, or one more than [maxCount] under [field], ends the upload
    with [LIMIT_UNEXPECTED_FILE]; a part the [fileFilter] refuses with the
    filter's error; a part whose size reaches [limits.fileSize] with
    [LIMIT_FILE_SIZE].  Without an error [req.files] holds the parts that
    have a file name. *)
Module Multer.
Import Js.

Record File := mkFile {
  fieldname : string;
  originalname : string;
  mimetype : string;
  buffer : BriaApi.Buffer
}.

Record Limits := mkLimits { fileSize : Z; files : nat }.

Definition MulterError (c msg : string) : JsError :=
  {| message := msg; isAxiosError := false; code := Some c; response := None |}.

Fixpoint take (field : string) (maxCount : nat) (limits : Limits)
         (fileFilter : File -> option JsError)
         (seen left : nat) (parts : list File) : JsError + list File :=
  match parts with
  | [] => inr []
  | file :: rest =>
      if (files limits <=? seen)%nat
      then inl (MulterError "LIMIT_FILE_COUNT" "Too many files")
      else if String.eqb (originalname file) ""
      then take field maxCount limits fileFilter (S seen) left rest
      else if negb (String.eqb (fieldname file) field) || (left =? 0)%nat
      then inl (MulterError "LIMIT_UNEXPECTED_FILE" "Unexpected field")
      else match fileFilter file with
           | Some err => inl err
           | None =>
               if (fileSize limits <=? Z.of_nat (String.length (buffer file)))%Z
               then inl (MulterError "LIMIT_FILE_SIZE" "File too large")
               else match take field maxCount limits fileFilter (S seen) (left - 1) rest with
                    | inl err => inl err
                    | inr more => inr (file :: more)
                    end
           end
  end.

Definition array (field : string) (maxCount : nat) (limits : Limits)
           (fileFilter : File -> option JsError) (parts : list File) : JsError + list File :=
  take field maxCount limits fileFilter 0 maxCount parts.

End Multer.

Module StyleExtractRoute.
Import Js World.
Local Open Scope world_scope.

Definition allowedTypes : list string :=
  ["image/jpeg"; "image/jpg"; "image/png"; "image/webp"; "image/x-png"; "image/pjpeg"].
Definition allowedExtensions : list string := ["jpg"; "jpeg"; "png"; "webp"].

Definition mem (x : string) (l : list string) : bool := existsb (String.eqb x) l.

(** [file.originalname.toLowerCase().split('.').pop()]. *)
Definition extension (name : string) : string :=
  last (split "."%char (toLowerCase name)) "".

(** The [fileFilter] of the upload: [None] accepts the file. *)
Definition fileFilter (file : Multer.File) : option JsError :=
  let fileExt := extension (Multer.originalname file) in
  if mem (Multer.mimetype file) allowedTypes
     || (negb (String.eqb fileExt "") && mem fileExt allowedExtensions)
  then None
  else Some (Error ("Invalid file type: "
                    ++ (if String.eqb (Multer.mimetype file) "" then "unknown"
                        else Multer.mimetype file)
                    ++ ". Only JPEG, PNG, and WebP are allowed.")).

(** [upload.array('images', 5)] with the route's limits. *)
Definition upload (env : Env) (parts : list Multer.File) : JsError + list Multer.File :=
  Multer.array "images" 5 {| Multer.fileSize := MAX_FILE_SIZE env; Multer.files := 20 |}
    fileFilter parts.

Record ImageError := mkImageError {
  err_imageIndex : nat;
  err_error : Value
}.

Record StyleProfile := mkStyleProfile {
  name : string;
  createdAt : string;
  images : list BriaApi.StyleExtractResponse;
  processedImages : nat;
  errors : option (list ImageError)
}.

Inductive Reply :=
| BadRequest (error : string)
| Profile (p : StyleProfile)
| Failed (statusCode : Z) (error : JSON) (details : JSON).

Definition status_of (r : Reply) : Z :=
  match r with
  | BadRequest _ => 400
  | Profile _ => 200
  | Failed statusCode _ _ => statusCode
  end.

(** [handleMulterError] on an error: always a 400. *)
Definition handleMulterError (err : JsError) : Reply :=
  match code err with
  | Some c =>
      if String.eqb c "LIMIT_FILE_SIZE"
      then BadRequest "File size too large. Maximum 10MB per file."
      else if String.eqb c "LIMIT_FILE_COUNT"
      then BadRequest "Too many files. Maximum 5 files allowed."
      else if includes (message err) "Invalid file type" then BadRequest (message err)
      else BadRequest (if String.eqb (message err) "" then "File upload error" else message err)
  | None =>
      if includes (message err) "Invalid file type" then BadRequest (message err)
      else BadRequest (if String.eqb (message err) "" then "File upload error" else message err)
  end.

Definition show_nat (n : nat) : string := JsonText.show_Z (Z.of_nat n).

(** The loop that validates the buffers: [inl] is the 400 it answers. *)
Fixpoint validate (files : list Multer.File) (i : nat) : string + list BriaApi.Buffer :=
  match files with
  | [] => inr []
  | file :: rest =>
      let label := "File " ++ show_nat (i + 1) ++ " (" ++ Multer.originalname file ++ ")" in
      if (String.length (Multer.buffer file) =? 0)%nat
      then inl (label ++ " has no data or is corrupted")
      else if (10 * 1024 * 1024 <? Z.of_nat (String.length (Multer.buffer file)))%Z
      then inl (label ++ " exceeds 10MB limit")
      else match validate rest (S i) with
           | inl e => inl e
           | inr buffers => inr (Multer.buffer file :: buffers)
           end
  end.

Section Handler.
Variable JSON_parse : string -> option JSON.
Variable env : Env.

(** The logging [try]/[catch] after a successful extraction: its [catch]
    block calls [result.structured_prompt.substring], which throws when
    the structured prompt is not a string. *)
Definition log_structure (result : BriaApi.StyleExtractResponse) : Completion unit :=
  try_catch
    (parsed <- ProfileName.parse JSON_parse (BriaApi.structured_prompt result) ;;
     _ <- keys_count (Some parsed) ;;
     Normal tt)%js
    (fun e =>
       if is_string (Some (BriaApi.structured_prompt result)) then Normal tt
       else Throw (TypeError "result.structured_prompt.substring is not a function")).

(** The loop over the images: [structuredPrompts] and [errors] grow at
    their ends. *)
Fixpoint process (imageBuffers : list BriaApi.Buffer) (i : nat)
         (structuredPrompts : list BriaApi.StyleExtractResponse)
         (errors : list ImageError)
  : M (list BriaApi.StyleExtractResponse * list ImageError) :=
  match imageBuffers with
  | [] => ret (structuredPrompts, errors)
  | buffer :: rest =>
      r <- catch
             (result <- BriaApi.extractStyle [buffer] ;;
              lift (log_structure result) ;;;
              ret (inl {| BriaApi.seed := BriaApi.seed result;
                          BriaApi.structured_prompt := BriaApi.structured_prompt result;
                          BriaApi.imageIndex := Some i |}))
             (fun error =>
                ret (inr {| err_imageIndex := i; err_error := message_of error |})) ;;
      match r with
      | inl prompt => process rest (S i) (structuredPrompts ++ [prompt]) errors
      | inr e => process rest (S i) structuredPrompts (errors ++ [e])
      end
  end.

(** The three tiers of the profile name; the second component is the number
    of clock readings used. *)
Definition profileName (profile_name : Value)
           (structuredPrompts : list BriaApi.StyleExtractResponse)
  : Completion (string * nat) :=
  (if truthy profile_name then
     match profile_name with
     | Some (JString text) =>
         if negb (String.eqb (trim text) "") then Normal (trim text, 0%nat)
         else if (0 <? List.length structuredPrompts)%nat
         then n <- ProfileName.generateProfileName JSON_parse structuredPrompts
                     ProfileName.default_maxLength ;; Normal (n, 0%nat)
         else Normal ("Style Profile - " ++ now env 0, 1%nat)
     | _ => Throw (TypeError "req.body.profile_name.trim is not a function")
     end
   else if (0 <? List.length structuredPrompts)%nat
   then n <- ProfileName.generateProfileName JSON_parse structuredPrompts
               ProfileName.default_maxLength ;; Normal (n, 0%nat)
   else Normal ("Style Profile - " ++ now env 0, 1%nat))%js.

(** The route handler proper, on [req.files] and [req.body.profile_name]. *)
Definition handler (files : option (list Multer.File)) (profile_name : Value) : M Reply :=
  catch
    (match files with
     | None => ret (BadRequest "No images provided")
     | Some [] => ret (BadRequest "No images provided")
     | Some files =>
         if (List.length files <? 1)%nat
         then ret (BadRequest "At least 1 image is required")
         else if (20 <? List.length files)%nat
         then ret (BadRequest ("Maximum 20 images allowed, received "
                               ++ show_nat (List.length files)))
         else
           match validate files 0 with
           | inl e => ret (BadRequest e)
           | inr imageBuffers =>
               getBriaClient env ;;;
               r <- process imageBuffers 0 [] [] ;;
               let '(structuredPrompts, errors) := r in
               named <- lift (profileName profile_name structuredPrompts) ;;
               let '(profileName, readings) := named in
               ret (Profile {| name := profileName;
                               createdAt := now env readings;
                               images := structuredPrompts;
                               processedImages := List.length imageBuffers;
                               errors := if (0 <? List.length errors)%nat
                                         then Some errors else None |})
           end
     end)
    (fun error =>
       ret (Failed (statusCode_of error)
                   (or_default (message_of error) (JString "Internal server error"))
                   (details_of error))).

(** An inbound request: the file parts of a multipart form, or a body that
    is not one (multer then leaves [req.files] unset). *)
Inductive Upload :=
| Multipart (parts : list Multer.File)
| NotMultipart.

(** [router.post('/', upload.array('images', 5), handleMulterError, ...)]. *)
Definition route (form : Upload) (profile_name : Value) : M Reply :=
  match form with
  | NotMultipart => handler None profile_name
  | Multipart parts =>
      match upload env parts with
      | inl err => ret (handleMulterError err)
      | inr files => handler (Some files) profile_name
      end
  end.
End Handler.
End StyleExtractRoute.

(* ================================================================== *)
(** ** Notions the properties are stated with *)
(* ================================================================== *)

Module Notions.
Import Js.

(** An option of the retrier as the loop reads it: the number given, or the
    default [d]. *)
Definition given {N : Number.Arithmetic} (o : option (Number.number N)) (d : Z)
  : Number.number N :=
  match o with
  | Some x => x
  | None => Number.lit N d
  end.

(** The waits of the retrier before its n next retries, from [delay] on:
    each is the one before times [multiplier], capped at [maxDelay]. *)
Fixpoint schedule {N : Number.Arithmetic} (multiplier maxDelay delay : Number.number N)
         (n : nat) : list (Number.number N) :=
  match n with
  | O => []
  | S m =>
      delay :: schedule multiplier maxDelay
                 (Number.min N (Number.mul N delay multiplier) maxDelay) m
  end.


(** The waits before the first n retries under [options], the defaults being
    an initial delay of 1000, a multiplier of 2 and a cap of 10000. *)
Definition backoff_waits {N : Number.Arithmetic} (options : Retry.RetryOptions N) (n : nat)
  : list (Number.number N) :=
  schedule (given (Retry.backoffMultiplier options) 2) (given (Retry.maxDelay options) 10000)
    (given (Retry.initialDelay options) 1000) n.






(** The same laws as a check on the numbers of a sample. *)
Definition ordered_on (N : Number.Arithmetic) (sample : list (Number.number N)) : bool :=
  let leb := Number.leb N in
  let holds (a b : bool) := negb a || b in
  let zero := Number.lit N 0 in
  let one := Number.lit N 1 in
  forallb (fun a => forallb (fun b =>
    holds (leb a b) (leb a a && leb b b)
    && holds (leb zero a && leb one b && leb (Number.mul N a b) (Number.mul N a b))
         (leb a (Number.mul N a b))
    && holds (leb zero a && leb one b && leb (Number.mul N zero b) (Number.mul N zero b))
         (leb (Number.mul N a b) (Number.mul N a b))
    && holds (leb a a && leb b b) (leb (Number.min N a b) b)
    && forallb (fun c =>
         holds (leb a b && leb b c) (leb a c)
         && holds (leb a b && leb a c) (leb a (Number.min N b c))) sample) sample) sample.

(** Every event [m] adds to the world satisfies [Q], and [m] leaves the
    remote service as it is. *)
Definition emits {A} (Q : World.Event -> Prop) (m : World.M A) : Prop :=
  forall w, exists extra,
    World.events (snd (m w)) = (extra ++ World.events w)%list
    /\ World.remote (snd (m w)) = World.remote w
    /\ Forall Q extra.

(** An event is a wait, a GET, or a POST whose JSON body satisfies [Q]. *)
Definition posting (Q : JSON -> Prop) (e : World.Event) : Prop :=
  match e with
  | World.Slept _ => True
  | World.Called r =>
      match World.req_method r with
      | World.GET => True
      | World.POST => exists body, World.req_body r = Some body /\ Q body
      end
  end.

(** An event is a wait: no call to the remote service. *)
Definition waiting (e : World.Event) : Prop :=
  match e with
  | World.Slept _ => True
  | World.Called _ => False
  end.

(** The run of the retrier on [fn] in the world, on doubles, with the
    invocations of [fn] counted, and how many they are. *)
Definition counted_run {A} (passes : nat) (fn : World.M A)
           (options : Retry.RetryOptions Number.doubles) (w : World.World)
  : option (Completion A * (World.World * nat)) :=
  Retry.retryWithBackoff (Retry.uncounted World.backoff) passes (Retry.counted fn) options
    (w, 0%nat).

Definition invocations_of {A} (passes : nat) (fn : World.M A)
           (options : Retry.RetryOptions Number.doubles) (w : World.World) : option nat :=
  match counted_run passes fn options w with
  | Some (_, (_, n)) => Some n
  | None => None
  end.

(** The number of calls among events. *)
Fixpoint ncalls (es : list World.Event) : nat :=
  match es with
  | [] => 0
  | World.Called _ :: rest => S (ncalls rest)
  | World.Slept _ :: rest => ncalls rest
  end.

(** The k-th answer of the service reports a status that style-extraction
    polling does not know: the operation is still pending. *)
Definition pending (service : nat -> World.HttpRequest -> World.HttpReply) (k : nat) : Prop :=
  forall r, exists resp st,
    service k r = World.Resolved resp
    /\ prop (resp_data resp) "status" = Some (JString st)
    /\ st <> "COMPLETED" /\ st <> "ERROR".

(** The k-th answer of the service reports [COMPLETED]. *)
Definition completes (service : nat -> World.HttpRequest -> World.HttpReply) (k : nat) : Prop :=
  forall r, exists resp,
    service k r = World.Resolved resp
    /\ prop (resp_data resp) "status" = Some (JString "COMPLETED").

(** The world after the call [r] was made in [w]. *)
Definition called (r : World.HttpRequest) (w : World.World) : World.World :=
  {| World.remote := World.remote w; World.events := World.Called r :: World.events w |}.


(** The GET of a poll. *)
Definition poll_of (url : Value) : World.HttpRequest :=
  {| World.req_method := World.GET; World.req_url := url; World.req_body := None |}.






(** The POST of a generation request with the body [payload]. *)
Definition generation_post (payload : JSON) : World.HttpRequest :=
  {| World.req_method := World.POST;
     World.req_url := Some (JString "/image/generate");
     World.req_body := Some payload |}.

(** A body the generation endpoint accepts and its client sends on: a
    structured prompt or a prompt is given, and each is a string when given. *)
Definition accepted (body : JSON) : Prop :=
  (truthy (prop body "structured_prompt") = true \/ truthy (prop body "prompt") = true)
  /\ (truthy (prop body "structured_prompt") = true
      -> is_string (prop body "structured_prompt") = true)
  /\ (truthy (prop body "prompt") = true -> is_string (prop body "prompt") = true).

(** The errors of a profile, none when the field is absent. *)
Definition errors_of (p : StyleExtractRoute.StyleProfile) : list StyleExtractRoute.ImageError :=
  match StyleExtractRoute.errors p with
  | Some l => l
  | None => []
  end.

(** The invariants of a style profile: the images and the errors together
    account for the processed images; every image carries its index, the
    indices are distinct and below [processedImages]; and each index from 0
    to [processedImages - 1] is recorded once, among the images or among
    the errors. *)
Definition profile_invariant (p : StyleExtractRoute.StyleProfile) : Prop :=
  (Z.of_nat (List.length (StyleExtractRoute.images p))
   = Z.of_nat (StyleExtractRoute.processedImages p) - Z.of_nat (List.length (errors_of p)))%Z
  /\ exists indices,
      map BriaApi.imageIndex (StyleExtractRoute.images p) = map Some indices
      /\ NoDup indices
      /\ Forall (fun i => (i < StyleExtractRoute.processedImages p)%nat) indices
      /\ Permutation.Permutation
           (indices ++ map StyleExtractRoute.err_imageIndex (errors_of p))
           (seq 0 (StyleExtractRoute.processedImages p)).

(** The extraction of one image as the loop of the handler attempts it: the
    call of the client and the log of its result. *)
Definition attempt (JSON_parse : string -> option JSON) (buffer : BriaApi.Buffer)
  : World.M BriaApi.StyleExtractResponse :=
  World.bind (BriaApi.extractStyle [buffer]) (fun result =>
    World.bind (World.lift (StyleExtractRoute.log_structure JSON_parse result)) (fun _ =>
      World.ret result)).

(** The outcomes of the images of a request: each image is attempted in
    turn, in the world the one before it left, whether that one failed or
    not. *)
Fixpoint attempts (JSON_parse : string -> option JSON) (buffers : list BriaApi.Buffer)
         (w : World.World) : list (Completion BriaApi.StyleExtractResponse) * World.World :=
  match buffers with
  | [] => ([], w)
  | buffer :: rest =>
      let (outcome, w1) := attempt JSON_parse buffer w in
      let (outcomes, w') := attempts JSON_parse rest w1 in
      (outcome :: outcomes, w')
  end.

(** What the outcomes of the images from the i-th on leave in a profile: a
    structured prompt with its index for each image that succeeded, an error
    with its index and the message of what was thrown for each that
    failed. *)
Fixpoint extracted (outcomes : list (Completion BriaApi.StyleExtractResponse)) (i : nat)
  : list BriaApi.StyleExtractResponse :=
  match outcomes with
  | [] => []
  | Normal result :: rest =>
      {| BriaApi.seed := BriaApi.seed result;
         BriaApi.structured_prompt := BriaApi.structured_prompt result;
         BriaApi.imageIndex := Some i |} :: extracted rest (S i)
  | Throw _ :: rest => extracted rest (S i)
  end.

Fixpoint failures (outcomes : list (Completion BriaApi.StyleExtractResponse)) (i : nat)
  : list StyleExtractRoute.ImageError :=
  match outcomes with
  | [] => []
  | Normal _ :: rest => failures rest (S i)
  | Throw error :: rest =>
      {| StyleExtractRoute.err_imageIndex := i;
         StyleExtractRoute.err_error := message_of error |} :: failures rest (S i)
  end.

(** The file part has a file name. *)
Definition named (file : Multer.File) : bool :=
  negb (String.eqb (Multer.originalname file) "").

(** A file part the upload and the handler have nothing against: under the
    field [images], with a file name, of an allowed type, not empty, smaller
    than the upload's size limit and within the handler's 10 MB. *)
Definition acceptable (env : Env) (file : Multer.File) : Prop :=
  Multer.fieldname file = "images"
  /\ Multer.originalname file <> ""
  /\ StyleExtractRoute.fileFilter file = None
  /\ (0 < String.length (Multer.buffer file))%nat
  /\ (Z.of_nat (String.length (Multer.buffer file)) < MAX_FILE_SIZE env)%Z
  /\ (Z.of_nat (String.length (Multer.buffer file)) <= 10 * 1024 * 1024)%Z.

(** The character [c] occurs in [s]. *)
Fixpoint occurs (c : ascii) (s : string) : bool :=
  match s with
  | EmptyString => false
  | String a r => Ascii.eqb a c || occurs c r
  end.

(** The number of words of a name: [name.split(' ').length]. *)
Definition words (name : string) : nat := List.length (split ProfileName.space name).

End Notions.

(* ================================================================== *)
(** ** Inputs the examples run on *)
(* ================================================================== *)

Module Fixtures.
Import Js.

(** JSON text written with apostrophes for its double quotes. *)
Fixpoint json (s : string) : string :=
  match s with
  | EmptyString => EmptyString
  | String c r => String (if Ascii.eqb c "'"%char then dquote else c) (json r)
  end.

(** An operation that fails three times and then yields 7. *)
Definition flaky (k : nat) : Completion nat :=
  if (k <? 3)%nat then Throw (ThrowError (Error "service down")) else Normal 7%nat.

(** An operation that fails every time it is invoked, the k-th time (from
    0) with the message [failure k]. *)
Definition failing (k : nat) : Completion nat :=
  Throw (ThrowError (Error ("failure " ++ JsonText.show_Z (Z.of_nat k)))).


(** A configured process. *)
Definition env1 : Env :=
  {| BRIA_API_KEY := Some "key"; MAX_FILE_SIZE := 10485760;
     now := fun _ => "2025-01-01T00:00:00.000Z" |}.

(** A process without an API key. *)
Definition env0 : Env :=
  {| BRIA_API_KEY := None; MAX_FILE_SIZE := 10485760;
     now := fun _ => "2025-01-01T00:00:00.000Z" |}.

Definition ok (data : JSON) : World.HttpReply :=
  World.Resolved {| resp_status := 200; resp_statusText := "OK"; resp_data := data |}.

(** A remote service that answers every call at once with an image. *)
Definition obliging (n : nat) (r : World.HttpRequest) : World.HttpReply :=
  ok (JObject [("result", JObject [("image_url", JString "https://cdn/1.png");
                                   ("seed", JNumber "7")])]).

(** A generation request with the DNA parser on, whose structured prompt
    has no style key. *)
Definition bicycle_no_style : JSON :=
  JObject [("use_style_dna_parser", JBool true);
           ("structured_prompt", JString "{}");
           ("prompt", JString "a red bicycle");
           ("sync", JBool false)].

(** The same with a structured prompt that has style keys. *)
Definition bicycle_styled : JSON :=
  JObject [("use_style_dna_parser", JBool true);
           ("structured_prompt", JString (json "{'lighting': 'warm', 'mood': 'serene'}"));
           ("prompt", JString "a red bicycle")].

(** A status report, as the status endpoints send one. *)
Definition report (st : string) (more : list (string * JSON)) : World.HttpReply :=
  ok (JObject (("status", JString st) :: more)).

(** A service whose every status report is an error with a message. *)
Definition erroring (n : nat) (r : World.HttpRequest) : World.HttpReply :=
  report "ERROR" [("error", JObject [("message", JString "corrupt image")])].

(** A service that first reports an error and then completion. *)
Definition error_then_done (n : nat) (r : World.HttpRequest) : World.HttpReply :=
  match n with
  | O => report "ERROR" [("error", JObject [("message", JString "corrupt image")])]
  | _ => report "COMPLETED" [("result", JObject [("seed", JNumber "7");
                                                  ("structured_prompt", JString "{}")])]
  end.



(** A service that reports the status [st] and nothing else. *)
Definition reporting (st : string) (n : nat) (r : World.HttpRequest) : World.HttpReply :=
  report st [].

(** A structured prompt as the extraction returns one, from its text. *)
Definition prompt_of (text : string) : BriaApi.StyleExtractResponse :=
  {| BriaApi.seed := JNumber "1"; BriaApi.structured_prompt := JString text;
     BriaApi.imageIndex := None |}.

(** Doubles of every kind: zeros of both signs, integers and fractions, the
    smallest and the largest finite doubles, the infinities and [NaN]. *)
Definition doubles_sample : list (Number.number Number.doubles) :=
  [Number.double 0; PrimFloat.opp (Number.double 0); Number.double 1; Number.double 2;
   Number.double 3; PrimFloat.div (Number.double 1) (Number.double 2);
   PrimFloat.div (Number.double 5) (Number.double 2); Number.double 1000;
   Number.double 10000; Number.double 9007199254740991; Number.double (-1);
   Number.double (-5); PrimFloat.next_up (Number.double 0);
   PrimFloat.next_down PrimFloat.infinity; Number.double (2 ^ 600);
   PrimFloat.infinity; PrimFloat.neg_infinity; PrimFloat.nan].

(** The no-break space U+00A0 and the ideographic space U+3000, in UTF-8. *)
Definition nbsp : string := String (ascii_of_nat 194) (String (ascii_of_nat 160) "").
Definition ideographic_space : string :=
  String (ascii_of_nat 227) (String (ascii_of_nat 128) (String (ascii_of_nat 128) "")).

(** A configured process whose uploads are limited to 9 bytes a file. *)
Definition env9 : Env :=
  {| BRIA_API_KEY := Some "key"; MAX_FILE_SIZE := 9;
     now := fun _ => "2025-01-01T00:00:00.000Z" |}.

(** An uploaded PNG. *)
Definition png (name : string) (bytes : BriaApi.Buffer) : Multer.File :=
  {| Multer.fieldname := "images"; Multer.originalname := name;
     Multer.mimetype := "image/png"; Multer.buffer := bytes |}.

Definition three_images : list Multer.File :=
  [png "one.png" "image-one"; png "two.png" "image-two"; png "three.png" "image-three"].

Definition six_images : list Multer.File :=
  [png "1.png" "a"; png "2.png" "b"; png "3.png" "c"; png "4.png" "d"; png "5.png" "e";
   png "6.png" "f"].

(** A remote service that fails on the second of [three_images] and answers
    the others at once. *)
Definition second_fails (n : nat) (r : World.HttpRequest) : World.HttpReply :=
  match World.req_body r with
  | Some body =>
      if includes (stringify body) (BriaApi.base64 "image-two")
      then World.Rejected
             {| message := "Request failed with status code 500";
                isAxiosError := true;
                code := Some "ERR_BAD_RESPONSE";
                response := Some {| resp_status := 500;
                                    resp_statusText := "Internal Server Error";
                                    resp_data := JObject [("message", JString "model crashed")] |} |}
      else ok (JObject [("result",
                         JObject [("seed", JNumber "7");
                                  ("structured_prompt",
                                   JString (json "{'lighting': 'warm morning light'}"))])])
  | None => ok JNull
  end.

(** The profile the route answers on [three_images] against
    [second_fails]. *)
Definition two_of_three : StyleExtractRoute.StyleProfile :=
  let extracted (i : nat) :=
    {| BriaApi.seed := JNumber "7";
       BriaApi.structured_prompt := JString (json "{'lighting': 'warm morning light'}");
       BriaApi.imageIndex := Some i |} in
  {| StyleExtractRoute.name := "Warm";
     StyleExtractRoute.createdAt := "2025-01-01T00:00:00.000Z";
     StyleExtractRoute.images := [extracted 0%nat; extracted 2%nat];
     StyleExtractRoute.processedImages := 3;
     StyleExtractRoute.errors :=
       Some [{| StyleExtractRoute.err_imageIndex := 1;
                StyleExtractRoute.err_error :=
                  Some (JString "Bria API error (500): model crashed") |}] |}.

(** The axios error of a 404 answer, and a status endpoint that answers
    every poll with it. *)
Definition not_found : JsError :=
  {| message := "Request failed with status code 404";
     isAxiosError := true;
     code := Some "ERR_BAD_REQUEST";
     response := Some {| resp_status := 404; resp_statusText := "Not Found";
                         resp_data := JString "no such request" |} |}.

Definition answers_not_found (n : nat) (r : World.HttpRequest) : World.HttpReply :=
  World.Rejected not_found.

End Fixtures.

(* ================================================================== *)
(** ** utils/styleDnaParser.ts: the style-only structured prompt *)
(* ================================================================== *)

Module StyleOnly.
Import Js StyleDna.

Definition styleFieldsWhitelist : list string :=
  ["lighting"; "light"; "illumination"; "color_palette"; "colors"; "palette"; "mood";
   "mood_atmosphere"; "atmosphere"; "tone"; "vibe"; "aesthetics";
   "photographic_characteristics"; "technical"; "camera"; "photography";
   "artistic_style"; "photographic_style"; "rendering_style"; "style"; "style_medium";
   "time_of_day"; "time"; "season"; "weather"; "color_scheme"].

Fixpoint indexed {X} (f : X -> JSON) (i : nat) (l : list X) : list (string * JSON) :=
  match l with
  | [] => []
  | x :: rest => (JsonText.show_Z (Z.of_nat i), f x) :: indexed f (S i) rest
  end.

(** [Object.entries(v)] of a value that is neither [null] nor [undefined]:
    the own properties of an object, the indexed elements of an array, the
    indexed characters of a string (of an ASCII string: a byte is one
    character), nothing for a number or a boolean. *)
Definition entries (v : JSON) : list (string * JSON) :=
  match v with
  | JObject props => props
  | JArray items => indexed (fun x => x) 0 items
  | JString text => indexed (fun c => JString (String c "")) 0 (list_ascii_of_string text)
  | _ => []
  end.

(** [obj[k] = v]: an own property keeps its place, a new one comes last. *)
Fixpoint set_prop (obj : list (string * JSON)) (k : string) (v : JSON)
  : list (string * JSON) :=
  match obj with
  | [] => [(k, v)]
  | (k0, v0) :: rest =>
      if String.eqb k0 k then (k0, v) :: rest else (k0, v0) :: set_prop rest k v
  end.

(** [styleFieldsWhitelist.some(allowed => lowerKey === allowed ||
    lowerKey.includes(allowed))]. *)
Definition isStyleField (lowerKey : string) : bool :=
  existsb (fun allowed => String.eqb lowerKey allowed || includes lowerKey allowed)
    styleFieldsWhitelist.

(** The inner loop: the sub-fields of [aesthetics] without those whose name
    includes [composition]. *)
Definition cleanAesthetics (value : JSON) : list (string * JSON) :=
  fold_left
    (fun clean '(subKey, subValue) =>
       if negb (includes (toLowerCase subKey) "composition")
       then set_prop clean subKey subValue
       else clean)
    (entries value) [].

(** One pass of the loop over the entries of [original]. *)
Definition copy_entry (styleObj : list (string * JSON)) (entry : string * JSON)
  : list (string * JSON) :=
  let '(key, value) := entry in
  let lowerKey := toLowerCase key in
  if isStyleField lowerKey && truthy (Some value) then
    if String.eqb key "aesthetics"
       && match typeof (Some value) with t_object => true | _ => false end
    then
      let clean := cleanAesthetics value in
      if (0 <? List.length clean)%nat then set_prop styleObj key (JObject clean)
      else styleObj
    else set_prop styleObj key value
  else styleObj.

(** [if (styleDNA.k) styleObj.k = styleDNA.k]. *)
Definition fall_back (styleObj : list (string * JSON)) (k : string) (v : Value)
  : list (string * JSON) :=
  match v with
  | Some x => if truthy v then set_prop styleObj k x else styleObj
  | None => styleObj
  end.

(** The object [createStyleOnlyStructuredPrompt] builds. *)
Definition styleObj (styleDNA : StyleDNA) : list (string * JSON) :=
  let original := or_default (original styleDNA) (JObject []) in
  let copied := fold_left copy_entry (entries original) [] in
  if (List.length copied =? 0)%nat then
    fall_back
      (fall_back
         (fall_back
            (fall_back (fall_back copied "lighting" (lighting styleDNA))
               "color_palette" (color_palette styleDNA))
            "colors" (colors styleDNA))
         "mood" (mood styleDNA))
      "atmosphere" (atmosphere styleDNA)
  else copied.

Definition createStyleOnlyStructuredPrompt (styleDNA : StyleDNA) : string :=
  stringify (JObject (styleObj styleDNA)).

(** [aggregateStyleDNA]: nothing of many, else a copy of the first. *)
Definition empty_dna : StyleDNA :=
  {| lighting := None; color_palette := None; colors := None; mood := None;
     atmosphere := None; tone := None; technical := None; artistic_style := None;
     photographic_style := None; rendering_style := None; time_of_day := None;
     season := None; weather := None; original := None |}.

Definition aggregateStyleDNA (styleDNAs : list StyleDNA) : StyleDNA :=
  match styleDNAs with
  | [] => empty_dna
  | first :: _ => first
  end.

End StyleOnly.

(* ================================================================== *)
(** ** services/briaApi.ts: previews and batches *)
(* ================================================================== *)

Module Fibo.
Import Js World BriaApi.
Local Open Scope world_scope.

(** [a || b] where [b] is only evaluated when [a] is falsy. *)
Definition or_lazy (a : Value) (b : Completion Value) : Completion Value :=
  if truthy a then Normal a else b.

(** A property of an object literal: left out of the JSON body when its
    value is [undefined]. *)
Definition field (k : string) (v : Value) : list (string * JSON) :=
  match v with
  | Some x => [(k, x)]
  | None => []
  end.

(** [mapPresetToFIBO(preset, prompt, negativePrompt)], as the JSON body it
    becomes.  The preset is whatever value the caller passed. *)
Definition mapPresetToFIBO (preset prompt negativePrompt : Value) : Completion JSON :=
  (p_prompt <- or_lazy prompt (getProp preset "prompt") ;;
   p_negative <- or_lazy negativePrompt (getProp preset "negativePrompt") ;;
   controls <- getProp preset "controls" ;;
   render_steps <- getProp preset "render" ;;
   render_guidance <- getProp preset "render" ;;
   render_seed <- getProp preset "render" ;;
   render_resolution <- getProp preset "render" ;;
   film <- getProp preset "film" ;;
   expansion <- getProp preset "expansion" ;;
   Normal
     (JObject
        (field "prompt" p_prompt
         ++ [("negative_prompt", or_default p_negative (JString ""));
             ("controls", or_default controls (JObject []));
             ("render",
              JObject
                ([("steps", or_default (getOpt render_steps "steps") (JNumber "30"));
                  ("guidance", or_default (getOpt render_guidance "guidance") (JNumber "7.5"))]
                 ++ field "seed" (getOpt render_seed "seed")
                 ++ [("resolution",
                      or_default (getOpt render_resolution "resolution")
                        (JString "1024x1024"))]));
             ("film", or_default film (JObject []));
             ("expansion", or_default expansion (JObject []))])))%js.

Record PreviewRequest := mkPreviewRequest {
  preset : Value;
  prompt : Value;
  negativePrompt : Value
}.

(** The [catch] block of [preview], [createBatch] and [getBatchStatus]. *)
Definition fibo_catch {A} (error : Thrown) : M A :=
  match error with
  | ThrowError e =>
      if isAxiosError e
      then throwError ("Bria API error: "
                       ++ ToStringValue (or_else (getOpt (errorData_of e) "message")
                                                 (Some (JString (message e)))))
      else throw error
  | ThrowOther _ => throw error
  end.

(** The [try] block of the operation [preview] hands to the retrier. *)
Definition preview_try (request : PreviewRequest) : M PreviewResponse :=
  fiboPayload <- lift (mapPresetToFIBO (preset request) (prompt request)
                         (negativePrompt request)) ;;
  response <- post "/fibo/generate" fiboPayload ;;
  requestId <- lift ((request_id <- getProp (Some (resp_data response)) "request_id" ;;
                      or_lazy request_id (getProp (Some (resp_data response)) "id"))%js) ;;
  pollPreviewStatus requestId.

Definition preview (request : PreviewRequest) : M PreviewResponse :=
  retried (catch (preview_try request) fibo_catch).

Record BatchResponse := mkBatchResponse {
  jobId : Value;
  batch_status : JSON;
  totalItems : Value;
  completedItems : Value;
  failedItems : Value;
  downloadUrl : Value;
  manifestUrl : Value
}.

(** [request.items.map(item => ({ ...this.mapPresetToFIBO(...) }))]. *)
Fixpoint map_items (items : list PreviewRequest) : Completion (list JSON) :=
  match items with
  | [] => Normal []
  | item :: rest =>
      (payload <- mapPresetToFIBO (preset item) (prompt item) (negativePrompt item) ;;
       more <- map_items rest ;;
       Normal (payload :: more))%js
  end.

(** The [try] block of [createBatch]. *)
Definition createBatch_try (items : list PreviewRequest) : M BatchResponse :=
  payloads <- lift (map_items items) ;;
  response <- post "/fibo/batch" (JObject [("items", JArray payloads)]) ;;
  job <- lift ((job_id <- getProp (Some (resp_data response)) "job_id" ;;
                or_lazy job_id (getProp (Some (resp_data response)) "id"))%js) ;;
  ret {| jobId := job; batch_status := JString "pending";
         totalItems := Some (JNumber (JsonText.show_Z (Z.of_nat (List.length items))));
         completedItems := None; failedItems := None;
         downloadUrl := None; manifestUrl := None |}.

Definition createBatch (items : list PreviewRequest) : M BatchResponse :=
  retried (catch (createBatch_try items) fibo_catch).

(** The [try] block of [getBatchStatus]. *)
Definition getBatchStatus_try (job : Value) : M BatchResponse :=
  response <- get (Some (JString ("/fibo/batch/" ++ ToStringValue job))) ;;
  let data := Some (resp_data response) in
  st <- lift (getProp data "status") ;;
  total_items <- lift (getProp data "total_items") ;;
  completed_items <- lift (getProp data "completed_items") ;;
  failed_items <- lift (getProp data "failed_items") ;;
  download_url <- lift (getProp data "download_url") ;;
  manifest_url <- lift (getProp data "manifest_url") ;;
  ret {| jobId := job; batch_status := or_default st (JString "pending");
         totalItems := total_items; completedItems := completed_items;
         failedItems := failed_items; downloadUrl := download_url;
         manifestUrl := manifest_url |}.

Definition getBatchStatus (job : Value) : M BatchResponse :=
  retried (catch (getBatchStatus_try job) fibo_catch).

End Fibo.

(* ================================================================== *)
(** ** Measures of a run *)
(* ================================================================== *)

Module Measures.
Import Js World.

(** The weight of some events. *)
Fixpoint total (weight : Event -> nat) (es : list Event) : nat :=
  match es with
  | [] => 0
  | e :: rest => weight e + total weight rest
  end.

Definition call_weight (e : Event) : nat :=
  match e with Called _ => 1 | Slept _ => 0 end.

Definition wait_weight (e : Event) : nat :=
  match e with Called _ => 0 | Slept _ => 1 end.

(** [m] adds events of weight [k] at most. *)
Definition costs {A} (weight : Event -> nat) (k : nat) (m : M A) : Prop :=
  forall w, (total weight (events (snd (m w))) <= total weight (events w) + k)%nat.

(** What a polling loop may do: wait 2000 ms, or GET. *)
Definition polling_event (e : Event) : Prop :=
  match e with
  | Slept ms => ms = 2000%Z
  | Called r => req_method r = GET /\ req_body r = None
  end.

(** A polling loop of at most [n] polls: from any world it adds at most [n]
    calls and [n] waits, each a GET or a wait of 2000 ms. *)
Definition polls_within {A} (n : nat) (m : M A) : Prop :=
  forall w,
    (List.length (calls (snd (m w))) <= List.length (calls w) + n)%nat
    /\ (List.length (sleeps (snd (m w))) <= List.length (sleeps w) + n)%nat
    /\ exists extra, events (snd (m w)) = (extra ++ events w)%list
                     /\ Forall polling_event extra.

(** The call with which [extractStyle] sends one image. *)
Definition style_post (image : BriaApi.Buffer) : HttpRequest :=
  {| req_method := POST;
     req_url := Some (JString "/structured_prompt/generate");
     req_body := Some (JObject [("images", JArray [JString (BriaApi.base64 image)]);
                                ("sync", JBool false)]) |}.

(** An event of an extraction over [images]: a wait, a GET, or the POST of
    one of the images. *)
Definition extraction_event (images : list BriaApi.Buffer) (e : Event) : Prop :=
  match e with
  | Slept _ => True
  | Called r =>
      match req_method r with
      | GET => True
      | POST => exists image, In image images /\ r = style_post image
      end
  end.

(** [m] makes at most [n] calls to the remote service, from any world. *)
Definition calls_within {A} (n : nat) (m : M A) : Prop :=
  forall w, (List.length (calls (snd (m w))) <= List.length (calls w) + n)%nat.

(** Every rejection of the service is an axios error, as axios makes them. *)
Definition axios_service (service : nat -> HttpRequest -> HttpReply) : Prop :=
  forall k r e, service k r = Rejected e -> isAxiosError e = true.

(** A completion ends in [N] or throws in [P]. *)
Definition ends {A} (N : A -> Prop) (P : Thrown -> Prop) (c : Completion A) : Prop :=
  match c with
  | Normal a => N a
  | Throw t => P t
  end.

(** [m], run against a service that satisfies [G], leaves the service as it
    is and returns a result in [N] or throws something in [P]. *)
Definition yields {A} (G : (nat -> HttpRequest -> HttpReply) -> Prop)
           (N : A -> Prop) (P : Thrown -> Prop) (m : M A) : Prop :=
  forall w, G (remote w) ->
    remote (snd (m w)) = remote w /\ ends N P (fst (m w)).

Definition anything {A} (a : A) : Prop := True.

(** What is thrown is an axios error, or has no [response]. *)
Definition tame (t : Thrown) : Prop := BriaApi.is_axios t = true \/ response_of t = None.

(** What is thrown is no axios error and has no [response]. *)
Definition quiet (t : Thrown) : Prop := BriaApi.is_axios t = false /\ response_of t = None.

(** What is thrown has no [response]. *)
Definition no_response (t : Thrown) : Prop := response_of t = None.

(** What is thrown is an [Error] that is no axios error and has no
    [response]. *)
Definition plain_error (t : Thrown) : Prop :=
  exists e, t = ThrowError e /\ isAxiosError e = false /\ response e = None.

(** A failure reply of the generation endpoint carries the status 500 and no
    details. *)
Definition generation_reply_is_plain (reply : GenerateImageRoute.Reply) : Prop :=
  match reply with
  | GenerateImageRoute.Failed statusCode _ _ details =>
      statusCode = 500%Z /\ details = JObject []
  | _ => True
  end.

(** The same for the extraction endpoint. *)
Definition extraction_reply_is_plain (reply : StyleExtractRoute.Reply) : Prop :=
  match reply with
  | StyleExtractRoute.Failed statusCode _ details =>
      statusCode = 500%Z /\ details = JObject []
  | _ => True
  end.

(** The colour descriptors [extractColorDescriptors] can give: those of the
    string branch and those the array branch adds. *)
Definition color_descriptors : list string :=
  (ProfileName.color_words ++ ["balanced"; "blue"; "golden"])%list.

(** [R] holds of every category of [a] with the words of that category. *)
Definition each (R : option (list string) -> list string -> Prop)
           (a : ProfileName.StyleAttributes) : Prop :=
  R (ProfileName.lighting a) ProfileName.lighting_words
  /\ R (ProfileName.colors a) color_descriptors
  /\ R (ProfileName.mood a) ProfileName.mood_words
  /\ R (ProfileName.atmosphere a) ProfileName.atmosphere_words
  /\ R (ProfileName.time a) ProfileName.time_words
  /\ R (ProfileName.weather a) ProfileName.weather_words
  /\ R (ProfileName.location a) ProfileName.location_words
  /\ R (ProfileName.technical a) ProfileName.technical_words.

(** The values of a category, if it is there, are among [ws]. *)
Definition drawn_from (category : option (list string)) (ws : list string) : Prop :=
  incl (ProfileName.values_of category) ws.

(** The category is there, and its values are words of [ws]. *)
Definition kept (category : option (list string)) (ws : list string) : Prop :=
  exists l, category = Some l /\ incl l ws.

(** The category is there, and its values are distinct words of [ws]. *)
Definition distinct_from (category : option (list string)) (ws : list string) : Prop :=
  exists l, category = Some l /\ NoDup l /\ incl l ws.

(** The values [getTopAttributes] counts, in its priority order. *)
Definition allValues (a : ProfileName.StyleAttributes) : list string :=
  (ProfileName.values_of (ProfileName.time a)
   ++ ProfileName.values_of (ProfileName.weather a)
   ++ ProfileName.values_of (ProfileName.location a)
   ++ ProfileName.values_of (ProfileName.lighting a)
   ++ ProfileName.values_of (ProfileName.mood a)
   ++ ProfileName.values_of (ProfileName.colors a)
   ++ ProfileName.values_of (ProfileName.atmosphere a)
   ++ ProfileName.values_of (ProfileName.technical a))%list.

(** How often [getTopAttributes] sees a value. *)
Definition frequency_of (a : ProfileName.StyleAttributes) (v : string) : nat :=
  count_occ string_dec (allValues a) v.

(** The count a frequency map keeps for a key. *)
Definition count_of (frequency : list (string * nat)) (k : string) : nat :=
  match find (fun e => String.eqb (fst e) k) frequency with
  | Some e => snd e
  | None => 0
  end.

(** The order of the sort in [getTopAttributes]. *)
Definition falling (a b : string * nat) : Prop := (snd b <= snd a)%nat.

(** No word the names are made of is longer than this. *)
Definition short (w : string) : Prop := (String.length w <= 13)%nat.

(** The name of a key includes a whitelisted name, whatever its case. *)
Definition whitelisted (k : string) : Prop :=
  exists allowed,
    In allowed StyleOnly.styleFieldsWhitelist /\ includes (toLowerCase k) allowed = true.

(** No sub-field of an object has a name that includes [composition]. *)
Definition no_composition (v : JSON) : Prop :=
  forall props, v = JObject props ->
    Forall (fun entry => includes (toLowerCase (fst entry)) "composition" = false) props.

(** A property of a style-only prompt: a truthy value under a whitelisted
    name, and under [aesthetics] no composition. *)
Definition style_only (entry : string * JSON) : Prop :=
  whitelisted (fst entry)
  /\ truthy (Some (snd entry)) = true
  /\ (fst entry = "aesthetics" -> no_composition (snd entry)).

(** A FIBO payload with every default in place: a negative prompt, and
    truthy controls, film, expansion, steps, guidance and resolution. *)
Definition complete_payload (payload : JSON) : Prop :=
  (exists text, prop payload "negative_prompt" = Some text)
  /\ truthy (prop payload "controls") = true
  /\ truthy (prop payload "film") = true
  /\ truthy (prop payload "expansion") = true
  /\ truthy (getOpt (prop payload "render") "steps") = true
  /\ truthy (getOpt (prop payload "render") "guidance") = true
  /\ truthy (getOpt (prop payload "render") "resolution") = true.

(** What [preview] may do: wait, poll with a GET, or post the payload of
    its request to [/fibo/generate]. *)
Definition preview_event (request : Fibo.PreviewRequest) (e : Event) : Prop :=
  match e with
  | Slept _ => True
  | Called r =>
      match req_method r with
      | GET => req_body r = None
      | POST =>
          exists payload,
            Fibo.mapPresetToFIBO (Fibo.preset request) (Fibo.prompt request)
              (Fibo.negativePrompt request) = Normal payload
            /\ r = {| req_method := POST; req_url := Some (JString "/fibo/generate");
                      req_body := Some payload |}
      end
  end.

(** What [createBatch] may do: wait, or post one payload per item to
    [/fibo/batch]. *)
Definition batch_event (items : list Fibo.PreviewRequest) (e : Event) : Prop :=
  match e with
  | Slept _ => True
  | Called r =>
      exists payloads,
        Fibo.map_items items = Normal payloads
        /\ List.length payloads = List.length items
        /\ r = {| req_method := POST; req_url := Some (JString "/fibo/batch");
                  req_body := Some (JObject [("items", JArray payloads)]) |}
  end.

(** What [getBatchStatus] may do: wait, or GET the status of its job. *)
Definition status_event (job : Value) (e : Event) : Prop :=
  match e with
  | Slept _ => True
  | Called r =>
      r = {| req_method := GET;
             req_url := Some (JString ("/fibo/batch/" ++ ToStringValue job));
             req_body := None |}
  end.

(** A key of a style DNA is absent or holds a truthy value. *)
Definition absent_or_truthy (v : Value) : Prop := v = None \/ truthy v = true.

(** Every key of a style DNA besides [original] is absent or truthy, the
    keys of [technical] too, and [original] is there. *)
Definition well_formed (d : StyleDna.StyleDNA) : Prop :=
  Forall absent_or_truthy
    [StyleDna.lighting d; StyleDna.color_palette d; StyleDna.colors d; StyleDna.mood d;
     StyleDna.atmosphere d; StyleDna.tone d; StyleDna.artistic_style d;
     StyleDna.photographic_style d; StyleDna.rendering_style d; StyleDna.time_of_day d;
     StyleDna.season d; StyleDna.weather d]
  /\ (forall tech, StyleDna.technical d = Some tech ->
        Forall absent_or_truthy
          [StyleDna.depth_of_field tech; StyleDna.focus tech; StyleDna.lens tech;
           StyleDna.aperture tech; StyleDna.iso tech; StyleDna.shutter_speed tech])
  /\ StyleDna.original d <> None.

(** The first truthy value of a list, [undefined] when there is none. *)
Fixpoint first_truthy (vs : list Value) : Value :=
  match vs with
  | [] => None
  | v :: rest => if truthy v then v else first_truthy rest
  end.

(** A lighting object without its [direction]. *)
Definition without_direction (l : Value) : Value :=
  match l with
  | Some (JObject props) =>
      Some (JObject (filter (fun entry => negb (String.eqb (fst entry) "direction")) props))
  | _ => l
  end.

(** The technical details without [iso] and [shutter_speed]. *)
Definition without_exposure (tech : StyleDna.Technical) : StyleDna.Technical :=
  {| StyleDna.depth_of_field := StyleDna.depth_of_field tech;
     StyleDna.focus := StyleDna.focus tech;
     StyleDna.lens := StyleDna.lens tech;
     StyleDna.aperture := StyleDna.aperture tech;
     StyleDna.iso := None;
     StyleDna.shutter_speed := None |}.

(** A style DNA without what [styleDNAToPrompt] does not read. *)
Definition rendered_part (d : StyleDna.StyleDNA) : StyleDna.StyleDNA :=
  {| StyleDna.lighting := without_direction (StyleDna.lighting d);
     StyleDna.color_palette := StyleDna.color_palette d;
     StyleDna.colors := StyleDna.colors d;
     StyleDna.mood := StyleDna.mood d;
     StyleDna.atmosphere := StyleDna.atmosphere d;
     StyleDna.tone := StyleDna.tone d;
     StyleDna.technical := option_map without_exposure (StyleDna.technical d);
     StyleDna.artistic_style := StyleDna.artistic_style d;
     StyleDna.photographic_style := StyleDna.photographic_style d;
     StyleDna.rendering_style := StyleDna.rendering_style d;
     StyleDna.time_of_day := StyleDna.time_of_day d;
     StyleDna.season := StyleDna.season d;
     StyleDna.weather := StyleDna.weather d;
     StyleDna.original := None |}.

(** An answer of the generation endpoint that is a 400, or a 500 without
    details. *)
Definition generation_refusal (reply : GenerateImageRoute.Reply) : Prop :=
  match reply with
  | GenerateImageRoute.BadRequest _ => True
  | GenerateImageRoute.Generated _ _ => False
  | GenerateImageRoute.Failed statusCode _ _ _ => statusCode = 500%Z
  end.

(** The same for the extraction endpoint. *)
Definition extraction_refusal (reply : StyleExtractRoute.Reply) : Prop :=
  match reply with
  | StyleExtractRoute.BadRequest _ => True
  | StyleExtractRoute.Profile _ => False
  | StyleExtractRoute.Failed statusCode _ _ => statusCode = 500%Z
  end.

(** Whatever the world, [m] leaves the event [e] in it. *)
Definition records {A} (e : Event) (m : M A) : Prop :=
  forall w, In e (events (snd (m w))).

(** The service rejects its k-th call with an axios error [e]. *)
Definition rejects (service : nat -> HttpRequest -> HttpReply) (k : nat) (e : JsError) : Prop :=
  forall r, service k r = Rejected e.

End Measures.

(* ================================================================== *)
(** ** Properties of the retrier *)
(* ================================================================== *)

Section RetrierFacts.
Import Js Number Retry Notions.
Context {N : Arithmetic} {T : Type}.
Variable outcome : nat -> Completion T.
Variable opts : Options N.


End RetrierFacts.








(* ================================================================== *)
(** ** The retrier in the world *)
(* ================================================================== *)

Section RetriedFacts.
Import Js World.
Local Open Scope world_scope.

(** Four passes end the loop at the default options, and they are these. *)
Lemma retried_runs {A} (fn : M A) (w : World) :
  Retry.retryWithBackoff backoff 4 fn Retry.no_options w = Some (retried_passes fn w).
Proof.
  unfold retried_passes, Retry.retryWithBackoff, catch, bind, sleep, throw.
  cbn.
  destruct (fn w) as [[v|t1] w1]; [reflexivity|].
  match goal with
  | |- context [backoff ?d w1] => change (backoff d w1) with (pause 1000 w1)
  end.
  destruct (fn (pause 1000 w1)) as [[v|t2] w2]; [reflexivity|].
  match goal with
  | |- context [backoff ?d w2] => change (backoff d w2) with (pause 2000 w2)
  end.
  destruct (fn (pause 2000 w2)) as [[v|t3] w3]; [reflexivity|].
  match goal with
  | |- context [backoff ?d w3] => change (backoff d w3) with (pause 4000 w3)
  end.
  destruct (fn (pause 4000 w3)) as [[v|t4] w4]; reflexivity.
Qed.

Lemma retried_unfold {A} (fn : M A) (w : World) : retried fn w = retried_passes fn w.
Proof. unfold retried. rewrite retried_runs. reflexivity. Qed.

End RetriedFacts.

(* ================================================================== *)
(** ** What a computation adds to the world *)
(* ================================================================== *)

Section TraceFacts.
Import Js World Notions.
Variable Q : Event -> Prop.

Lemma emits_ret {A} (a : A) : emits Q (ret a).
Proof. intros w. exists []. simpl. auto. Qed.

Lemma emits_throw {A} (t : Thrown) : emits Q (@throw A t).
Proof. intros w. exists []. simpl. auto. Qed.

Lemma emits_throwError {A} (msg : string) : emits Q (@throwError A msg).
Proof. apply emits_throw. Qed.

Lemma emits_lift {A} (c : Completion A) : emits Q (lift c).
Proof. intros w. exists []. simpl. auto. Qed.

Lemma emits_sleep (ms : Z) : Q (Slept ms) -> emits Q (sleep ms).
Proof. intros H w. exists [Slept ms]. simpl. auto. Qed.

Lemma emits_request (r : HttpRequest) : Q (Called r) -> emits Q (request r).
Proof.
  intros H w. exists [Called r]. unfold request.
  destruct (remote w (List.length (calls w)) r); simpl; auto.
Qed.

Lemma emits_bind {A B} (m : M A) (k : A -> M B) :
  emits Q m -> (forall a, emits Q (k a)) -> emits Q (bind m k).
Proof.
  intros Hm Hk w. unfold bind.
  destruct (Hm w) as [e1 [E1 [R1 F1]]].
  destruct (m w) as [[a|t] w1]; simpl in *.
  - destruct (Hk a w1) as [e2 [E2 [R2 F2]]].
    exists (e2 ++ e1)%list. rewrite E2, E1, R2, R1, app_assoc.
    repeat split; auto. apply Forall_app; auto.
  - exists e1. auto.
Qed.

Lemma emits_catch {A} (m : M A) (h : Thrown -> M A) :
  emits Q m -> (forall t, emits Q (h t)) -> emits Q (catch m h).
Proof.
  intros Hm Hh w. unfold catch.
  destruct (Hm w) as [e1 [E1 [R1 F1]]].
  destruct (m w) as [[a|t] w1]; simpl in *.
  - exists e1. auto.
  - destruct (Hh t w1) as [e2 [E2 [R2 F2]]].
    exists (e2 ++ e1)%list. rewrite E2, E1, R2, R1, app_assoc.
    repeat split; auto. apply Forall_app; auto.
Qed.

Lemma emits_for_loop {A} (body : nat -> M (option A)) (after : M A) :
  (forall i, emits Q (body i)) -> emits Q after ->
  forall passes i, emits Q (BriaApi.for_loop passes i body after).
Proof.
  intros Hbody Hafter. induction passes as [|k IH]; intros i; simpl.
  - exact Hafter.
  - apply emits_bind; [apply Hbody|]. intros [a|]; [apply emits_ret | apply IH].
Qed.

Lemma emits_retried {A} (fn : M A) :
  (forall ms, Q (Slept ms)) -> emits Q fn -> emits Q (retried fn).
Proof.
  intros Hs Hfn.
  assert (H : emits Q (retried_passes fn)).
  { unfold retried_passes.
    repeat (apply emits_catch; [exact Hfn|]; intros ?;
            try (apply emits_bind; [apply emits_sleep, Hs|]; intros _)).
    apply emits_throw. }
  intros w. rewrite retried_unfold. apply H.
Qed.

End TraceFacts.

Section ClientTraces.
Import Js World Notions BriaApi.
Variable Q : Event -> Prop.
Hypothesis Q_wait : forall ms, Q (Slept ms).
Hypothesis Q_get : forall url,
    Q (Called {| req_method := GET; req_url := url; req_body := None |}).

(** The polling loops only wait and GET. *)
Lemma emits_get (url : Value) : emits Q (get url).
Proof. apply emits_request. apply Q_get. Qed.

Lemma emits_pause (ms : Z) : emits Q (sleep ms).
Proof. apply emits_sleep. apply Q_wait. Qed.

Lemma emits_style_settle (response : AxiosResponse) : emits Q (style_settle response).
Proof.
  unfold style_settle.
  apply emits_bind; [apply emits_lift|]. intros status.
  destruct (is_text status "COMPLETED").
  - apply emits_bind; [apply emits_lift|]. intros r. apply emits_ret.
  - destruct (is_text status "ERROR").
    + apply emits_bind; [apply emits_lift|]. intros e. apply emits_throw.
    + apply emits_bind; [apply emits_pause|]. intros _. apply emits_ret.
Qed.

Lemma emits_pollStyleExtractStatus (requestId statusUrl : Value) :
  emits Q (pollStyleExtractStatus requestId statusUrl).
Proof.
  unfold pollStyleExtractStatus. apply emits_for_loop; [|apply emits_throwError].
  intros i. apply emits_catch.
  - apply emits_bind; [apply emits_get | apply emits_style_settle].
  - intros t. destruct (i =? 30 - 1)%nat; [apply emits_throwError | apply emits_ret].
Qed.

Lemma emits_preview_settle (requestId : Value) (response : AxiosResponse) :
  emits Q (preview_settle requestId response).
Proof.
  unfold preview_settle.
  apply emits_bind; [apply emits_lift|]. intros status.
  destruct (is_text status "completed").
  - apply emits_bind; [apply emits_lift|]. intros r. apply emits_ret.
  - destruct (is_text status "failed").
    + apply emits_bind; [apply emits_lift|]. intros e. apply emits_ret.
    + apply emits_bind; [apply emits_pause|]. intros _. apply emits_ret.
Qed.

Lemma emits_image_settle (requestId : Value) (response : AxiosResponse) :
  emits Q (image_settle requestId response).
Proof.
  unfold image_settle.
  apply emits_bind; [apply emits_lift|]. intros status.
  destruct (is_text status "COMPLETED" || is_text status "completed").
  - apply emits_bind; [apply emits_lift|]. intros r. apply emits_ret.
  - destruct (is_text status "ERROR" || is_text status "failed").
    + apply emits_bind; [apply emits_lift|]. intros e. apply emits_throw.
    + apply emits_bind; [apply emits_pause|]. intros _. apply emits_ret.
Qed.

Lemma emits_pollImageGeneration (requestId statusUrl : Value) :
  emits Q (pollImageGeneration requestId statusUrl).
Proof.
  unfold pollImageGeneration. apply emits_for_loop; [|apply emits_throwError].
  intros i. apply emits_catch.
  - apply emits_bind; [apply emits_get | apply emits_image_settle].
  - intros t. destruct (i =? 60 - 1)%nat; [apply emits_throwError|].
    destruct (is_axios t && has_response_status t); [apply emits_throw | apply emits_ret].
Qed.

Lemma emits_generateImage_catch {A} (error : Thrown) :
  emits Q (@generateImage_catch A error).
Proof.
  unfold generateImage_catch. destruct error as [e|v]; [|apply emits_throw].
  destruct (isAxiosError e); [|apply emits_throw].
  destruct (network_code e); apply emits_throwError.
Qed.

Lemma emits_extractStyle_catch {A} (error : Thrown) :
  emits Q (@extractStyle_catch A error).
Proof.
  unfold extractStyle_catch. destruct error as [e|v]; [|apply emits_throw].
  destruct (isAxiosError e); [|apply emits_throw].
  destruct (network_code e); apply emits_throwError.
Qed.

(** Every POST of [generateImage] carries the payload built from the
    request. *)
Lemma emits_generateImage (request : ImageGenerateRequest) :
  Q (Called {| req_method := POST; req_url := Some (JString "/image/generate");
               req_body := Some (generateImage_payload request) |}) ->
  emits Q (generateImage request).
Proof.
  intros HP. unfold generateImage, generateImage_operation.
  apply emits_retried; [exact Q_wait|].
  apply emits_catch; [|intros t; apply emits_generateImage_catch].
  unfold generateImage_try.
  apply emits_bind.
  { destruct (truthy (in_prompt request) && negb (is_string (in_prompt request)));
      [apply emits_throw | apply emits_ret]. }
  intros _. apply emits_bind; [apply emits_request; exact HP|].
  intros response.
  apply emits_bind; [apply emits_lift|]. intros _.
  apply emits_bind; [apply emits_lift|]. intros request_id.
  apply emits_bind; [apply emits_lift|]. intros status_url.
  destruct ((resp_status response =? 202)%Z && truthy status_url).
  - apply emits_pollImageGeneration.
  - apply emits_lift.
Qed.

End ClientTraces.

Section GenerateRouteFacts.
Import Js World Notions.
Variable JSON_parse : string -> option JSON.
Variable env : Env.

Lemma emits_getBriaClient (Q : Event -> Prop) : emits Q (getBriaClient env).
Proof.
  unfold getBriaClient. destruct (BRIA_API_KEY env) as [key|]; [|apply emits_throwError].
  destruct (String.eqb key ""); [apply emits_throwError | apply emits_ret].
Qed.

(** The handler posts nothing but the payload of the request it prepared. *)
Lemma emits_generate_handler (P : JSON -> Prop) (body : JSON) :
  (forall structured_prompt prompt seed use_style_dna_parser,
      getProp (Some body) "structured_prompt" = Normal structured_prompt ->
      getProp (Some body) "prompt" = Normal prompt ->
      getProp (Some body) "seed" = Normal seed ->
      getProp (Some body) "use_style_dna_parser" = Normal use_style_dna_parser ->
      (truthy structured_prompt = false \/ is_string structured_prompt = true) ->
      let '(finalPrompt, finalStructuredPrompt, _) :=
        GenerateImageRoute.prepare JSON_parse structured_prompt prompt use_style_dna_parser in
      P (BriaApi.generateImage_payload
           (GenerateImageRoute.requestPayload finalPrompt finalStructuredPrompt seed))) ->
  emits (posting P) (GenerateImageRoute.handler JSON_parse env body).
Proof.
  intros HP. unfold GenerateImageRoute.handler.
  apply emits_catch; [|intros t; apply emits_ret].
  unfold lift at 1. unfold bind at 1.
  destruct (getProp (Some body) "structured_prompt") as [sp|t] eqn:Esp;
    [|apply emits_throw].
  unfold lift at 1. unfold bind at 1.
  destruct (getProp (Some body) "prompt") as [pr|t] eqn:Epr; [|apply emits_throw].
  unfold lift at 1. unfold bind at 1.
  destruct (getProp (Some body) "seed") as [sd|t] eqn:Esd; [|apply emits_throw].
  unfold lift at 1. unfold bind at 1.
  destruct (getProp (Some body) "use_style_dna_parser") as [use|t] eqn:Euse;
    [|apply emits_throw].
  destruct (negb (truthy sp) && negb (truthy pr)); [apply emits_ret|].
  destruct (truthy sp && negb (is_string sp)) eqn:Eval; [apply emits_ret|].
  assert (Hsp : truthy sp = false \/ is_string sp = true).
  { destruct (truthy sp); [|left; reflexivity]. destruct (is_string sp);
      [right; reflexivity | discriminate]. }
  specialize (HP sp pr sd use eq_refl eq_refl eq_refl eq_refl Hsp).
  destruct (GenerateImageRoute.prepare JSON_parse sp pr use) as [[fp fsp] dna].
  apply emits_bind; [apply emits_getBriaClient|]. intros _.
  apply emits_bind; [|intros r; apply emits_ret].
  apply emits_generateImage; [intros ms; exact I | intros u; exact I |].
  simpl. eexists. split; [reflexivity | exact HP].
Qed.

End GenerateRouteFacts.

(* ================================================================== *)
(** ** The generation endpoint *)
(* ================================================================== *)

(** The inbound [sync: false] of [bicycle_no_style] is not forwarded: the
    one request posted has [sync: true]. *)
Example generation_request_is_sync_example :
  World.calls (snd (GenerateImageRoute.handler JsonText.decode Fixtures.env1
                      Fixtures.bicycle_no_style (World.start Fixtures.obliging)))
  = [ {| World.req_method := World.POST;
         World.req_url := Some (Js.JString "/image/generate");
         World.req_body := Some (Js.JObject [("sync", Js.JBool true);
                                             ("prompt", Js.JString "a red bicycle")]) |} ].
Proof. vm_compute. reflexivity. Qed.


(** There the prompt is composed from the style DNA. *)
Example style_transfer_composed_prompt :
  World.calls (snd (GenerateImageRoute.handler JsonText.decode Fixtures.env1
                      Fixtures.bicycle_styled (World.start Fixtures.obliging)))
  = [ {| World.req_method := World.POST;
         World.req_url := Some (Js.JString "/image/generate");
         World.req_body :=
           Some (Js.JObject
                   [("sync", Js.JBool true);
                    ("prompt", Js.JString
                       "a red bicycle, rendered with: lighting: warm, mood: serene")]) |} ].
Proof. vm_compute. reflexivity. Qed.

(* ================================================================== *)
(** ** Validation in [extractStyle] and the retrier *)
(* ================================================================== *)

(** Counting the invocations does not change the run. *)
Lemma counted_erasure {N : Number.Arithmetic} {St T : Type}
      (sleep : Number.number N -> St -> St)
      (fn : St -> Js.Completion T * St) (opts : Retry.Options N) :
  forall fuel attempt lastError delay s n,
    option_map (fun r => (fst r, fst (snd r)))
      (Retry.retry_loop (Retry.uncounted sleep) (Retry.counted fn) opts fuel attempt
         lastError delay (s, n))
    = Retry.retry_loop sleep fn opts fuel attempt lastError delay s.
Proof.
  induction fuel as [|fuel IH]; intros attempt lastError delay s n; cbn [Retry.retry_loop].
  - destruct (Number.leb N attempt (Retry.opt_maxRetries opts)); reflexivity.
  - destruct (Number.leb N attempt (Retry.opt_maxRetries opts)); [|reflexivity].
    unfold Retry.counted at 1. cbn [fst snd]. destruct (fn s) as [[v|t] s1]; [reflexivity|].
    destruct (Number.eqb N attempt (Retry.opt_maxRetries opts)); [reflexivity|].
    apply IH.
Qed.

Lemma encode_images_cases (images : list BriaApi.Buffer) :
  forall index,
    (exists k, BriaApi.encode_images images index
               = Js.Throw (Js.ThrowError
                             (Js.Error ("Image " ++ JsonText.show_Z k ++ " is empty or invalid"))))
    \/ (exists l, BriaApi.encode_images images index = Js.Normal l
                  /\ List.length l = List.length images).
Proof.
  induction images as [|b rest IH]; intros index; simpl.
  - right. exists []. split; reflexivity.
  - destruct (String.length b =? 0)%nat.
    + left. eexists. reflexivity.
    + destruct (IH (S index)) as [[k Hk]|[l [Hl Hlen]]].
      * left. exists k. rewrite Hk. reflexivity.
      * right. exists (BriaApi.base64 b :: l). rewrite Hl. simpl. split; [reflexivity|].
        rewrite Hlen. reflexivity.
Qed.

(** On a batch that is not of size one the operation throws its validation
    error and leaves the world as it was. *)
Lemma extractStyle_operation_rejects (images : list BriaApi.Buffer) :
  List.length images <> 1%nat ->
  exists msg,
    (msg = BriaApi.one_image_only
     \/ exists k, msg = "Image " ++ JsonText.show_Z k ++ " is empty or invalid")
    /\ forall w, BriaApi.extractStyle_operation images w
                 = (Js.Throw (Js.ThrowError (Js.Error msg)), w).
Proof.
  intros Hlen. unfold BriaApi.extractStyle_operation, BriaApi.extractStyle_try.
  destruct (encode_images_cases images 0) as [[k Hk]|[l [Hl Hll]]].
  - eexists. split; [right; exists k; reflexivity|]. intros w.
    unfold World.catch, World.bind, World.lift. rewrite Hk. reflexivity.
  - exists BriaApi.one_image_only. split; [left; reflexivity|]. intros w.
    unfold World.catch, World.bind, World.lift. rewrite Hl.
    destruct l as [|x [|y l']]; try reflexivity.
    simpl in Hll. congruence.
Qed.

(** C3, as stated, fails: the empty batch is rejected without a call, but the
    operation is invoked four times, not once, with the three backoff waits
    in between. *)
Lemma empty_batch_is_retried :
  Notions.invocations_of 4 (BriaApi.extractStyle_operation []) Retry.no_options
    (World.start Fixtures.obliging) = Some 4%nat
  /\ World.sleeps (snd (BriaApi.extractStyle [] (World.start Fixtures.obliging)))
     = [1000; 2000; 4000]%Z
  /\ World.calls (snd (BriaApi.extractStyle [] (World.start Fixtures.obliging))) = []
  /\ fst (BriaApi.extractStyle [] (World.start Fixtures.obliging))
     = Js.Throw (Js.ThrowError (Js.Error BriaApi.one_image_only)).
Proof. vm_compute. repeat split. Qed.

(** C3, amended.  On every batch whose size is not one, [extractStyle]
    raises the validation error and performs no HTTP call; the validation
    runs inside the retried operation, so the operation is invoked four times
    (the default [maxRetries + 1]) with waits of 1000, 2000 and 4000 ms in
    between. *)
Theorem extractStyle_rejects_batch :
  forall (images : list BriaApi.Buffer) (w : World.World),
    List.length images <> 1%nat ->
    exists msg,
      (msg = BriaApi.one_image_only
       \/ exists k, msg = "Image " ++ JsonText.show_Z k ++ " is empty or invalid")
      /\ BriaApi.extractStyle images w
         = (Js.Throw (Js.ThrowError (Js.Error msg)),
            World.pause 4000 (World.pause 2000 (World.pause 1000 w)))
      /\ Notions.invocations_of 4 (BriaApi.extractStyle_operation images) Retry.no_options w
         = Some 4%nat.
Proof.
  intros images w Hlen.
  destruct (extractStyle_operation_rejects images Hlen) as [msg [Hmsg Hop]].
  exists msg. split; [exact Hmsg|].
  unfold BriaApi.extractStyle.
  set (op := BriaApi.extractStyle_operation images) in *. clearbody op.
  split.
  - rewrite retried_unfold.
    unfold World.retried_passes, World.catch, World.bind, World.sleep, World.throw.
    rewrite !Hop. reflexivity.
  - unfold Notions.invocations_of, Notions.counted_run, Retry.retryWithBackoff.
    cbn. unfold Retry.counted. cbn [fst snd]. rewrite Hop.
    unfold Retry.uncounted. cbn [fst snd]. rewrite Hop. cbn [fst snd]. rewrite Hop.
    cbn [fst snd]. rewrite Hop. reflexivity.
Qed.

(** The amended claim on a batch of two images. *)
Lemma extractStyle_rejects_batch_witness :
  exists msg,
    (msg = BriaApi.one_image_only
     \/ exists k, msg = "Image " ++ JsonText.show_Z k ++ " is empty or invalid")
    /\ BriaApi.extractStyle ["first"; "second"] (World.start Fixtures.obliging)
       = (Js.Throw (Js.ThrowError (Js.Error msg)),
          World.pause 4000 (World.pause 2000 (World.pause 1000 (World.start Fixtures.obliging))))
    /\ Notions.invocations_of 4 (BriaApi.extractStyle_operation ["first"; "second"])
         Retry.no_options (World.start Fixtures.obliging) = Some 4%nat.
Proof.
  apply (extractStyle_rejects_batch ["first"; "second"] (World.start Fixtures.obliging)).
  simpl. discriminate.
Defined.

(* ================================================================== *)
(** ** The polling loops *)
(* ================================================================== *)

Section CallCounts.
Import Js World Notions.

Lemma ncalls_app (a b : list Event) : ncalls (a ++ b) = (ncalls a + ncalls b)%nat.
Proof.
  induction a as [|[r|ms] a IH]; simpl; [reflexivity | rewrite IH; reflexivity | exact IH].
Qed.

Lemma calls_length (w : World) : List.length (calls w) = ncalls (events w).
Proof.
  unfold calls. induction (events w) as [|e es IH]; [reflexivity|].
  simpl rev. rewrite flat_map_app, length_app, IH.
  destruct e as [r|ms]; simpl; lia.
Qed.

Lemma emits_weaken {A} (Q1 Q2 : Event -> Prop) (m : M A) :
  (forall e, Q1 e -> Q2 e) -> emits Q1 m -> emits Q2 m.
Proof.
  intros HQ Hm w. destruct (Hm w) as [extra [E [R F]]].
  exists extra. repeat split; auto. eapply Forall_impl; eauto.
Qed.

Lemma emits_calls_le {A} (Q : Event -> Prop) (m : M A) (w : World) :
  emits Q m -> (ncalls (events w) <= ncalls (events (snd (m w))))%nat.
Proof.
  intros Hm. destruct (Hm w) as [extra [E _]]. rewrite E, ncalls_app. lia.
Qed.

End CallCounts.

Section LoopFacts.
Import Js World Notions BriaApi.
Context {A : Type}.
Variable url : Value.
Variable F : AxiosResponse -> M (option A).
Variable H : nat -> Thrown -> M (option A).
Variable after : M A.

(** The shape the three polling loops share. *)
Let body (i : nat) : M (option A) := catch (bind (get url) F) (H i).
Let poll_request : HttpRequest := poll_of url.

Lemma for_loop_step (k i : nat) (b : nat -> M (option A)) :
  for_loop (S k) i b after
  = bind (b i) (fun r => match r with
                         | Some a => ret a
                         | None => for_loop k (S i) b after
                         end).
Proof. reflexivity. Qed.








End LoopFacts.

Section PollerFacts.
Import Js World Notions BriaApi.

Lemma getProp_object (data : JSON) (k : string) (x : JSON) :
  prop data k = Some x ->
  forall k', getProp (Some data) k' = Normal (prop data k').
Proof. intros Hk k'. destruct data; try discriminate Hk. reflexivity. Qed.

Lemma getProp_or_default (a : Value) (props : list (string * JSON)) (k : string) :
  getProp (Some (or_default a (JObject props))) k
  = Normal (prop (or_default a (JObject props)) k).
Proof.
  destruct a as [j|]; [|reflexivity].
  destruct j as [|b|n|t|items|ps]; simpl; try reflexivity.
  - destruct b; reflexivity.
  - destruct (negb (n =? "0")%string); reflexivity.
  - destruct (negb (t =? "")%string); reflexivity.
Qed.

Lemma styleResult_total (data : JSON) (k : string) (x : JSON) :
  prop data k = Some x -> exists r, styleResult data = Normal r.
Proof.
  intros Hk. destruct data as [| | | | |props]; try discriminate Hk.
  unfold styleResult.
  change (getProp (Some (JObject props)) "result")
    with (Normal (prop (JObject props) "result")).
  cbn [bindC]. cbv zeta. rewrite !getProp_or_default. cbn [bindC]. eexists. reflexivity.
Qed.


(** *** Style extraction *)

Lemma style_settle_result (resp : AxiosResponse) :
  prop (resp_data resp) "status" = Some (JString "COMPLETED") ->
  exists r, styleResult (resp_data resp) = Normal r
            /\ forall w, style_settle resp w = (Normal (Some r), w).
Proof.
  intros Hst. destruct (styleResult_total _ _ _ Hst) as [r Hr]. exists r.
  split; [exact Hr|]. intros w.
  unfold style_settle, bind, lift, ret.
  rewrite (getProp_object _ _ _ Hst), Hst, Hr. reflexivity.
Qed.

Lemma style_settle_completed (resp : AxiosResponse) :
  prop (resp_data resp) "status" = Some (JString "COMPLETED") ->
  exists r, forall w, style_settle resp w = (Normal (Some r), w).
Proof.
  intros Hst. destruct (style_settle_result resp Hst) as [r [_ Hr]]. exists r. exact Hr.
Qed.

Lemma style_settle_other (resp : AxiosResponse) (st : string) :
  prop (resp_data resp) "status" = Some (JString st) ->
  st <> "COMPLETED" -> st <> "ERROR" ->
  forall w, style_settle resp w = (Normal None, pause 2000 w).
Proof.
  intros Hst H1 H2 w. unfold style_settle, bind, lift, ret, sleep.
  rewrite (getProp_object _ _ _ Hst), Hst. cbn [is_text].
  apply String.eqb_neq in H1, H2. rewrite H1, H2. reflexivity.
Qed.

(** *** Preview *)




(** *** Image generation *)



End PollerFacts.




(** C1 at the failing input.  A service that reports [ERROR] with the
    message "corrupt image" on every poll: the loop swallows the error it
    throws, polls 30 times without a wait and raises the timeout error, not
    the service's message.  When the service reports [ERROR] once and then
    [COMPLETED], the loop returns the result. *)
Theorem style_polling_swallows_error :
  fst (BriaApi.pollStyleExtractStatus (Some (Js.JString "r1")) None
         (World.start Fixtures.erroring))
  = Js.Throw (Js.ThrowError (Js.Error "Polling timeout for style extraction"))
  /\ List.length (World.calls (snd (BriaApi.pollStyleExtractStatus (Some (Js.JString "r1")) None
                                     (World.start Fixtures.erroring)))) = 30%nat
  /\ World.sleeps (snd (BriaApi.pollStyleExtractStatus (Some (Js.JString "r1")) None
                          (World.start Fixtures.erroring))) = []
  /\ fst (BriaApi.pollStyleExtractStatus (Some (Js.JString "r1")) None
            (World.start Fixtures.error_then_done))
     = Js.Normal {| BriaApi.seed := Js.JNumber "7";
                    BriaApi.structured_prompt := Js.JString "{}";
                    BriaApi.imageIndex := None |}.
Proof. vm_compute. repeat split. Qed.

(** The parts of C1 that hold, on a service that never reaches a terminal
    status: 30 polls, a wait of 2000 ms after each, then the timeout
    error. *)
Example style_polling_times_out :
  fst (BriaApi.pollStyleExtractStatus (Some (Js.JString "r1")) None
         (World.start (Fixtures.reporting "IN_PROGRESS")))
  = Js.Throw (Js.ThrowError (Js.Error "Polling timeout for style extraction"))
  /\ List.length (World.calls (snd (BriaApi.pollStyleExtractStatus (Some (Js.JString "r1")) None
                                     (World.start (Fixtures.reporting "IN_PROGRESS"))))) = 30%nat
  /\ World.sleeps (snd (BriaApi.pollStyleExtractStatus (Some (Js.JString "r1")) None
                          (World.start (Fixtures.reporting "IN_PROGRESS"))))
     = repeat 2000%Z 30.
Proof. vm_compute. repeat split. Qed.

(* ================================================================== *)
(** ** Attribute extraction and DNA parsing never raise *)
(* ================================================================== *)

(** C8.  On every input string the attribute extraction and the DNA parsing
    return; when the string does not decode, the extraction returns the
    object with no category and the parsing returns the object whose only
    field, [original], holds the input text. *)
Theorem extraction_and_parsing_never_raise :
  forall (JSON_parse : string -> option Js.JSON) (text : string),
    (exists attributes,
        ProfileName.extractStyleAttributes JSON_parse (Js.JString text)
        = Js.Normal attributes)
    /\ (exists styleDNA,
           StyleDna.parseStructuredPrompt JSON_parse text = Js.Normal styleDNA)
    /\ (JSON_parse text = None ->
        ProfileName.extractStyleAttributes JSON_parse (Js.JString text)
        = Js.Normal ProfileName.no_attributes
        /\ StyleDna.parseStructuredPrompt JSON_parse text
           = Js.Normal (StyleDna.only_original (Js.JString text))).
Proof.
  intros JSON_parse text. split; [|split].
  - unfold ProfileName.extractStyleAttributes, Js.try_catch.
    destruct (ProfileName.extractStyleAttributes_try JSON_parse (Js.JString text));
      eexists; reflexivity.
  - unfold StyleDna.parseStructuredPrompt, Js.try_catch.
    destruct (StyleDna.parseStructuredPrompt_try JSON_parse text); eexists; reflexivity.
  - intros Hfail. split.
    + unfold ProfileName.extractStyleAttributes, ProfileName.extractStyleAttributes_try,
        ProfileName.parse. cbn [Js.ToString]. rewrite Hfail. reflexivity.
    + unfold StyleDna.parseStructuredPrompt, StyleDna.parseStructuredPrompt_try.
      rewrite Hfail. reflexivity.
Qed.

(** The degraded results on text that is not JSON. *)
Lemma extraction_and_parsing_never_raise_witness :
  ProfileName.extractStyleAttributes JsonText.decode (Js.JString "not json")
  = Js.Normal ProfileName.no_attributes
  /\ StyleDna.parseStructuredPrompt JsonText.decode "not json"
     = Js.Normal (StyleDna.only_original (Js.JString "not json")).
Proof.
  apply (proj2 (proj2 (extraction_and_parsing_never_raise JsonText.decode "not json"))).
  vm_compute. reflexivity.
Defined.

(** The same on the empty string, and on text that decodes to something
    whose properties cannot be read. *)
Example extraction_on_empty_text :
  ProfileName.extractStyleAttributes JsonText.decode (Js.JString "")
  = Js.Normal ProfileName.no_attributes
  /\ StyleDna.parseStructuredPrompt JsonText.decode ""
     = Js.Normal (StyleDna.only_original (Js.JString ""))
  /\ ProfileName.extractStyleAttributes JsonText.decode (Js.JString "null")
     = Js.Normal ProfileName.no_attributes
  /\ StyleDna.parseStructuredPrompt JsonText.decode "null"
     = Js.Normal (StyleDna.only_original (Js.JString "null")).
Proof. vm_compute. repeat split. Qed.

(* ================================================================== *)
(** ** The length of a generated profile name *)
(* ================================================================== *)

Section SplitJoin.
Import Js Notions.
Variable c : ascii.

Lemma split_nonempty (s : string) : split c s <> [].
Proof.
  destruct s as [|a r]; simpl; [discriminate|].
  destruct (Ascii.eqb a c); [discriminate|]. destruct (split c r); discriminate.
Qed.


Lemma split_word (w : string) : occurs c w = false -> split c w = [w].
Proof.
  induction w as [|a r IH]; simpl; [reflexivity|]. intros Hfree.
  apply orb_false_iff in Hfree. destruct Hfree as [E Hr].
  rewrite E, (IH Hr). reflexivity.
Qed.



End SplitJoin.

Section TrimFacts.
Import Js Notions ProfileName.

Lemma removelast_length {X} (l : list X) :
  List.length (removelast l) = (List.length l - 1)%nat.
Proof. rewrite removelast_firstn_len, length_firstn. lia. Qed.

Lemma removelast_Forall {X} (P : X -> Prop) (l : list X) :
  Forall P l -> Forall P (removelast l).
Proof.
  intros Hl. rewrite removelast_firstn_len.
  rewrite <- (firstn_skipn (pred (List.length l)) l) in Hl.
  apply Forall_app in Hl. exact (proj1 Hl).
Qed.

(** When the loop stops, two words or fewer are left or the name fits. *)
Lemma drop_words_stops (maxLength : Z) :
  forall fuel ws, (List.length ws <= fuel)%nat ->
    (List.length (drop_words fuel maxLength ws) <= 2)%nat
    \/ (Z.of_nat (String.length (join " " (drop_words fuel maxLength ws))) <= maxLength)%Z.
Proof.
  induction fuel as [|fuel IH]; intros ws Hlen; simpl.
  - left. lia.
  - destruct (2 <? List.length ws)%nat eqn:E2; simpl.
    + destruct (maxLength <? Z.of_nat (String.length (join " " ws)))%Z eqn:Em.
      * apply IH. rewrite removelast_length. lia.
      * right. apply Z.ltb_ge in Em. exact Em.
    + left. apply Nat.ltb_ge in E2. exact E2.
Qed.

Lemma drop_words_Forall (P : string -> Prop) (maxLength : Z) :
  forall fuel ws, Forall P ws -> Forall P (drop_words fuel maxLength ws).
Proof.
  induction fuel as [|fuel IH]; intros ws Hws; simpl; [exact Hws|].
  destruct ((2 <? List.length ws)%nat
            && (maxLength <? Z.of_nat (String.length (join " " ws)))%Z);
    [|exact Hws].
  apply IH, removelast_Forall, Hws.
Qed.



End TrimFacts.



(* ================================================================== *)
(** ** The extraction endpoint *)
(* ================================================================== *)

Section ExtractRouteFacts.
Import Js World Notions StyleExtractRoute.
Variable JSON_parse : string -> option JSON.
Variable env : Env.

(** One pass of the loop over the images records the image, with its index,
    among the structured prompts or among the errors, and never throws. *)
Lemma process_records (imageBuffers : list BriaApi.Buffer) :
  forall i structuredPrompts errors w,
  exists news newe w',
    process JSON_parse imageBuffers i structuredPrompts errors w
    = (Normal ((structuredPrompts ++ news)%list, (errors ++ newe)%list), w')
    /\ exists indices,
        map BriaApi.imageIndex news = map Some indices
        /\ Permutation (indices ++ map err_imageIndex newe)
             (seq i (List.length imageBuffers)).
Proof.
  induction imageBuffers as [|buffer rest IH]; intros i sps errs w.
  - exists [], [], w. simpl. rewrite !app_nil_r. split; [reflexivity|].
    exists []. split; [reflexivity | constructor].
  - cbn [process]. unfold bind at 1, catch.
    unfold bind at 1. destruct (BriaApi.extractStyle [buffer] w) as [[result|t] w1].
    + unfold bind at 1, lift. destruct (log_structure JSON_parse result) as [[]|t].
      * cbn [ret fst snd].
        destruct (IH (S i) (sps ++ [{| BriaApi.seed := BriaApi.seed result;
                                       BriaApi.structured_prompt :=
                                         BriaApi.structured_prompt result;
                                       BriaApi.imageIndex := Some i |}])%list errs w1)
          as [news [newe [w' [Hrun [indices [Hidx Hperm]]]]]].
        eexists (_ :: news), newe, w'. split.
        { rewrite Hrun, <- app_assoc. reflexivity. }
        exists (i :: indices). split; [simpl; rewrite Hidx; reflexivity|].
        simpl. apply perm_skip. exact Hperm.
      * cbn [ret fst snd].
        destruct (IH (S i) sps (errs ++ [{| err_imageIndex := i;
                                            err_error := message_of t |}])%list w1)
          as [news [newe [w' [Hrun [indices [Hidx Hperm]]]]]].
        eexists news, (_ :: newe), w'. split.
        { rewrite Hrun, <- app_assoc. reflexivity. }
        exists indices. split; [exact Hidx|].
        simpl. apply Permutation_sym, Permutation_cons_app, Permutation_sym. exact Hperm.
    + cbn [ret fst snd].
      destruct (IH (S i) sps (errs ++ [{| err_imageIndex := i;
                                          err_error := message_of t |}])%list w1)
        as [news [newe [w' [Hrun [indices [Hidx Hperm]]]]]].
      eexists news, (_ :: newe), w'. split.
      { rewrite Hrun, <- app_assoc. reflexivity. }
      exists indices. split; [exact Hidx|].
      simpl. apply Permutation_sym, Permutation_cons_app, Permutation_sym. exact Hperm.
Qed.

(** What the loop leaves makes a profile that keeps the invariants. *)
Lemma recorded_profile_invariant (n : nat) (images : list BriaApi.StyleExtractResponse)
      (errs : list ImageError) (indices : list nat) (name createdAt : string) :
  map BriaApi.imageIndex images = map Some indices ->
  Permutation (indices ++ map err_imageIndex errs) (seq 0 n) ->
  profile_invariant {| name := name; createdAt := createdAt; images := images;
                       processedImages := n;
                       errors := if (0 <? List.length errs)%nat then Some errs else None |}.
Proof.
  intros Hidx Hperm.
  assert (Herrs : errors_of {| name := name; createdAt := createdAt; images := images;
                              processedImages := n;
                              errors := if (0 <? List.length errs)%nat
                                        then Some errs else None |} = errs).
  { unfold errors_of. cbn [errors]. destruct errs; reflexivity. }
  unfold profile_invariant. rewrite Herrs. cbn [StyleExtractRoute.images processedImages].
  pose proof (Permutation_length Hperm) as Hlen.
  rewrite length_app, length_map, length_seq in Hlen.
  assert (Himg : List.length images = List.length indices).
  { rewrite <- (length_map BriaApi.imageIndex images), Hidx, length_map. reflexivity. }
  split; [lia|]. exists indices. split; [exact Hidx|].
  assert (Hnodup : NoDup (indices ++ map err_imageIndex errs)).
  { eapply Permutation_NoDup; [apply Permutation_sym; exact Hperm | apply seq_NoDup]. }
  split; [exact (NoDup_app_remove_r _ _ Hnodup)|].
  split; [|exact Hperm].
  apply Forall_forall. intros i Hi.
  assert (Hin : In i (seq 0 n)).
  { eapply Permutation_in; [exact Hperm|]. apply in_or_app. left. exact Hi. }
  apply in_seq in Hin. lia.
Qed.

(** A profile answered by the handler comes out of the loop. *)
Lemma handler_profile (files : option (list Multer.File)) (profile_name : Value)
      (w : World) (p : StyleProfile) :
  fst (handler JSON_parse env files profile_name w) = Normal (Profile p) ->
  profile_invariant p.
Proof.
  unfold handler, catch.
  destruct files as [[|file files]|]; try (simpl; discriminate).
  set (fs := file :: files).
  destruct (List.length fs <? 1)%nat; [simpl; discriminate|].
  destruct (20 <? List.length fs)%nat; [simpl; discriminate|].
  destruct (validate fs 0) as [e|imageBuffers]; [simpl; discriminate|].
  unfold bind at 1. destruct (getBriaClient env w) as [[[]|t] w0]; [|simpl; discriminate].
  unfold bind at 1.
  destruct (process_records imageBuffers 0 [] [] w0)
    as [news [newe [w1 [Hrun [indices [Hidx Hperm]]]]]].
  rewrite Hrun. cbn [app].
  unfold bind at 1, lift.
  destruct (profileName JSON_parse env profile_name news) as [[nm readings]|t];
    [|simpl; discriminate].
  cbn [ret fst]. intros Heq. injection Heq as <-.
  apply (recorded_profile_invariant _ _ _ indices); assumption.
Qed.

End ExtractRouteFacts.

(** The scenario in full: the failure of the second image is recorded under
    its index, after the retrier has tried it four times, and the third
    image is processed. *)
Example second_of_three_fails :
  fst (StyleExtractRoute.route JsonText.decode Fixtures.env1
         (StyleExtractRoute.Multipart Fixtures.three_images) None
         (World.start Fixtures.second_fails))
  = Js.Normal (StyleExtractRoute.Profile Fixtures.two_of_three)
  /\ StyleExtractRoute.processedImages Fixtures.two_of_three = 3%nat
  /\ List.length (StyleExtractRoute.images Fixtures.two_of_three) = 2%nat
  /\ map StyleExtractRoute.err_imageIndex (Notions.errors_of Fixtures.two_of_three) = [1%nat]
  /\ List.length (World.calls (snd (StyleExtractRoute.route JsonText.decode Fixtures.env1
                                     (StyleExtractRoute.Multipart Fixtures.three_images) None
                                     (World.start Fixtures.second_fails)))) = 6%nat.
Proof. vm_compute. repeat split. Qed.

(** *** How many images the endpoint takes *)

Section UploadFacts.
Import Js World Notions StyleExtractRoute.
Variable JSON_parse : string -> option JSON.
Variable env : Env.

(** The upload middleware ends with an error as soon as more file parts
    with a file name arrive than [maxCount] allows. *)
Lemma take_rejects (field : string) (maxCount : nat) (limits : Multer.Limits)
      (filter : Multer.File -> option JsError) (parts : list Multer.File) :
  forall seen left,
    (left < List.length (List.filter named parts))%nat ->
    exists err, Multer.take field maxCount limits filter seen left parts = inl err.
Proof.
  induction parts as [|file rest IH]; intros seen left Hlen;
    cbn [List.filter List.length Multer.take] in *; [lia|].
  destruct (Multer.files limits <=? seen)%nat; [eexists; reflexivity|].
  unfold named in Hlen at 1.
  destruct (Multer.originalname file =? "")%string; cbn [negb] in Hlen.
  { apply IH. exact Hlen. }
  cbn [List.length] in Hlen.
  destruct (negb (Multer.fieldname file =? field)%string || (left =? 0)%nat) eqn:E;
    [eexists; reflexivity|].
  destruct (filter file); [eexists; reflexivity|].
  destruct (Multer.fileSize limits <=? Z.of_nat (String.length (Multer.buffer file)))%Z;
    [eexists; reflexivity|].
  apply orb_false_iff in E. destruct E as [_ E]. apply Nat.eqb_neq in E.
  destruct (IH (S seen) (left - 1)%nat) as [err Herr]; [lia|].
  rewrite Herr. eexists; reflexivity.
Qed.

Lemma handleMulterError_is_400 (err : JsError) :
  exists msg, handleMulterError err = BadRequest msg.
Proof.
  unfold handleMulterError. destruct (code err) as [c|];
    repeat match goal with
           | |- context [if ?b then _ else _] => destruct b
           end; eexists; reflexivity.
Qed.

(** A request with more than five images (file parts with a file name) is
    answered 400 before anything is sent to the remote service. *)
Lemma more_than_five_images_are_rejected (parts : list Multer.File)
      (profile_name : Value) (w : World) :
  (5 < List.length (List.filter named parts))%nat ->
  exists msg, route JSON_parse env (Multipart parts) profile_name w
              = (Normal (BadRequest msg), w).
Proof.
  intros Hlen. unfold route, upload, Multer.array.
  destruct (take_rejects "images" 5 {| Multer.fileSize := MAX_FILE_SIZE env;
                                       Multer.files := 20 |}
              fileFilter parts 0 5 Hlen) as [err Herr].
  rewrite Herr. destruct (handleMulterError_is_400 err) as [msg Hmsg].
  exists msg. rewrite Hmsg. reflexivity.
Qed.

(** A request without images is answered 400 as well. *)
Lemma no_image_is_rejected (profile_name : Value) (w : World) :
  route JSON_parse env (Multipart []) profile_name w
  = (Normal (BadRequest "No images provided"), w)
  /\ route JSON_parse env NotMultipart profile_name w
     = (Normal (BadRequest "No images provided"), w).
Proof. split; reflexivity. Qed.

End UploadFacts.

(** C2 at the failing input.  Six valid images, within the 1 to 20 the
    handler, the upload limits and the front end all allow: the middleware,
    set up with [upload.array('images', 5)], refuses the sixth file and the
    request is answered 400 without a call to the remote service. *)
Theorem six_images_are_rejected :
  StyleExtractRoute.route JsonText.decode Fixtures.env1
    (StyleExtractRoute.Multipart Fixtures.six_images) None (World.start Fixtures.obliging)
  = (Js.Normal (StyleExtractRoute.BadRequest "Unexpected field"),
     World.start Fixtures.obliging)
  /\ StyleExtractRoute.status_of (StyleExtractRoute.BadRequest "Unexpected field") = 400%Z
  /\ (1 <= List.length Fixtures.six_images <= 20)%nat.
Proof.
  split; [vm_compute; reflexivity|]. split; [reflexivity|]. simpl. lia.
Qed.

(* ================================================================== *)
(** ** The schedule of style-extraction polling *)
(* ================================================================== *)

Section StylePollingSchedule.
Import Js World Notions BriaApi.
Variables requestId statusUrl : Value.

Let poll_request : HttpRequest :=
  {| req_method := GET; req_url := status_url_of requestId statusUrl; req_body := None |}.

Let called (w : World) : World :=
  {| remote := remote w; events := Called poll_request :: events w |}.

Let pass (i : nat) : M (option StyleExtractResponse) :=
  catch (style_poll requestId statusUrl)
    (fun error => if (i =? 30 - 1)%nat
                  then throwError "Polling timeout for style extraction"
                  else ret None).

Lemma calls_called (w : World) : calls (called w) = (calls w ++ [poll_request])%list.
Proof. unfold calls, called. simpl. rewrite flat_map_app. reflexivity. Qed.

Lemma sleeps_called (w : World) : sleeps (called w) = sleeps w.
Proof. unfold sleeps, called. simpl. rewrite flat_map_app, app_nil_r. reflexivity. Qed.

Lemma calls_pause (ms : Z) (w : World) : calls (pause ms w) = calls w.
Proof. unfold calls, pause. simpl. rewrite flat_map_app, app_nil_r. reflexivity. Qed.

Lemma sleeps_pause (ms : Z) (w : World) : sleeps (pause ms w) = (sleeps w ++ [ms])%list.
Proof. unfold sleeps, pause. simpl. rewrite flat_map_app. reflexivity. Qed.

(** A pass whose poll finds the operation pending waits 2000 ms. *)
Lemma pass_pending (i : nat) (w : World) :
  pending (remote w) (List.length (calls w)) ->
  pass i w = (Normal None, pause 2000 (called w)).
Proof.
  intros Hp. destruct (Hp poll_request) as [resp [st [Hs [Hst [H1 H2]]]]].
  unfold pass, catch, style_poll, bind at 1, get, request. fold poll_request.
  rewrite Hs. fold (called w). rewrite (style_settle_other resp st Hst H1 H2). reflexivity.
Qed.

(** A pass whose poll finds the operation completed returns its result. *)
Lemma pass_completed (i : nat) (w : World) :
  completes (remote w) (List.length (calls w)) ->
  exists r, pass i w = (Normal (Some r), called w).
Proof.
  intros Hc. destruct (Hc poll_request) as [resp [Hs Hst]].
  destruct (style_settle_completed resp Hst) as [r Hr]. exists r.
  unfold pass, catch, style_poll, bind at 1, get, request. fold poll_request.
  rewrite Hs. fold (called w). rewrite Hr. reflexivity.
Qed.

(** After [n] pending polls the loop has made [n] calls and [n] waits of
    2000 ms, and goes on with what is left of it. *)
Lemma loop_while_pending (after : M StyleExtractResponse) (n : nat) :
  forall more i w,
    (forall k, (k < n)%nat -> pending (remote w) (List.length (calls w) + k)) ->
    exists w',
      for_loop (n + more) i pass after w = for_loop more (i + n) pass after w'
      /\ remote w' = remote w
      /\ List.length (calls w') = (List.length (calls w) + n)%nat
      /\ sleeps w' = (sleeps w ++ repeat 2000%Z n)%list.
Proof.
  induction n as [|n IH]; intros more i w Hp.
  - exists w. rewrite !Nat.add_0_r, app_nil_r. repeat split; reflexivity.
  - cbn [Nat.add]. rewrite for_loop_step. unfold bind at 1.
    rewrite pass_pending; [|rewrite <- (Nat.add_0_r (List.length (calls w))); apply Hp; lia].
    destruct (IH more (S i) (pause 2000 (called w))) as [w' [Hrun [Hr [Hc Hs]]]].
    { intros k Hk. cbn [remote pause called]. rewrite calls_pause, calls_called, length_app.
      cbn [List.length]. replace (List.length (calls w) + 1 + k)%nat
        with (List.length (calls w) + S k)%nat by lia. apply Hp. lia. }
    exists w'. split; [rewrite Hrun; f_equal; lia|].
    split; [rewrite Hr; reflexivity|].
    split.
    + rewrite Hc, calls_pause, calls_called, length_app. simpl. lia.
    + rewrite Hs, sleeps_pause, sleeps_called, <- app_assoc. reflexivity.
Qed.

(** The parts of C1 that hold.  While the service reports the operation
    pending, the loop polls every 2000 ms; when the poll number [k + 1], at
    most the 30th, reports [COMPLETED], the result is returned after [k]
    waits; when all 30 polls find it pending, the timeout error is raised
    after 30 polls and 30 waits. *)
Lemma style_polling_schedule (service : nat -> HttpRequest -> HttpReply) :
  (forall k, (k < 30)%nat ->
     (forall j, (j < k)%nat -> pending service j) -> completes service k ->
     exists r w',
       pollStyleExtractStatus requestId statusUrl (start service) = (Normal r, w')
       /\ List.length (calls w') = S k
       /\ sleeps w' = repeat 2000%Z k)
  /\ ((forall j, (j < 30)%nat -> pending service j) ->
      exists w',
        pollStyleExtractStatus requestId statusUrl (start service)
        = (Throw (ThrowError (Error "Polling timeout for style extraction")), w')
        /\ List.length (calls w') = 30%nat
        /\ sleeps w' = repeat 2000%Z 30).
Proof.
  split.
  - intros k Hk Hpend Hdone.
    destruct (loop_while_pending (throwError "Polling timeout for style extraction")
                k (30 - k) 0 (start service)) as [w1 [Hrun [Hr [Hc Hs]]]].
    { intros j Hj. apply Hpend. exact Hj. }
    change (pollStyleExtractStatus requestId statusUrl)
      with (for_loop 30 0 pass (throwError "Polling timeout for style extraction")).
    replace (for_loop 30 0 pass (throwError "Polling timeout for style extraction"))
      with (for_loop (k + (30 - k)) 0 pass
              (throwError "Polling timeout for style extraction"))
      by (f_equal; lia).
    rewrite Hrun.
    destruct (30 - k)%nat as [|m] eqn:Em; [lia|].
    rewrite for_loop_step. unfold bind at 1.
    destruct (pass_completed (0 + k) w1) as [r Hpass].
    { rewrite Hr, Hc. exact Hdone. }
    rewrite Hpass. exists r, (called w1). split; [reflexivity|].
    rewrite calls_called, length_app, Hc, sleeps_called, Hs. simpl. split; [lia | reflexivity].
  - intros Hpend.
    destruct (loop_while_pending (throwError "Polling timeout for style extraction")
                30 0 0 (start service)) as [w1 [Hrun [Hr [Hc Hs]]]].
    { intros j Hj. apply Hpend. exact Hj. }
    change (pollStyleExtractStatus requestId statusUrl)
      with (for_loop (30 + 0) 0 pass (throwError "Polling timeout for style extraction")).
    rewrite Hrun.
    exists w1. split; [reflexivity|]. split; [exact Hc | exact Hs].
Qed.

End StylePollingSchedule.

Example base64_examples :
  BriaApi.base64 "Man" = "TWFu" /\ BriaApi.base64 "Ma" = "TWE="
  /\ BriaApi.base64 "M" = "TQ==" /\ BriaApi.base64 "" = ""
  /\ BriaApi.base64 "image-one" = "aW1hZ2Utb25l".
Proof. vm_compute. repeat split. Qed.

Section AcceptanceFacts.
Import Js World Notions StyleExtractRoute.
Variable JSON_parse : string -> option JSON.
Variable env : Env.

Lemma take_accepts (parts : list Multer.File) :
  Forall (acceptable env) parts ->
  forall seen left,
    (List.length parts <= left)%nat -> (seen + List.length parts <= 20)%nat ->
    Multer.take "images" 5 {| Multer.fileSize := MAX_FILE_SIZE env; Multer.files := 20 |}
      fileFilter seen left parts = inr parts.
Proof.
  induction 1 as [|file rest [Hf [Hname [Hfilter [Hpos [Hmax Hten]]]]] Hrest IH];
    intros seen left Hleft Hseen; [reflexivity|].
  cbn [List.length] in Hleft, Hseen. cbn [Multer.take Multer.files Multer.fileSize].
  replace (20 <=? seen)%nat with false by (symmetry; apply Nat.leb_gt; lia).
  apply String.eqb_neq in Hname. rewrite Hname.
  rewrite Hf. cbn [String.eqb Ascii.eqb Bool.eqb negb orb].
  replace (left =? 0)%nat with false by (symmetry; apply Nat.eqb_neq; lia).
  rewrite Hfilter.
  replace (MAX_FILE_SIZE env <=? Z.of_nat (String.length (Multer.buffer file)))%Z
    with false by (symmetry; apply Z.leb_gt; lia).
  rewrite IH; [reflexivity | lia | lia].
Qed.

Lemma validate_accepts (files : list Multer.File) :
  Forall (acceptable env) files ->
  forall i, validate files i = inr (map Multer.buffer files).
Proof.
  induction 1 as [|file rest [Hf [Hname [Hfilter [Hpos [Hmax Hten]]]]] Hrest IH];
    intros i; [reflexivity|]. cbn [validate].
  replace (String.length (Multer.buffer file) =? 0)%nat
    with false by (symmetry; apply Nat.eqb_neq; lia).
  replace (10 * 1024 * 1024 <? Z.of_nat (String.length (Multer.buffer file)))%Z
    with false by (symmetry; apply Z.ltb_ge; lia).
  rewrite IH. reflexivity.
Qed.

Lemma generateProfileName_returns (structuredPrompts : list BriaApi.StyleExtractResponse)
      (maxLength : Z) :
  exists name,
    ProfileName.generateProfileName JSON_parse structuredPrompts maxLength = Normal name.
Proof.
  unfold ProfileName.generateProfileName, try_catch.
  destruct structuredPrompts; [eexists; reflexivity|].
  destruct (ProfileName.generateProfileName_try JSON_parse _ maxLength);
    eexists; reflexivity.
Qed.

(** A request with one to five acceptable images and no custom name, in a
    configured process, is answered with a profile that counts every one of
    them as processed. *)
Lemma up_to_five_images_are_accepted (parts : list Multer.File) (key : string) (w : World) :
  (1 <= List.length parts <= 5)%nat ->
  Forall (acceptable env) parts ->
  BRIA_API_KEY env = Some key -> key <> "" ->
  exists p w',
    route JSON_parse env (Multipart parts) None w = (Normal (Profile p), w')
    /\ processedImages p = List.length parts.
Proof.
  intros Hlen Hok Hkey Hne. unfold route, upload, Multer.array.
  rewrite (take_accepts parts Hok 0 5) by lia.
  unfold handler, catch.
  destruct parts as [|file rest]; [simpl in Hlen; lia|].
  set (fs := file :: rest) in *.
  replace (List.length fs <? 1)%nat with false by (symmetry; apply Nat.ltb_ge; lia).
  replace (20 <? List.length fs)%nat with false by (symmetry; apply Nat.ltb_ge; lia).
  rewrite (validate_accepts fs Hok 0).
  unfold bind at 1, getBriaClient. rewrite Hkey.
  apply String.eqb_neq in Hne. rewrite Hne. cbn [ret].
  unfold bind at 1.
  destruct (process_records JSON_parse (map Multer.buffer fs) 0 [] [] w)
    as [news [newe [w1 [Hrun _]]]].
  rewrite Hrun. cbn [app].
  unfold bind at 1, lift, profileName. cbn [truthy].
  destruct (0 <? List.length news)%nat.
  - destruct (generateProfileName_returns news ProfileName.default_maxLength) as [nm Hnm].
    rewrite Hnm. cbn [bindC ret]. eexists _, w1. split; [reflexivity|].
    cbn [processedImages]. apply length_map.
  - cbn [ret]. eexists _, w1. split; [reflexivity|].
    cbn [processedImages]. apply length_map.
Qed.

End AcceptanceFacts.

(* ================================================================== *)
(** ** More on the retrier *)
(* ================================================================== *)

Section RetrierRuns.
Import Js Number Retry Notions.
Context {N : Arithmetic} {T : Type}.
Variable outcome : nat -> Completion T.
Variable opts : Options N.



Lemma schedule_length (multiplier maxDelay delay : number N) (n : nat) :
  List.length (schedule multiplier maxDelay delay n) = n.
Proof.
  revert delay. induction n as [|n IH]; intros delay; simpl; [reflexivity|].
  rewrite IH. reflexivity.
Qed.


End RetrierRuns.


(** The doubles obey them on a sample of doubles of every kind. *)
Example doubles_are_ordered_on_a_sample :
  Notions.ordered_on Number.doubles Fixtures.doubles_sample = true
  /\ map (fun d => Number.leb Number.doubles d d) Fixtures.doubles_sample
     = [true; true; true; true; true; true; true; true; true; true; true; true; true; true;
        true; true; true; false].
Proof. vm_compute. split; reflexivity. Qed.





(** X3.  With a negative [maxRetries] (with any, as [NaN], that 0 is not at
    most) the loop is not entered: the operation is never invoked, nothing is
    waited for, and the error raised is the one made after the loop,
    "Retry failed". *)
Theorem retryWithBackoff_negative_maxRetries :
  forall (N : Number.Arithmetic) (St T : Type) (sleep : Number.number N -> St -> St)
         (passes : nat) (fn : St -> Js.Completion T * St)
         (options : Retry.RetryOptions N) (s : St),
    Number.leb N (Number.lit N 0)
      (Retry.opt_maxRetries (Retry.spread Retry.defaultOptions options)) = false ->
    Retry.retryWithBackoff sleep passes fn options s
    = Some (Js.Throw (Js.ThrowError (Js.Error "Retry failed")), s).
Proof.
  intros N St T sleep passes fn options s Hneg. unfold Retry.retryWithBackoff. cbv zeta.
  destruct passes; cbn [Retry.retry_loop]; rewrite Hneg; reflexivity.
Qed.

Lemma retryWithBackoff_negative_maxRetries_witness :
  Retry.retryWithBackoff Retry.wait 4 (Retry.scripted Fixtures.flaky)
    {| Retry.maxRetries := Some (Number.lit Number.doubles (-1));
       Retry.initialDelay := None; Retry.maxDelay := None;
       Retry.backoffMultiplier := None |}
    Retry.fresh
  = Some (Js.Throw (Js.ThrowError (Js.Error "Retry failed")), Retry.fresh).
Proof.
  apply (retryWithBackoff_negative_maxRetries Number.doubles (Retry.Run Number.doubles) nat
           Retry.wait 4 (Retry.scripted Fixtures.flaky)).
  reflexivity.
Defined.





(** The arithmetic of the program is that of doubles.  With [maxRetries] at
    2.5 the counter never meets it: the operation is invoked three times,
    each failure is followed by a wait, and the last failure is raised after
    the loop.  A delay of 9007199254740991 times 3 is rounded, to
    27021597764222972.  With an initial delay of 0 and the multiplier
    [Infinity] the second delay is [NaN], which compares with nothing; its
    timer runs for 1 ms. *)
Example retryWithBackoff_on_doubles :
  Retry.retryWithBackoff Retry.wait 3 (Retry.scripted Fixtures.failing)
    (@Retry.mkRetryOptions Number.doubles
       (Some (PrimFloat.div (Number.double 5) (Number.double 2))) None None None)
    Retry.fresh
  = Some (Js.Throw (Js.ThrowError (Js.Error "failure 2")),
          {| Retry.invocations := 3;
             Retry.waits := map (Number.lit Number.doubles) [1000; 2000; 4000]%Z |})
  /\ Number.mul Number.doubles (Number.lit Number.doubles 9007199254740991)
       (Number.lit Number.doubles 3)
     = Number.lit Number.doubles 27021597764222972
  /\ Number.mul Number.integers 9007199254740991%Z 3%Z = 27021597764222973%Z
  /\ (let waits :=
        Notions.backoff_waits
          (@Retry.mkRetryOptions Number.doubles None (Some (Number.double 0)) None
             (Some PrimFloat.infinity)) 2 in
      map (fun d => Number.leb Number.doubles d d) waits = [true; false]
      /\ map Number.millis waits = [1; 1]%Z).
Proof. vm_compute. repeat split. Qed.

(* ================================================================== *)
(** ** Bounds on the polling loops *)
(* ================================================================== *)

Section CostFacts.
Import Js World Measures.
Variable weight : Event -> nat.

Lemma total_app (a b : list Event) :
  total weight (a ++ b) = (total weight a + total weight b)%nat.
Proof. induction a as [|e a IH]; simpl; [reflexivity | rewrite IH; lia]. Qed.

Lemma costs_weaken {A} (k k' : nat) (m : M A) :
  (k <= k')%nat -> costs weight k m -> costs weight k' m.
Proof. intros Hk Hm w. specialize (Hm w). lia. Qed.

Lemma costs_ret {A} (a : A) : costs weight 0 (ret a).
Proof. intros w. simpl. lia. Qed.

Lemma costs_throw {A} (t : Thrown) : costs weight 0 (@throw A t).
Proof. intros w. simpl. lia. Qed.

Lemma costs_lift {A} (c : Completion A) : costs weight 0 (lift c).
Proof. intros w. simpl. lia. Qed.

Lemma costs_sleep (ms : Z) : costs weight (weight (Slept ms)) (sleep ms).
Proof. intros w. simpl. lia. Qed.

Lemma costs_request (r : HttpRequest) : costs weight (weight (Called r)) (request r).
Proof.
  intros w. unfold request. destruct (remote w (List.length (calls w)) r); simpl; lia.
Qed.

Lemma costs_bind {A B} (k1 k2 : nat) (m : M A) (f : A -> M B) :
  costs weight k1 m -> (forall a, costs weight k2 (f a)) ->
  costs weight (k1 + k2) (bind m f).
Proof.
  intros Hm Hf w. unfold bind. specialize (Hm w).
  destruct (m w) as [[a|t] w1]; simpl in *.
  - specialize (Hf a w1). lia.
  - lia.
Qed.

Lemma costs_catch {A} (k1 k2 : nat) (m : M A) (h : Thrown -> M A) :
  costs weight k1 m -> (forall t, costs weight k2 (h t)) ->
  costs weight (k1 + k2) (catch m h).
Proof.
  intros Hm Hh w. unfold catch. specialize (Hm w).
  destruct (m w) as [[a|t] w1]; simpl in *.
  - lia.
  - specialize (Hh t w1). lia.
Qed.

Lemma costs_for_loop {A} (k ka : nat) (body : nat -> M (option A)) (after : M A) :
  (forall i, costs weight k (body i)) -> costs weight ka after ->
  forall passes i, costs weight (passes * k + ka) (BriaApi.for_loop passes i body after).
Proof.
  intros Hbody Hafter. induction passes as [|n IH]; intros i.
  - simpl. exact Hafter.
  - cbn [BriaApi.for_loop]. replace (S n * k + ka)%nat with (k + (n * k + ka))%nat by lia.
    apply costs_bind; [apply Hbody|]. intros [a|].
    + eapply costs_weaken; [|apply costs_ret]. lia.
    + apply IH.
Qed.

Lemma costs_retried {A} (k ks : nat) (fn : M A) :
  costs weight k fn -> (forall ms, weight (Slept ms) <= ks)%nat ->
  costs weight (4 * (k + ks)) (retried fn).
Proof.
  intros Hfn Hs.
  assert (Hwait : forall ms, costs weight ks (sleep ms)).
  { intros ms. eapply costs_weaken; [apply Hs | apply costs_sleep]. }
  assert (H : costs weight (k + (ks + (k + (ks + (k + (ks + (k + 0)))))))
                (retried_passes fn)).
  { unfold retried_passes.
    apply (costs_catch k); [exact Hfn|]. intros _.
    apply (costs_bind ks); [apply Hwait|]. intros _.
    apply (costs_catch k); [exact Hfn|]. intros _.
    apply (costs_bind ks); [apply Hwait|]. intros _.
    apply (costs_catch k); [exact Hfn|]. intros _.
    apply (costs_bind ks); [apply Hwait|]. intros _.
    apply (costs_catch k); [exact Hfn|]. intros t. apply costs_throw. }
  intros w. rewrite retried_unfold. specialize (H w). lia.
Qed.

End CostFacts.

Section PollingBounds.
Import Js World Measures BriaApi.

Lemma calls_total (w : World) : List.length (calls w) = total call_weight (events w).
Proof.
  unfold calls. induction (events w) as [|e es IH]; [reflexivity|].
  simpl rev. rewrite flat_map_app, length_app, IH. destruct e; simpl; lia.
Qed.

Lemma sleeps_total (w : World) : List.length (sleeps w) = total wait_weight (events w).
Proof.
  unfold sleeps. induction (events w) as [|e es IH]; [reflexivity|].
  simpl rev. rewrite flat_map_app, length_app, IH. destruct e; simpl; lia.
Qed.

Lemma polling_get (url : Value) :
  polling_event (Called {| req_method := GET; req_url := url; req_body := None |}).
Proof. split; reflexivity. Qed.

(** A pass of a polling loop costs one unit of either weight at most: it
    calls once, and waits once at most. *)
Lemma costs_pass {A} (weight : Event -> nat) (url : Value)
      (settle : AxiosResponse -> M (option A)) (giveup : Thrown -> M (option A)) :
  (forall e, weight e <= 1)%nat ->
  (forall resp, costs weight (1 - weight (Called {| req_method := GET; req_url := url;
                                                   req_body := None |})) (settle resp)) ->
  (forall t, costs weight 0 (giveup t)) ->
  costs weight 1 (catch (bind (get url) settle) giveup).
Proof.
  intros Hw Hsettle Hgiveup.
  set (c := weight (Called {| req_method := GET; req_url := url; req_body := None |})) in *.
  assert (Hc : (c <= 1)%nat) by apply Hw.
  eapply costs_weaken; [|apply (costs_catch weight (c + (1 - c)) 0)].
  - lia.
  - apply costs_bind; [apply costs_request | exact Hsettle].
  - exact Hgiveup.
Qed.

Lemma costs_give_up {A} (weight : Event -> nat) (i last : nat) (msg : string) :
  costs weight 0 (if (i =? last)%nat then @throwError (option A) msg else ret None).
Proof. destruct (i =? last)%nat; [apply costs_throw | apply costs_ret]. Qed.

Lemma costs_style_settle (weight : Event -> nat) (resp : AxiosResponse) :
  costs weight (weight (Slept 2000)) (style_settle resp).
Proof.
  unfold style_settle.
  apply (costs_bind weight 0); [apply costs_lift|]. intros status.
  destruct (is_text status "COMPLETED").
  { eapply costs_weaken; [|apply (costs_bind weight 0 0);
                            [apply costs_lift | intros; apply costs_ret]]. lia. }
  destruct (is_text status "ERROR").
  { eapply costs_weaken; [|apply (costs_bind weight 0 0);
                            [apply costs_lift | intros; apply costs_throw]]. lia. }
  eapply costs_weaken; [|apply (costs_bind weight (weight (Slept 2000)) 0);
                          [apply costs_sleep | intros; apply costs_ret]]. lia.
Qed.

Lemma costs_preview_settle (weight : Event -> nat) (requestId : Value)
      (resp : AxiosResponse) :
  costs weight (weight (Slept 2000)) (preview_settle requestId resp).
Proof.
  unfold preview_settle.
  apply (costs_bind weight 0); [apply costs_lift|]. intros status.
  destruct (is_text status "completed").
  { eapply costs_weaken; [|apply (costs_bind weight 0 0);
                            [apply costs_lift | intros; apply costs_ret]]. lia. }
  destruct (is_text status "failed").
  { eapply costs_weaken; [|apply (costs_bind weight 0 0);
                            [apply costs_lift | intros; apply costs_ret]]. lia. }
  eapply costs_weaken; [|apply (costs_bind weight (weight (Slept 2000)) 0);
                          [apply costs_sleep | intros; apply costs_ret]]. lia.
Qed.

Lemma costs_image_settle (weight : Event -> nat) (requestId : Value)
      (resp : AxiosResponse) :
  costs weight (weight (Slept 2000)) (image_settle requestId resp).
Proof.
  unfold image_settle.
  apply (costs_bind weight 0); [apply costs_lift|]. intros status.
  destruct (is_text status "COMPLETED" || is_text status "completed").
  { eapply costs_weaken; [|apply (costs_bind weight 0 0);
                            [apply costs_lift | intros; apply costs_ret]]. lia. }
  destruct (is_text status "ERROR" || is_text status "failed").
  { eapply costs_weaken; [|apply (costs_bind weight 0 0);
                            [apply costs_lift | intros; apply costs_throw]]. lia. }
  eapply costs_weaken; [|apply (costs_bind weight (weight (Slept 2000)) 0);
                          [apply costs_sleep | intros; apply costs_ret]]. lia.
Qed.

Lemma costs_pollStyleExtractStatus (weight : Event -> nat) (requestId statusUrl : Value) :
  weight = call_weight \/ weight = wait_weight ->
  costs weight 30 (pollStyleExtractStatus requestId statusUrl).
Proof.
  intros Hw. unfold pollStyleExtractStatus, style_poll. cbv zeta.
  eapply costs_weaken; [|apply (costs_for_loop weight 1 0)].
  - lia.
  - intros i. apply costs_pass.
    + intros [r|ms]; destruct Hw as [-> | ->]; simpl; lia.
    + intros resp. eapply costs_weaken; [|apply costs_style_settle].
      destruct Hw as [-> | ->]; simpl; lia.
    + intros t. apply costs_give_up.
  - apply costs_throw.
Qed.

Lemma costs_pollPreviewStatus (weight : Event -> nat) (requestId : Value) :
  weight = call_weight \/ weight = wait_weight ->
  costs weight 30 (pollPreviewStatus requestId).
Proof.
  intros Hw. unfold pollPreviewStatus, preview_poll. cbv zeta.
  eapply costs_weaken; [|apply (costs_for_loop weight 1 0)].
  - lia.
  - intros i. apply costs_pass.
    + intros [r|ms]; destruct Hw as [-> | ->]; simpl; lia.
    + intros resp. eapply costs_weaken; [|apply costs_preview_settle].
      destruct Hw as [-> | ->]; simpl; lia.
    + intros t. apply costs_give_up.
  - apply costs_throw.
Qed.

Lemma costs_pollImageGeneration (weight : Event -> nat) (requestId statusUrl : Value) :
  weight = call_weight \/ weight = wait_weight ->
  costs weight 60 (pollImageGeneration requestId statusUrl).
Proof.
  intros Hw. unfold pollImageGeneration, image_poll. cbv zeta.
  eapply costs_weaken; [|apply (costs_for_loop weight 1 0)].
  - lia.
  - intros i. apply costs_pass.
    + intros [r|ms]; destruct Hw as [-> | ->]; simpl; lia.
    + intros resp. eapply costs_weaken; [|apply costs_image_settle].
      destruct Hw as [-> | ->]; simpl; lia.
    + intros t. destruct (i =? 60 - 1)%nat; [apply costs_throw|].
      destruct (is_axios t && has_response_status t); [apply costs_throw | apply costs_ret].
  - apply costs_throw.
Qed.

Lemma emits_polling_wait {A} (a : A) :
  Notions.emits polling_event (bind (sleep 2000) (fun _ => ret a)).
Proof.
  apply emits_bind; [apply emits_sleep; reflexivity | intros; apply emits_ret].
Qed.

Lemma emits_polling_style_settle (resp : AxiosResponse) :
  Notions.emits polling_event (style_settle resp).
Proof.
  unfold style_settle. apply emits_bind; [apply emits_lift|]. intros status.
  destruct (is_text status "COMPLETED").
  { apply emits_bind; [apply emits_lift | intros; apply emits_ret]. }
  destruct (is_text status "ERROR").
  { apply emits_bind; [apply emits_lift | intros; apply emits_throw]. }
  apply emits_polling_wait.
Qed.

Lemma emits_polling_preview_settle (requestId : Value) (resp : AxiosResponse) :
  Notions.emits polling_event (preview_settle requestId resp).
Proof.
  unfold preview_settle. apply emits_bind; [apply emits_lift|]. intros status.
  destruct (is_text status "completed").
  { apply emits_bind; [apply emits_lift | intros; apply emits_ret]. }
  destruct (is_text status "failed").
  { apply emits_bind; [apply emits_lift | intros; apply emits_ret]. }
  apply emits_polling_wait.
Qed.

Lemma emits_polling_image_settle (requestId : Value) (resp : AxiosResponse) :
  Notions.emits polling_event (image_settle requestId resp).
Proof.
  unfold image_settle. apply emits_bind; [apply emits_lift|]. intros status.
  destruct (is_text status "COMPLETED" || is_text status "completed").
  { apply emits_bind; [apply emits_lift | intros; apply emits_ret]. }
  destruct (is_text status "ERROR" || is_text status "failed").
  { apply emits_bind; [apply emits_lift | intros; apply emits_throw]. }
  apply emits_polling_wait.
Qed.

Lemma polls_within_intro {A} (n : nat) (m : M A) :
  costs call_weight n m -> costs wait_weight n m -> Notions.emits polling_event m ->
  polls_within n m.
Proof.
  intros Hc Hs He w. rewrite !calls_total, !sleeps_total.
  split; [apply Hc|]. split; [apply Hs|].
  destruct (He w) as [extra [E [_ F]]]. exists extra. split; assumption.
Qed.

End PollingBounds.

(** X6.  Whatever the status endpoint answers, a polling loop is bounded:
    style-extraction polling and preview polling make at most 30 calls and
    30 waits, image-generation polling at most 60 of each; every call is a
    GET without a body and every wait lasts 2000 ms, so the loops end within
    60 s (120 s for image generation) of waiting. *)
Theorem polling_is_bounded :
  forall (requestId statusUrl : Js.Value),
    Measures.polls_within 30 (BriaApi.pollStyleExtractStatus requestId statusUrl)
    /\ Measures.polls_within 30 (BriaApi.pollPreviewStatus requestId)
    /\ Measures.polls_within 60 (BriaApi.pollImageGeneration requestId statusUrl).
Proof.
  intros requestId statusUrl. split; [|split]; apply polls_within_intro.
  - apply costs_pollStyleExtractStatus. left. reflexivity.
  - apply costs_pollStyleExtractStatus. right. reflexivity.
  - unfold BriaApi.pollStyleExtractStatus. apply emits_for_loop; [|apply emits_throwError].
    intros i. apply emits_catch.
    + apply emits_bind; [apply emits_request; apply polling_get|].
      apply emits_polling_style_settle.
    + intros t. destruct (i =? 30 - 1)%nat; [apply emits_throwError | apply emits_ret].
  - apply costs_pollPreviewStatus. left. reflexivity.
  - apply costs_pollPreviewStatus. right. reflexivity.
  - unfold BriaApi.pollPreviewStatus. apply emits_for_loop; [|apply emits_throwError].
    intros i. apply emits_catch.
    + apply emits_bind; [apply emits_request; apply polling_get|].
      apply emits_polling_preview_settle.
    + intros t. destruct (i =? 30 - 1)%nat; [apply emits_throwError | apply emits_ret].
  - apply costs_pollImageGeneration. left. reflexivity.
  - apply costs_pollImageGeneration. right. reflexivity.
  - unfold BriaApi.pollImageGeneration. apply emits_for_loop; [|apply emits_throwError].
    intros i. apply emits_catch.
    + apply emits_bind; [apply emits_request; apply polling_get|].
      apply emits_polling_image_settle.
    + intros t. destruct (i =? 60 - 1)%nat; [apply emits_throwError|].
      destruct (BriaApi.is_axios t && BriaApi.has_response_status t);
        [apply emits_throw | apply emits_ret].
Qed.


(* ================================================================== *)
(** ** Polls that fail *)
(* ================================================================== *)

(** X7.  Image-generation polling fails fast on an HTTP error: when its
    first poll is rejected with an axios error that carries a response
    status, the loop raises that very error at once, after the one call and
    without a wait. *)
Theorem image_polling_rethrows_http_errors :
  forall (requestId statusUrl : Js.Value) (w : World.World) (e : Js.JsError)
         (resp : Js.AxiosResponse),
    World.remote w (List.length (World.calls w))
      {| World.req_method := World.GET;
         World.req_url := BriaApi.status_url_of requestId statusUrl;
         World.req_body := None |}
    = World.Rejected e ->
    Js.isAxiosError e = true ->
    Js.response e = Some resp ->
    Js.resp_status resp <> 0%Z ->
    BriaApi.pollImageGeneration requestId statusUrl w
    = (Js.Throw (Js.ThrowError e),
       {| World.remote := World.remote w;
          World.events :=
            World.Called {| World.req_method := World.GET;
                            World.req_url := BriaApi.status_url_of requestId statusUrl;
                            World.req_body := None |} :: World.events w |}).
Proof.
  intros requestId statusUrl w e resp Hrej Haxios Hresp Hstatus.
  unfold BriaApi.pollImageGeneration. cbv zeta. rewrite for_loop_step.
  unfold World.bind at 1, World.catch, BriaApi.image_poll, World.bind at 1, World.get,
    World.request.
  rewrite Hrej. cbn [Nat.eqb Nat.sub BriaApi.is_axios BriaApi.has_response_status].
  rewrite Haxios, Hresp. apply Z.eqb_neq in Hstatus. rewrite Hstatus. reflexivity.
Qed.

Lemma image_polling_rethrows_http_errors_witness :
  BriaApi.pollImageGeneration (Some (Js.JString "r1")) None
    (World.start Fixtures.answers_not_found)
  = (Js.Throw (Js.ThrowError Fixtures.not_found),
     {| World.remote := Fixtures.answers_not_found;
        World.events :=
          [World.Called {| World.req_method := World.GET;
                           World.req_url := Some (Js.JString "/status/r1");
                           World.req_body := None |}] |}).
Proof.
  apply (image_polling_rethrows_http_errors (Some (Js.JString "r1")) None
           (World.start Fixtures.answers_not_found) Fixtures.not_found
           {| Js.resp_status := 404; Js.resp_statusText := "Not Found";
              Js.resp_data := Js.JString "no such request" |});
    [reflexivity | reflexivity | reflexivity | discriminate].
Defined.

Section RejectedPolls.
Import Js World Notions Measures BriaApi.
Variables requestId statusUrl : Value.

Let poll_request : HttpRequest :=
  {| req_method := GET; req_url := status_url_of requestId statusUrl; req_body := None |}.

Let called (w : World) : World :=
  {| remote := remote w; events := Called poll_request :: events w |}.

Let pass (i : nat) : M (option StyleExtractResponse) :=
  catch (style_poll requestId statusUrl)
    (fun error => if (i =? 30 - 1)%nat
                  then throwError "Polling timeout for style extraction"
                  else ret None).

Lemma calls_after_call (w : World) :
  List.length (calls (called w)) = S (List.length (calls w)).
Proof.
  unfold calls, called. simpl. rewrite flat_map_app, length_app. simpl. lia.
Qed.

Lemma sleeps_after_call (w : World) : sleeps (called w) = sleeps w.
Proof. unfold sleeps, called. simpl. rewrite flat_map_app, app_nil_r. reflexivity. Qed.

(** A pass whose poll is rejected goes on to the next at once, unless it is
    the last. *)
Lemma pass_rejected (i : nat) (w : World) (e : JsError) :
  rejects (remote w) (List.length (calls w)) e ->
  pass i w = (if (i =? 29)%nat
              then Throw (ThrowError (Error "Polling timeout for style extraction"))
              else Normal None, called w).
Proof.
  intros Hr. unfold pass, catch, style_poll, bind at 1, get, request. fold poll_request.
  rewrite (Hr poll_request). fold (called w). change (30 - 1)%nat with 29%nat.
  destruct (i =? 29)%nat; reflexivity.
Qed.

Lemma loop_while_rejected (after : M StyleExtractResponse) (n : nat) :
  forall more i w,
    (i + n <= 29)%nat ->
    (forall k, (k < n)%nat -> exists e, rejects (remote w) (List.length (calls w) + k) e) ->
    exists w',
      for_loop (n + more) i pass after w = for_loop more (i + n) pass after w'
      /\ remote w' = remote w
      /\ List.length (calls w') = (List.length (calls w) + n)%nat
      /\ sleeps w' = sleeps w.
Proof.
  induction n as [|n IH]; intros more i w Hi Hrej.
  - exists w. rewrite !Nat.add_0_r. repeat split; reflexivity.
  - cbn [Nat.add]. rewrite for_loop_step. unfold bind at 1.
    destruct (Hrej 0%nat) as [e He]; [lia|]. rewrite Nat.add_0_r in He.
    rewrite (pass_rejected i w e He).
    replace (i =? 29)%nat with false by (symmetry; apply Nat.eqb_neq; lia).
    destruct (IH more (S i) (called w)) as [w' [Hrun [Hr [Hc Hs]]]]; [lia | |].
    { intros k Hk. destruct (Hrej (S k)) as [e' He']; [lia|]. exists e'.
      cbn [remote called]. rewrite calls_after_call.
      replace (S (List.length (calls w)) + k)%nat
        with (List.length (calls w) + S k)%nat by lia. exact He'. }
    exists w'. split; [rewrite Hrun; f_equal; lia|].
    split; [rewrite Hr; reflexivity|].
    split; [rewrite Hc, calls_after_call; lia | rewrite Hs, sleeps_after_call; reflexivity].
Qed.

End RejectedPolls.

(** X8.  A poll that axios rejects is not followed by a wait.  When the
    status endpoint rejects all 30 polls of a style extraction, the loop
    makes its 30 calls back to back, without a single wait, and raises the
    timeout error. *)
Theorem style_polling_does_not_wait_after_a_rejection :
  forall (requestId statusUrl : Js.Value)
         (service : nat -> World.HttpRequest -> World.HttpReply),
    (forall k, (k < 30)%nat -> exists e, Measures.rejects service k e) ->
    exists w',
      BriaApi.pollStyleExtractStatus requestId statusUrl (World.start service)
      = (Js.Throw (Js.ThrowError (Js.Error "Polling timeout for style extraction")), w')
      /\ List.length (World.calls w') = 30%nat
      /\ World.sleeps w' = [].
Proof.
  intros requestId statusUrl service Hrej.
  destruct (loop_while_rejected requestId statusUrl
              (World.throwError "Polling timeout for style extraction")
              29 1 0 (World.start service)) as [w1 [Hrun [Hr [Hc Hs]]]]; [lia | |].
  { intros k Hk. destruct (Hrej k) as [e He]; [lia|]. exists e. exact He. }
  change (BriaApi.pollStyleExtractStatus requestId statusUrl)
    with (BriaApi.for_loop (29 + 1) 0
            (fun i => World.catch (BriaApi.style_poll requestId statusUrl)
                        (fun error => if (i =? 30 - 1)%nat
                                      then World.throwError "Polling timeout for style extraction"
                                      else World.ret None))
            (World.throwError "Polling timeout for style extraction")).
  rewrite Hrun. rewrite for_loop_step. unfold World.bind at 1.
  destruct (Hrej 29%nat) as [e He]; [lia|].
  rewrite (pass_rejected requestId statusUrl (0 + 29) w1 e).
  2:{ rewrite Hr, Hc. exact He. }
  cbn [Nat.add Nat.eqb]. eexists. split; [reflexivity|].
  rewrite calls_after_call, Hc, sleeps_after_call, Hs. split; reflexivity.
Qed.

Lemma answers_not_found_rejects (k : nat) :
  (k < 30)%nat -> exists e, Measures.rejects Fixtures.answers_not_found k e.
Proof. intros _. exists Fixtures.not_found. intros r. reflexivity. Qed.

Lemma style_polling_does_not_wait_after_a_rejection_witness :
  exists w',
    BriaApi.pollStyleExtractStatus (Some (Js.JString "r1")) None
      (World.start Fixtures.answers_not_found)
    = (Js.Throw (Js.ThrowError (Js.Error "Polling timeout for style extraction")), w')
    /\ List.length (World.calls w') = 30%nat
    /\ World.sleeps w' = [].
Proof.
  exact (style_polling_does_not_wait_after_a_rejection (Some (Js.JString "r1")) None
           Fixtures.answers_not_found answers_not_found_rejects).
Defined.

(* ================================================================== *)
(** ** What the extraction endpoint sends *)
(* ================================================================== *)

Section ExtractionRequests.
Import Js World Notions Measures BriaApi.

Lemma encode_images_maps (images : list Buffer) :
  forall index l, encode_images images index = Normal l -> l = map base64 images.
Proof.
  induction images as [|b rest IH]; intros index l; cbn [encode_images].
  - intros H. injection H as <-. reflexivity.
  - destruct (String.length b =? 0)%nat; [discriminate|].
    destruct (encode_images rest (S index)) as [more|t] eqn:E; cbn [bindC]; [|discriminate].
    intros H. injection H as <-. rewrite (IH _ _ E). reflexivity.
Qed.

Lemma extraction_event_wait (images : list Buffer) (ms : Z) :
  extraction_event images (Slept ms).
Proof. exact I. Qed.

Lemma extraction_event_get (images : list Buffer) (url : Value) :
  extraction_event images (Called {| req_method := GET; req_url := url; req_body := None |}).
Proof. exact I. Qed.

Lemma extraction_event_more (images more : list Buffer) (e : Event) :
  incl images more -> extraction_event images e -> extraction_event more e.
Proof.
  intros Hincl. destruct e as [r|ms]; [|auto]. cbn [extraction_event].
  destruct (req_method r); [auto|]. intros [image [Hin Hr]]. exists image. auto.
Qed.

(** [extractStyle] posts nothing but its one image. *)
Lemma emits_extractStyle (images : list Buffer) :
  emits (extraction_event images) (extractStyle images).
Proof.
  unfold extractStyle, extractStyle_operation.
  apply emits_retried; [apply extraction_event_wait|].
  apply emits_catch; [|intros t; apply emits_extractStyle_catch].
  unfold extractStyle_try, lift at 1, bind at 1.
  destruct (encode_images images 0) as [l|t] eqn:E; [|apply emits_throw].
  apply encode_images_maps in E.
  destruct l as [|image [|second l]]; try apply emits_throwError.
  destruct images as [|buffer [|b2 bs]]; try discriminate.
  injection E as ->.
  apply emits_bind.
  { apply emits_request. cbn [extraction_event req_method]. exists buffer.
    split; [left; reflexivity | reflexivity]. }
  intros response.
  apply emits_bind; [apply emits_lift|]. intros request_id.
  apply emits_bind; [apply emits_lift|]. intros status_url.
  destruct ((resp_status response =? 202)%Z && truthy status_url).
  - apply emits_pollStyleExtractStatus;
      [apply extraction_event_wait | apply extraction_event_get].
  - apply emits_lift.
Qed.

Lemma costs_give_up_handlers {A} (weight : Event -> nat) (t : Thrown) :
  costs weight 0 (@extractStyle_catch A t) /\ costs weight 0 (@generateImage_catch A t).
Proof.
  unfold extractStyle_catch, generateImage_catch.
  destruct t as [e|v]; [|split; apply costs_throw].
  destruct (isAxiosError e); [|split; apply costs_throw].
  destruct (network_code e); split; apply costs_throw.
Qed.

(** One attempt of [extractStyle]: a POST and at most 30 polls. *)
Lemma costs_extractStyle_operation (images : list Buffer) :
  costs call_weight 31 (extractStyle_operation images).
Proof.
  unfold extractStyle_operation.
  apply (costs_catch call_weight 31 0); [|intros t; apply costs_give_up_handlers].
  unfold extractStyle_try.
  apply (costs_bind call_weight 0 31); [apply costs_lift|]. intros l.
  destruct l as [|image [|second l]];
    try (eapply costs_weaken; [|apply costs_throw]; lia).
  apply (costs_bind call_weight 1 30); [apply costs_request|]. intros response.
  apply (costs_bind call_weight 0 30); [apply costs_lift|]. intros request_id.
  apply (costs_bind call_weight 0 30); [apply costs_lift|]. intros status_url.
  destruct ((resp_status response =? 202)%Z && truthy status_url).
  - apply costs_pollStyleExtractStatus. left. reflexivity.
  - eapply costs_weaken; [|apply costs_lift]. lia.
Qed.

(** One attempt of [generateImage]: a POST and at most 60 polls. *)
Lemma costs_generateImage_operation (request : ImageGenerateRequest) :
  costs call_weight 61 (generateImage_operation request).
Proof.
  unfold generateImage_operation.
  apply (costs_catch call_weight 61 0); [|intros t; apply costs_give_up_handlers].
  unfold generateImage_try. cbv zeta.
  apply (costs_bind call_weight 0 61).
  { destruct (truthy (in_prompt request) && negb (is_string (in_prompt request)));
      [apply costs_throw | apply costs_ret]. }
  intros _.
  apply (costs_bind call_weight 1 60); [apply costs_request|]. intros response.
  apply (costs_bind call_weight 0 60); [apply costs_lift|]. intros _.
  apply (costs_bind call_weight 0 60); [apply costs_lift|]. intros request_id.
  apply (costs_bind call_weight 0 60); [apply costs_lift|]. intros status_url.
  destruct ((resp_status response =? 202)%Z && truthy status_url).
  - apply costs_pollImageGeneration. left. reflexivity.
  - eapply costs_weaken; [|apply costs_lift]. lia.
Qed.

Lemma costs_extractStyle (images : list Buffer) :
  costs call_weight 124 (extractStyle images).
Proof.
  unfold extractStyle.
  apply (costs_retried call_weight 31 0 _ (costs_extractStyle_operation images)).
  intros ms. simpl. lia.
Qed.

Lemma costs_generateImage (request : ImageGenerateRequest) :
  costs call_weight 244 (generateImage request).
Proof.
  unfold generateImage.
  apply (costs_retried call_weight 61 0 _ (costs_generateImage_operation request)).
  intros ms. simpl. lia.
Qed.

Lemma calls_within_intro {A} (n : nat) (m : M A) :
  costs call_weight n m -> calls_within n m.
Proof. intros H w. rewrite !calls_total. apply H. Qed.

End ExtractionRequests.

Section ExtractionRoute.
Import Js World Notions Measures StyleExtractRoute.
Variable JSON_parse : string -> option JSON.
Variable env : Env.

(** What the upload lets through is the form as it came, less the parts
    without a file name. *)
Lemma take_keeps (field : string) (maxCount : nat) (limits : Multer.Limits)
      (filter : Multer.File -> option JsError) (parts : list Multer.File) :
  forall seen left files,
    Multer.take field maxCount limits filter seen left parts = inr files ->
    files = List.filter named parts.
Proof.
  induction parts as [|file rest IH]; intros seen left files;
    cbn [Multer.take List.filter].
  - intros H. injection H as <-. reflexivity.
  - destruct (Multer.files limits <=? seen)%nat; [discriminate|].
    unfold named at 1.
    destruct (String.eqb (Multer.originalname file) ""); cbn [negb]; [apply IH|].
    destruct (negb (String.eqb (Multer.fieldname file) field) || (left =? 0)%nat);
      [discriminate|].
    destruct (filter file); [discriminate|].
    destruct (Multer.fileSize limits <=? Z.of_nat (String.length (Multer.buffer file)))%Z;
      [discriminate|].
    destruct (Multer.take field maxCount limits filter (S seen) (left - 1) rest)
      as [err|more] eqn:E; [discriminate|].
    intros H. injection H as <-. rewrite (IH _ _ _ E). reflexivity.
Qed.

(** The buffers the handler validates are those of the files, in order. *)
Lemma validate_keeps (files : list Multer.File) :
  forall i buffers, validate files i = inr buffers -> buffers = map Multer.buffer files.
Proof.
  induction files as [|file rest IH]; intros i buffers; cbn [validate].
  - intros H. injection H as <-. reflexivity.
  - destruct (String.length (Multer.buffer file) =? 0)%nat; [discriminate|].
    destruct (10 * 1024 * 1024 <? Z.of_nat (String.length (Multer.buffer file)))%Z;
      [discriminate|].
    destruct (validate rest (S i)) as [e|more] eqn:E; [discriminate|].
    intros H. injection H as <-. rewrite (IH _ _ E). reflexivity.
Qed.

Lemma emits_process (all : list BriaApi.Buffer) (imageBuffers : list BriaApi.Buffer) :
  incl imageBuffers all ->
  forall i structuredPrompts errors,
    emits (extraction_event all) (process JSON_parse imageBuffers i structuredPrompts errors).
Proof.
  induction imageBuffers as [|buffer rest IH]; intros Hincl i sps errs; cbn [process].
  - apply emits_ret.
  - apply emits_bind.
    + apply emits_catch; [|intros t; apply emits_ret].
      apply emits_bind.
      * eapply emits_weaken; [|apply emits_extractStyle].
        intros e. apply extraction_event_more.
        intros b [<-|[]]. apply Hincl. left. reflexivity.
      * intros result. apply emits_bind; [apply emits_lift | intros; apply emits_ret].
    + assert (Hrest : incl rest all) by (intros b Hb; apply Hincl; right; exact Hb).
      intros [prompt|e]; apply IH; exact Hrest.
Qed.

Lemma costs_process (imageBuffers : list BriaApi.Buffer) :
  forall i structuredPrompts errors,
    costs call_weight (124 * List.length imageBuffers)
      (process JSON_parse imageBuffers i structuredPrompts errors).
Proof.
  induction imageBuffers as [|buffer rest IH]; intros i sps errs; cbn [process].
  - eapply costs_weaken; [|apply costs_ret]. lia.
  - cbn [List.length].
    replace (124 * S (List.length rest))%nat
      with ((124 + 0 + 0) + 124 * List.length rest)%nat by lia.
    apply costs_bind.
    + apply costs_catch; [|intros t; apply costs_ret].
      apply (costs_bind call_weight 124 0); [apply costs_extractStyle|]. intros result.
      apply (costs_bind call_weight 0 0); [apply costs_lift | intros; apply costs_ret].
    + intros [prompt|e]; apply IH.
Qed.

(** The handler, on files: what it sends, and how much. *)
Lemma handler_sends (files : list Multer.File) (profile_name : Value) :
  emits (extraction_event (map Multer.buffer files))
    (handler JSON_parse env (Some files) profile_name)
  /\ costs call_weight (124 * List.length files)
       (handler JSON_parse env (Some files) profile_name).
Proof.
  unfold handler.
  split.
  - apply emits_catch; [|intros t; apply emits_ret].
    destruct files as [|file rest]; [apply emits_ret|].
    set (fs := file :: rest).
    destruct (List.length fs <? 1)%nat; [apply emits_ret|].
    destruct (20 <? List.length fs)%nat; [apply emits_ret|].
    destruct (validate fs 0) as [e|imageBuffers] eqn:E; [apply emits_ret|].
    apply validate_keeps in E. subst imageBuffers.
    apply emits_bind; [apply emits_getBriaClient|]. intros _.
    apply emits_bind; [apply emits_process; apply incl_refl|]. intros [sps errs].
    apply emits_bind; [apply emits_lift|]. intros [nm readings]. apply emits_ret.
  - replace (124 * List.length files)%nat with (124 * List.length files + 0)%nat by lia.
    apply costs_catch; [|intros t; apply costs_ret].
    destruct files as [|file rest]; [eapply costs_weaken; [|apply costs_ret]; lia|].
    set (fs := file :: rest).
    destruct (List.length fs <? 1)%nat; [eapply costs_weaken; [|apply costs_ret]; lia|].
    destruct (20 <? List.length fs)%nat; [eapply costs_weaken; [|apply costs_ret]; lia|].
    destruct (validate fs 0) as [e|imageBuffers] eqn:E;
      [eapply costs_weaken; [|apply costs_ret]; lia|].
    apply validate_keeps in E. subst imageBuffers.
    apply (costs_bind call_weight 0 (124 * List.length fs)).
    { unfold getBriaClient. destruct (BRIA_API_KEY env) as [key|]; [|apply costs_throw].
      destruct (String.eqb key ""); [apply costs_throw | apply costs_ret]. }
    intros _.
    replace (124 * List.length fs)%nat
      with (124 * List.length (map Multer.buffer fs) + 0)%nat
      by (rewrite length_map; lia).
    apply (costs_bind call_weight (124 * List.length (map Multer.buffer fs)) 0);
      [apply costs_process|].
    intros [sps errs].
    apply (costs_bind call_weight 0 0); [apply costs_lift|]. intros [nm readings].
    apply costs_ret.
Qed.

(** The same on what the upload lets through of a form. *)
Lemma upload_sends (parts files : list Multer.File) (profile_name : Value) :
  upload env parts = inr files ->
  emits (extraction_event (map Multer.buffer parts))
    (handler JSON_parse env (Some files) profile_name)
  /\ costs call_weight (124 * List.length parts)
       (handler JSON_parse env (Some files) profile_name).
Proof.
  intros E. apply take_keeps in E. subst files.
  destruct (handler_sends (List.filter named parts) profile_name) as [Hemits Hcosts].
  split.
  - eapply emits_weaken; [|exact Hemits].
    intros [r|ms]; cbn [extraction_event]; [|trivial].
    destruct (req_method r); [trivial|].
    intros [image [Hin Hr]]. exists image. split; [|exact Hr].
    apply in_map_iff in Hin. destruct Hin as [file [Hfile Hin]].
    apply in_map_iff. exists file. split; [exact Hfile|].
    apply filter_In in Hin. apply Hin.
  - eapply costs_weaken; [|exact Hcosts].
    pose proof (filter_length_le named parts). lia.
Qed.

End ExtractionRoute.

(** X9.  Whatever the form holds and whatever the remote service answers,
    every call the extraction endpoint makes is a GET, or a POST to
    [/structured_prompt/generate] whose body holds exactly one image of the
    form, in base64, with [sync] false. *)
Theorem extraction_route_requests :
  forall (JSON_parse : string -> option Js.JSON) (env : Env)
         (parts : list Multer.File) (profile_name : Js.Value),
    Notions.emits (Measures.extraction_event (map Multer.buffer parts))
      (StyleExtractRoute.route JSON_parse env (StyleExtractRoute.Multipart parts)
         profile_name).
Proof.
  intros JSON_parse env parts profile_name. unfold StyleExtractRoute.route.
  destruct (StyleExtractRoute.upload env parts) as [err|files] eqn:E; [apply emits_ret|].
  apply (upload_sends _ _ _ _ _ E).
Qed.

(** X10.  The number of calls to the remote service is bounded, whatever it
    answers: [extractStyle] makes at most 124 calls (4 attempts of a POST and
    30 polls), [generateImage] at most 244 (4 attempts of a POST and 60
    polls); the generation endpoint at most 244 per request and the
    extraction endpoint at most 124 per file of the form. *)
Theorem client_calls_are_bounded :
  forall (JSON_parse : string -> option Js.JSON) (env : Env),
    (forall images, Measures.calls_within 124 (BriaApi.extractStyle images))
    /\ (forall request, Measures.calls_within 244 (BriaApi.generateImage request))
    /\ (forall body,
           Measures.calls_within 244 (GenerateImageRoute.handler JSON_parse env body))
    /\ (forall form profile_name,
           Measures.calls_within
             (124 * match form with
                    | StyleExtractRoute.Multipart parts => List.length parts
                    | StyleExtractRoute.NotMultipart => 0
                    end)
             (StyleExtractRoute.route JSON_parse env form profile_name)).
Proof.
  intros JSON_parse env. split; [|split; [|split]].
  - intros images. apply calls_within_intro, costs_extractStyle.
  - intros request. apply calls_within_intro, costs_generateImage.
  - intros body. apply calls_within_intro. unfold GenerateImageRoute.handler.
    apply (costs_catch Measures.call_weight 244 0); [|intros t; apply costs_ret].
    apply (costs_bind Measures.call_weight 0); [apply costs_lift|]. intros sp.
    apply (costs_bind Measures.call_weight 0); [apply costs_lift|]. intros pr.
    apply (costs_bind Measures.call_weight 0); [apply costs_lift|]. intros sd.
    apply (costs_bind Measures.call_weight 0); [apply costs_lift|]. intros use.
    destruct (negb (Js.truthy sp) && negb (Js.truthy pr));
      [eapply costs_weaken; [|apply costs_ret]; lia|].
    destruct (Js.truthy sp && negb (Js.is_string sp));
      [eapply costs_weaken; [|apply costs_ret]; lia|].
    destruct (GenerateImageRoute.prepare JSON_parse sp pr use) as [[fp fsp] dna].
    apply (costs_bind Measures.call_weight 0).
    { unfold getBriaClient. destruct (BRIA_API_KEY env) as [key|]; [|apply costs_throw].
      destruct (String.eqb key ""); [apply costs_throw | apply costs_ret]. }
    intros _. replace 244%nat with (244 + 0)%nat by lia.
    apply costs_bind; [apply costs_generateImage | intros; apply costs_ret].
  - intros form profile_name. apply calls_within_intro. unfold StyleExtractRoute.route.
    destruct form as [parts|].
    + destruct (StyleExtractRoute.upload env parts) as [err|files] eqn:E;
        [eapply costs_weaken; [|apply costs_ret]; lia|].
      apply (upload_sends _ _ _ _ _ E).
    + eapply costs_weaken; [|apply (costs_catch Measures.call_weight 0 0);
                              [apply costs_ret | intros; apply costs_ret]]. lia.
Qed.

(* ================================================================== *)
(** ** What the client raises and what the endpoints answer *)
(* ================================================================== *)

Section Outcomes.
Import Js World Measures.
Variable G : (nat -> HttpRequest -> HttpReply) -> Prop.

Lemma yields_weaken {A} (N N' : A -> Prop) (P P' : Thrown -> Prop) (m : M A) :
  (forall a, N a -> N' a) -> (forall t, P t -> P' t) ->
  yields G N P m -> yields G N' P' m.
Proof.
  intros HN HP Hm w Hw. destruct (Hm w Hw) as [Hr He]. split; [exact Hr|].
  destruct (fst (m w)); simpl in *; auto.
Qed.

Lemma yields_ret {A} (N : A -> Prop) (P : Thrown -> Prop) (a : A) :
  N a -> yields G N P (ret a).
Proof. intros H w _. split; [reflexivity | exact H]. Qed.

Lemma yields_throw {A} (N : A -> Prop) (P : Thrown -> Prop) (t : Thrown) :
  P t -> yields G N P (@throw A t).
Proof. intros H w _. split; [reflexivity | exact H]. Qed.

Lemma yields_lift {A} (N : A -> Prop) (P : Thrown -> Prop) (c : Completion A) :
  ends N P c -> yields G N P (lift c).
Proof. intros H w _. split; [reflexivity | exact H]. Qed.

Lemma yields_sleep (P : Thrown -> Prop) (ms : Z) : yields G anything P (sleep ms).
Proof. intros w _. split; [reflexivity | exact I]. Qed.

Lemma yields_request (P : Thrown -> Prop) (r : HttpRequest) :
  (forall service k e, G service -> service k r = Rejected e -> P (ThrowError e)) ->
  yields G anything P (request r).
Proof.
  intros H w Hw. unfold request.
  destruct (remote w (List.length (calls w)) r) as [resp|e] eqn:E; cbn [fst snd remote].
  - split; [reflexivity | exact I].
  - split; [reflexivity | exact (H _ _ _ Hw E)].
Qed.

Lemma yields_bind {A B} (N1 : A -> Prop) (N2 : B -> Prop) (P : Thrown -> Prop)
      (m : M A) (k : A -> M B) :
  yields G N1 P m -> (forall a, N1 a -> yields G N2 P (k a)) -> yields G N2 P (bind m k).
Proof.
  intros Hm Hk w Hw. unfold bind. destruct (Hm w Hw) as [Hr He].
  destruct (m w) as [[a|t] w1]; cbn [fst snd ends] in *.
  - rewrite <- Hr in Hw. destruct (Hk a He w1 Hw) as [Hr2 He2].
    split; [rewrite Hr2; exact Hr | exact He2].
  - split; [exact Hr | exact He].
Qed.

Lemma yields_catch {A} (N : A -> Prop) (P1 P2 : Thrown -> Prop)
      (m : M A) (h : Thrown -> M A) :
  yields G N P1 m -> (forall t, P1 t -> yields G N P2 (h t)) -> yields G N P2 (catch m h).
Proof.
  intros Hm Hh w Hw. unfold catch. destruct (Hm w Hw) as [Hr He].
  destruct (m w) as [[a|t] w1]; cbn [fst snd ends] in *.
  - split; [exact Hr | exact He].
  - rewrite <- Hr in Hw. destruct (Hh t He w1 Hw) as [Hr2 He2].
    split; [rewrite Hr2; exact Hr | exact He2].
Qed.

Lemma yields_for_loop {A} (N : A -> Prop) (P : Thrown -> Prop)
      (body : nat -> M (option A)) (after : M A) :
  (forall i, yields G (fun r => match r with Some a => N a | None => True end) P (body i)) ->
  yields G N P after ->
  forall passes i, yields G N P (BriaApi.for_loop passes i body after).
Proof.
  intros Hbody Hafter. induction passes as [|k IH]; intros i; cbn [BriaApi.for_loop].
  - exact Hafter.
  - eapply yields_bind; [apply Hbody|]. intros [a|] Ha; [apply yields_ret; exact Ha | apply IH].
Qed.

(** The retrier raises an [Error]: the last failure of the operation, made
    an [Error] if it was none. *)
Lemma yields_retried {A} (N : A -> Prop) (P : Thrown -> Prop) (P' : JsError -> Prop)
      (fn : M A) :
  yields G N P fn -> (forall t, P t -> P' (toError t)) ->
  yields G N (fun t => exists e, t = ThrowError e /\ P' e) (retried fn).
Proof.
  intros Hfn Hto.
  assert (H : yields G N (fun t => exists e, t = ThrowError e /\ P' e) (retried_passes fn)).
  { unfold retried_passes.
    apply yields_catch with (P1 := P); [exact Hfn|]. intros _ _.
    apply yields_bind with (N1 := anything); [apply yields_sleep|]. intros _ _.
    apply yields_catch with (P1 := P); [exact Hfn|]. intros _ _.
    apply yields_bind with (N1 := anything); [apply yields_sleep|]. intros _ _.
    apply yields_catch with (P1 := P); [exact Hfn|]. intros _ _.
    apply yields_bind with (N1 := anything); [apply yields_sleep|]. intros _ _.
    apply yields_catch with (P1 := P); [exact Hfn|]. intros t Ht.
    apply yields_throw. exists (toError t). split; [reflexivity | apply Hto, Ht]. }
  intros w Hw. rewrite retried_unfold. apply H, Hw.
Qed.

End Outcomes.

Section ClientOutcomes.
Import Js World Measures BriaApi.

Lemma quiet_TypeError (msg : string) : quiet (TypeError msg).
Proof. split; reflexivity. Qed.

Lemma quiet_tame (t : Thrown) : quiet t -> tame t.
Proof. intros [_ H]. right. exact H. Qed.

Lemma ends_bindC {A B} (N : B -> Prop) (P : Thrown -> Prop)
      (c : Completion A) (k : A -> Completion B) :
  ends anything P c -> (forall a, ends N P (k a)) -> ends N P (bindC c k).
Proof. destruct c as [a|t]; cbn [bindC ends]; auto. Qed.

Lemma ends_getProp (v : Value) (k : string) : ends anything quiet (getProp v k).
Proof.
  destruct v as [[]|]; cbn [getProp ends]; try exact I; apply quiet_TypeError.
Qed.

Lemma ends_styleResult (data : JSON) : ends anything quiet (styleResult data).
Proof.
  unfold styleResult. apply ends_bindC; [apply ends_getProp|]. intros r. cbv zeta.
  apply ends_bindC; [apply ends_getProp|]. intros sd.
  apply ends_bindC; [apply ends_getProp|]. intros sp. exact I.
Qed.

Lemma ends_imageResult (data : JSON) (seed_default rid : Value) :
  ends anything quiet (imageResult data seed_default rid).
Proof.
  unfold imageResult. apply ends_bindC; [apply ends_getProp|]. intros r. cbv zeta.
  apply ends_bindC; [apply ends_getProp|]. intros url.
  apply ends_bindC; [apply ends_getProp|]. intros imgs.
  apply ends_bindC; [apply ends_getProp|]. intros sd. exact I.
Qed.

Lemma ends_tame {A} (c : Completion A) : ends anything quiet c -> ends anything tame c.
Proof. destruct c as [a|t]; cbn [ends]; [auto | apply quiet_tame]. Qed.

Variable G : (nat -> HttpRequest -> HttpReply) -> Prop.
Hypothesis G_axios : forall service, G service -> axios_service service.

Lemma yields_call (r : HttpRequest) : yields G anything tame (request r).
Proof.
  apply yields_request. intros service k e Hs He. left. exact (G_axios _ Hs _ _ _ He).
Qed.

Lemma yields_read {A} (c : Completion A) :
  ends anything quiet c -> yields G anything tame (lift c).
Proof. intros H. apply yields_lift, ends_tame, H. Qed.

Lemma yields_settled {A} (c : Completion A) :
  ends anything quiet c ->
  yields G (fun r : option A => match r with Some a => anything a | None => True end) tame
    (bind (lift c) (fun r => ret (Some r))).
Proof.
  intros H. eapply yields_bind; [apply yields_read, H|].
  intros a _. apply yields_ret. exact I.
Qed.

Lemma yields_reported {A} (data : JSON) (fallback : string) :
  yields G (fun r : option A => match r with Some a => anything a | None => True end) tame
    (bind (lift (getProp (Some data) "error"))
       (fun e => throw (ErrorOf (or_default (getOpt e "message") (JString fallback))))).
Proof.
  eapply yields_bind; [apply yields_read, ends_getProp|].
  intros e _. apply yields_throw. right. reflexivity.
Qed.

Lemma yields_waited {A} :
  yields G (fun r : option A => match r with Some a => anything a | None => True end) tame
    (bind (sleep 2000) (fun _ => ret None)).
Proof.
  eapply yields_bind; [apply yields_sleep|]. intros _ _. apply yields_ret. exact I.
Qed.

Lemma yields_pollStyleExtractStatus (requestId statusUrl : Value) :
  yields G anything tame (pollStyleExtractStatus requestId statusUrl).
Proof.
  unfold pollStyleExtractStatus. cbv zeta.
  apply yields_for_loop; [|apply yields_throw; right; reflexivity].
  intros i. eapply yields_catch with (P1 := tame).
  - unfold style_poll. eapply yields_bind; [apply yields_call|]. intros resp _.
    unfold style_settle. eapply yields_bind; [apply yields_read, ends_getProp|].
    intros status _.
    destruct (is_text status "COMPLETED"); [apply yields_settled, ends_styleResult|].
    destruct (is_text status "ERROR"); [apply yields_reported | apply yields_waited].
  - intros t _. destruct (i =? 30 - 1)%nat;
      [apply yields_throw; right; reflexivity | apply yields_ret; exact I].
Qed.

Lemma yields_pollImageGeneration (requestId statusUrl : Value) :
  yields G anything tame (pollImageGeneration requestId statusUrl).
Proof.
  unfold pollImageGeneration. cbv zeta.
  apply yields_for_loop; [|apply yields_throw; right; reflexivity].
  intros i. eapply yields_catch with (P1 := tame).
  - unfold image_poll. eapply yields_bind; [apply yields_call|]. intros resp _.
    unfold image_settle. eapply yields_bind; [apply yields_read, ends_getProp|].
    intros status _.
    destruct (is_text status "COMPLETED" || is_text status "completed");
      [apply yields_settled, ends_imageResult|].
    destruct (is_text status "ERROR" || is_text status "failed");
      [apply yields_reported | apply yields_waited].
  - intros t Ht. destruct (i =? 60 - 1)%nat; [apply yields_throw; right; reflexivity|].
    destruct (is_axios t && has_response_status t);
      [apply yields_throw; exact Ht | apply yields_ret; exact I].
Qed.

(** Both [catch] blocks of the client turn what is tame into what is quiet. *)
Lemma yields_client_catch {A} (N : A -> Prop) (t : Thrown) :
  tame t ->
  yields G N quiet (@extractStyle_catch A t) /\ yields G N quiet (@generateImage_catch A t).
Proof.
  intros Ht. unfold extractStyle_catch, generateImage_catch.
  destruct t as [e|v].
  - destruct (isAxiosError e) eqn:Eax.
    + destruct (network_code e); split; apply yields_throw; split; reflexivity.
    + assert (Hq : quiet (ThrowError e)).
      { split; [exact Eax|]. destruct Ht as [Ht|Ht]; [|exact Ht].
        cbn [is_axios] in Ht. congruence. }
      split; apply yields_throw; exact Hq.
  - split; apply yields_throw; split; reflexivity.
Qed.

Lemma yields_extractStyle_operation (images : list Buffer) :
  yields G anything quiet (extractStyle_operation images).
Proof.
  unfold extractStyle_operation. eapply yields_catch with (P1 := tame);
    [|intros t Ht; apply yields_client_catch; exact Ht].
  unfold extractStyle_try.
  eapply yields_bind with (N1 := anything).
  { apply yields_lift. destruct (encode_images_cases images 0) as [[k Hk]|[l [Hl _]]].
    - rewrite Hk. right. reflexivity.
    - rewrite Hl. exact I. }
  intros l _. destruct l as [|image [|second l]];
    try (apply yields_throw; right; reflexivity).
  eapply yields_bind; [apply yields_call|]. intros response _.
  eapply yields_bind; [apply yields_read, ends_getProp|]. intros request_id _.
  eapply yields_bind; [apply yields_read, ends_getProp|]. intros status_url _.
  destruct ((resp_status response =? 202)%Z && truthy status_url).
  - apply yields_pollStyleExtractStatus.
  - apply yields_read, ends_styleResult.
Qed.

Lemma yields_generateImage_operation (request : ImageGenerateRequest) :
  yields G anything quiet (generateImage_operation request).
Proof.
  unfold generateImage_operation. eapply yields_catch with (P1 := tame);
    [|intros t Ht; apply yields_client_catch; exact Ht].
  unfold generateImage_try. cbv zeta.
  eapply yields_bind with (N1 := anything).
  { destruct (truthy (in_prompt request) && negb (is_string (in_prompt request)));
      [apply yields_throw; right; reflexivity | apply yields_ret; exact I]. }
  intros _ _.
  eapply yields_bind; [apply yields_call|]. intros response _.
  eapply yields_bind; [apply yields_read, ends_getProp|]. intros _ _.
  eapply yields_bind; [apply yields_read, ends_getProp|]. intros request_id _.
  eapply yields_bind; [apply yields_read, ends_getProp|]. intros status_url _.
  destruct ((resp_status response =? 202)%Z && truthy status_url).
  - apply yields_pollImageGeneration.
  - apply yields_read, ends_imageResult.
Qed.

Lemma quiet_toError (t : Thrown) :
  quiet t -> isAxiosError (toError t) = false /\ response (toError t) = None.
Proof. destruct t as [e|v]; intros [H1 H2]; split; auto. Qed.

(** What [extractStyle] and [generateImage] raise is an [Error] that is no
    axios error and has no [response]. *)
Lemma yields_client (images : list Buffer) (request : ImageGenerateRequest) :
  yields G anything plain_error (extractStyle images)
  /\ yields G anything plain_error (generateImage request).
Proof.
  unfold extractStyle, generateImage. split.
  - apply (yields_retried G anything quiet
             (fun e => isAxiosError e = false /\ response e = None));
      [apply yields_extractStyle_operation | apply quiet_toError].
  - apply (yields_retried G anything quiet
             (fun e => isAxiosError e = false /\ response e = None));
      [apply yields_generateImage_operation | apply quiet_toError].
Qed.

End ClientOutcomes.

(** X11.  Against a service whose rejections are axios errors, what
    [extractStyle] and [generateImage] raise is never the axios error itself:
    it is an [Error] that is no axios error and carries no [response], so the
    HTTP status of the service stays behind in the message. *)
Theorem client_raises_plain_errors :
  forall (images : list BriaApi.Buffer) (request : BriaApi.ImageGenerateRequest)
         (w : World.World),
    Measures.axios_service (World.remote w) ->
    Measures.ends Measures.anything Measures.plain_error
      (fst (BriaApi.extractStyle images w))
    /\ Measures.ends Measures.anything Measures.plain_error
         (fst (BriaApi.generateImage request w)).
Proof.
  intros images request w Hw.
  destruct (yields_client Measures.axios_service (fun _ H => H) images request) as [He Hg].
  split; [apply (He w Hw) | apply (Hg w Hw)].
Qed.

Lemma answers_not_found_is_axios : Measures.axios_service Fixtures.answers_not_found.
Proof. intros k r e H. injection H as <-. reflexivity. Qed.

Lemma client_raises_plain_errors_witness :
  Measures.ends Measures.anything Measures.plain_error
    (fst (BriaApi.extractStyle ["image-one"] (World.start Fixtures.answers_not_found)))
  /\ Measures.ends Measures.anything Measures.plain_error
       (fst (BriaApi.generateImage
               {| BriaApi.in_structured_prompt := None;
                  BriaApi.in_prompt := Some (Js.JString "a red bicycle");
                  BriaApi.in_seed := None; BriaApi.in_sync := None |}
               (World.start Fixtures.answers_not_found))).
Proof.
  apply (client_raises_plain_errors ["image-one"]
           {| BriaApi.in_structured_prompt := None;
              BriaApi.in_prompt := Some (Js.JString "a red bicycle");
              BriaApi.in_seed := None; BriaApi.in_sync := None |}
           (World.start Fixtures.answers_not_found)).
  exact answers_not_found_is_axios.
Defined.

Section EndpointOutcomes.
Import Js World Measures.
Variable JSON_parse : string -> option JSON.
Variable env : Env.

Lemma ends_read (v : Value) (k : string) : ends anything no_response (getProp v k).
Proof.
  destruct v as [[]|]; cbn [getProp ends]; try exact I; reflexivity.
Qed.

Lemma plain_error_no_response (t : Thrown) : plain_error t -> no_response t.
Proof. intros [e [-> [_ H]]]. exact H. Qed.

Lemma yields_getBriaClient (G : (nat -> HttpRequest -> HttpReply) -> Prop) :
  yields G anything no_response (getBriaClient env).
Proof.
  unfold getBriaClient. destruct (BRIA_API_KEY env) as [key|];
    [|apply yields_throw; reflexivity].
  destruct (String.eqb key ""); [apply yields_throw; reflexivity | apply yields_ret; exact I].
Qed.

(** Without a [response] on what was caught, the handler answers 500 with
    empty details. *)
Lemma failure_is_plain (t : Thrown) :
  no_response t -> generation_reply_is_plain (GenerateImageRoute.failure t).
Proof.
  unfold no_response, GenerateImageRoute.failure, statusCode_of, details_of.
  intros ->. split; reflexivity.
Qed.

Lemma yields_generate_handler (body : JSON) :
  yields axios_service generation_reply_is_plain (fun _ => False)
    (GenerateImageRoute.handler JSON_parse env body).
Proof.
  unfold GenerateImageRoute.handler.
  eapply yields_catch with (P1 := no_response);
    [|intros t Ht; apply yields_ret, failure_is_plain, Ht].
  eapply yields_bind; [apply yields_lift, ends_read|]. intros sp _.
  eapply yields_bind; [apply yields_lift, ends_read|]. intros pr _.
  eapply yields_bind; [apply yields_lift, ends_read|]. intros sd _.
  eapply yields_bind; [apply yields_lift, ends_read|]. intros use _.
  destruct (negb (truthy sp) && negb (truthy pr)); [apply yields_ret; exact I|].
  destruct (truthy sp && negb (is_string sp)); [apply yields_ret; exact I|].
  destruct (GenerateImageRoute.prepare JSON_parse sp pr use) as [[fp fsp] dna].
  eapply yields_bind; [apply yields_getBriaClient|]. intros _ _.
  eapply yields_bind.
  - eapply yields_weaken; [intros a Ha; exact Ha | apply plain_error_no_response|].
    apply (yields_client axios_service (fun _ H => H) []).
  - intros result _. apply yields_ret. exact I.
Qed.

(** The name of the profile: only a custom name that is no string makes it
    throw. *)
Lemma profileName_throws (profile_name : Value)
      (structuredPrompts : list BriaApi.StyleExtractResponse) :
  ends anything no_response
    (StyleExtractRoute.profileName JSON_parse env profile_name structuredPrompts).
Proof.
  unfold StyleExtractRoute.profileName.
  destruct (generateProfileName_returns JSON_parse structuredPrompts
              ProfileName.default_maxLength) as [nm Hnm].
  rewrite Hnm. cbn [bindC].
  destruct (truthy profile_name).
  - destruct profile_name as [[]|]; try reflexivity.
    destruct (negb (String.eqb (trim s) "")); [exact I|].
    destruct (0 <? List.length structuredPrompts)%nat; exact I.
  - destruct (0 <? List.length structuredPrompts)%nat; exact I.
Qed.

Lemma extraction_handler_is_plain (files : option (list Multer.File))
      (profile_name : Value) (w : World) :
  exists reply,
    fst (StyleExtractRoute.handler JSON_parse env files profile_name w) = Normal reply
    /\ extraction_reply_is_plain reply.
Proof.
  unfold StyleExtractRoute.handler, catch.
  destruct files as [[|file files]|];
    try (eexists; split; [reflexivity | exact I]).
  set (fs := file :: files).
  destruct (List.length fs <? 1)%nat; [eexists; split; [reflexivity | exact I]|].
  destruct (20 <? List.length fs)%nat; [eexists; split; [reflexivity | exact I]|].
  destruct (StyleExtractRoute.validate fs 0) as [e|imageBuffers];
    [eexists; split; [reflexivity | exact I]|].
  unfold bind at 1, getBriaClient.
  destruct (BRIA_API_KEY env) as [key|];
    [|eexists; split; [reflexivity | split; reflexivity]].
  destruct (String.eqb key ""); [eexists; split; [reflexivity | split; reflexivity]|].
  cbn [ret]. unfold bind at 1.
  destruct (process_records JSON_parse imageBuffers 0 [] [] w)
    as [news [newe [w1 [Hrun _]]]].
  rewrite Hrun. cbn [app]. unfold bind at 1, lift.
  pose proof (profileName_throws profile_name news) as Hname.
  destruct (StyleExtractRoute.profileName JSON_parse env profile_name news)
    as [[nm readings]|t].
  - eexists. split; [reflexivity | exact I].
  - cbn [ret fst]. eexists. split; [reflexivity|].
    cbn [ends] in Hname. unfold no_response in Hname.
    unfold extraction_reply_is_plain, statusCode_of, details_of. rewrite Hname.
    split; reflexivity.
Qed.

End EndpointOutcomes.

(** X12.  Against a service whose rejections are axios errors, the
    generation endpoint always answers, and a failure it answers carries the
    status 500 and empty details: the status and the body of the service's
    own error response are not passed on, whatever they are. *)
Theorem generation_failures_are_500 :
  forall (JSON_parse : string -> option Js.JSON) (env : Env) (body : Js.JSON)
         (w : World.World),
    Measures.axios_service (World.remote w) ->
    exists reply,
      fst (GenerateImageRoute.handler JSON_parse env body w) = Js.Normal reply
      /\ Measures.generation_reply_is_plain reply.
Proof.
  intros JSON_parse env body w Hw.
  destruct (yields_generate_handler JSON_parse env body w Hw) as [_ He].
  destruct (fst (GenerateImageRoute.handler JSON_parse env body w)) as [reply|t];
    cbn [Measures.ends] in He; [|contradiction].
  exists reply. split; [reflexivity | exact He].
Qed.

Lemma generation_failures_are_500_witness :
  exists reply,
    fst (GenerateImageRoute.handler JsonText.decode Fixtures.env1 Fixtures.bicycle_no_style
           (World.start Fixtures.answers_not_found)) = Js.Normal reply
    /\ Measures.generation_reply_is_plain reply.
Proof.
  apply (generation_failures_are_500 JsonText.decode Fixtures.env1 Fixtures.bicycle_no_style
           (World.start Fixtures.answers_not_found)).
  exact answers_not_found_is_axios.
Defined.

(** The witness in full: the service answers 404, the endpoint 500. *)
Example not_found_is_answered_500 :
  GenerateImageRoute.status_of
    (match fst (GenerateImageRoute.handler JsonText.decode Fixtures.env1
                  Fixtures.bicycle_no_style (World.start Fixtures.answers_not_found)) with
     | Js.Normal reply => reply
     | Js.Throw _ => GenerateImageRoute.BadRequest "thrown"
     end) = 500%Z.
Proof. vm_compute. reflexivity. Qed.

(** X13.  Whatever the form holds and whatever the remote service does, the
    extraction endpoint always answers, and a failure it answers carries the
    status 500 and empty details: the errors of the client are recorded per
    image, so no status of the service ever becomes the status of the
    answer. *)
Theorem extraction_failures_are_500 :
  forall (JSON_parse : string -> option Js.JSON) (env : Env)
         (form : StyleExtractRoute.Upload) (profile_name : Js.Value) (w : World.World),
    exists reply,
      fst (StyleExtractRoute.route JSON_parse env form profile_name w) = Js.Normal reply
      /\ Measures.extraction_reply_is_plain reply.
Proof.
  intros JSON_parse env form profile_name w. unfold StyleExtractRoute.route.
  destruct form as [parts|]; [|apply extraction_handler_is_plain].
  destruct (StyleExtractRoute.upload env parts) as [err|files];
    [|apply extraction_handler_is_plain].
  destruct (handleMulterError_is_400 err) as [msg Hmsg].
  exists (StyleExtractRoute.BadRequest msg). cbn [World.ret fst]. rewrite Hmsg.
  split; [reflexivity | exact I].
Qed.

(* ================================================================== *)
(** ** The words of a profile name *)
(* ================================================================== *)

Section AttributeFacts.
Import Js Measures ProfileName.
Variable JSON_parse : string -> option JSON.

Lemma ends_any {A} (c : Completion A) : ends anything anything c.
Proof. destruct c; exact I. Qed.

Lemma ends_bind {A B} (N1 : A -> Prop) (N2 : B -> Prop) (P : Thrown -> Prop)
      (c : Completion A) (k : A -> Completion B) :
  ends N1 P c -> (forall a, N1 a -> ends N2 P (k a)) -> ends N2 P (bindC c k).
Proof. destruct c as [a|t]; cbn [bindC ends]; auto. Qed.

Lemma incl_check (l ws : list string) :
  forallb (fun w => existsb (String.eqb w) ws) l = true -> incl l ws.
Proof.
  intros H x Hx. rewrite forallb_forall in H. specialize (H x Hx).
  apply existsb_exists in H. destruct H as [y [Hy E]].
  apply String.eqb_eq in E. subst y. exact Hy.
Qed.

Lemma extractKeywords_within (b : bool) (text : Value) (keywords : list string) :
  ends (fun l => incl l keywords) anything
    (if b then extractKeywords text keywords else Normal []).
Proof.
  destruct b; [|apply incl_nil_l].
  destruct text as [[]|]; cbn [extractKeywords ends]; try exact I.
  unfold matching. apply incl_filter.
Qed.

Lemma extractColorDescriptors_within (colorData : Value) :
  incl (extractColorDescriptors colorData) color_descriptors.
Proof.
  unfold extractColorDescriptors.
  destruct colorData as [[| | | |items|]|]; try apply incl_nil_l.
  - eapply incl_tran; [apply incl_filter | apply incl_appl, incl_refl].
  - cbv zeta.
    repeat match goal with
           | |- context [if ?b then _ else _] => destruct b
           end; apply incl_check; reflexivity.
Qed.

(** The attributes of one prompt are drawn from the keyword lists, category
    by category. *)
Lemma extractStyleAttributes_within (structuredPrompt : JSON) :
  ends (each drawn_from) anything (extractStyleAttributes JSON_parse structuredPrompt).
Proof.
  assert (Htry : ends (each drawn_from) anything
                   (extractStyleAttributes_try JSON_parse structuredPrompt)).
  { unfold extractStyleAttributes_try.
    eapply ends_bind; [apply ends_any|]. intros parsed _. cbv zeta.
    eapply ends_bind; [apply ends_any|]. intros p_lighting _.
    eapply ends_bind; [apply extractKeywords_within|]. intros a_lighting Hlighting.
    eapply ends_bind; [apply ends_any|]. intros p_colors _.
    eapply ends_bind; [apply ends_any|]. intros p_color_palette _.
    eapply ends_bind; [apply ends_any|]. intros p_palette _.
    eapply ends_bind; [apply ends_any|]. intros p_mood _.
    eapply ends_bind; [apply ends_any|]. intros p_vibe _.
    eapply ends_bind; [apply extractKeywords_within|]. intros a_mood Hmood.
    eapply ends_bind; [apply ends_any|]. intros p_atmosphere _.
    eapply ends_bind; [apply extractKeywords_within|]. intros a_atmosphere Hatmosphere.
    eapply ends_bind; [apply ends_any|]. intros p_time_of_day _.
    eapply ends_bind; [apply ends_any|]. intros p_time _.
    eapply ends_bind; [apply extractKeywords_within|]. intros a_time Htime.
    eapply ends_bind; [apply ends_any|]. intros p_weather _.
    eapply ends_bind; [apply extractKeywords_within|]. intros a_weather Hweather.
    eapply ends_bind; [apply ends_any|]. intros p_environment _.
    eapply ends_bind; [apply ends_any|]. intros p_location _.
    eapply ends_bind; [apply ends_any|]. intros p_setting _.
    eapply ends_bind; [apply extractKeywords_within|]. intros a_location Hlocation.
    eapply ends_bind; [apply ends_any|]. intros p_technical _.
    eapply ends_bind; [apply ends_any|]. intros p_photography _.
    eapply ends_bind; [apply ends_any|]. intros p_camera _.
    eapply ends_bind; [apply extractKeywords_within|]. intros a_technical Htechnical.
    cbn [ends]. unfold each, drawn_from. cbn [lighting colors mood atmosphere time weather
                                              location technical values_of].
    repeat split; try assumption.
    destruct (truthy (or_else (or_else p_colors p_color_palette) p_palette));
      [apply extractColorDescriptors_within | apply incl_nil_l]. }
  unfold extractStyleAttributes, try_catch.
  destruct (extractStyleAttributes_try JSON_parse structuredPrompt) as [attrs|t];
    [exact Htry|].
  cbn [ends]. unfold each, drawn_from. cbn. repeat split; apply incl_nil_l.
Qed.

Lemma merge_key_kept (all attrs : option (list string)) (ws : list string) :
  kept all ws -> drawn_from attrs ws -> kept (merge_key all attrs) ws.
Proof.
  intros [l [-> Hl]] Hattrs. destruct attrs as [a|]; cbn [merge_key].
  - exists (l ++ a)%list. split; [reflexivity|]. apply incl_app; assumption.
  - exists l. split; [reflexivity | exact Hl].
Qed.

Lemma merge_kept (all attrs : StyleAttributes) :
  each kept all -> each drawn_from attrs -> each kept (merge all attrs).
Proof.
  unfold each. cbn [merge lighting colors mood atmosphere time weather location technical].
  intros [H1 [H2 [H3 [H4 [H5 [H6 [H7 H8]]]]]]] [A1 [A2 [A3 [A4 [A5 [A6 [A7 A8]]]]]]].
  repeat split; apply merge_key_kept; assumption.
Qed.

Lemma merge_prompts_kept (structuredPrompts : list BriaApi.StyleExtractResponse) :
  forall all, each kept all ->
    ends (each kept) (fun _ => False) (merge_prompts JSON_parse structuredPrompts all).
Proof.
  induction structuredPrompts as [|prompt rest IH]; intros all Hall; cbn [merge_prompts].
  - exact Hall.
  - pose proof (extractStyleAttributes_within (BriaApi.structured_prompt prompt)) as Hone.
    unfold extractStyleAttributes, try_catch in *.
    destruct (extractStyleAttributes_try JSON_parse (BriaApi.structured_prompt prompt))
      as [attrs|t]; cbn [bindC ends] in *; apply IH, merge_kept; assumption.
Qed.

Lemma dedupe_incl (values : list string) : incl (dedupe values) values.
Proof.
  induction values as [|v rest IH]; cbn [dedupe]; [apply incl_refl|].
  intros x [<-|Hx]; [left; reflexivity|]. right. apply IH.
  apply filter_In in Hx. exact (proj1 Hx).
Qed.

Lemma dedupe_NoDup (values : list string) : NoDup (dedupe values).
Proof.
  induction values as [|v rest IH]; cbn [dedupe]; constructor.
  - intros Hin. apply filter_In in Hin. destruct Hin as [_ Hne].
    rewrite String.eqb_refl in Hne. discriminate.
  - apply NoDup_filter. exact IH.
Qed.

Lemma dedupe_distinct (category : option (list string)) (ws : list string) :
  kept category ws -> distinct_from (option_map dedupe category) ws.
Proof.
  intros [l [-> Hl]]. exists (dedupe l). split; [reflexivity|].
  split; [apply dedupe_NoDup|]. eapply incl_tran; [apply dedupe_incl | exact Hl].
Qed.

Lemma aggregateAttributes_distinct (structuredPrompts : list BriaApi.StyleExtractResponse) :
  exists attributes,
    aggregateAttributes JSON_parse structuredPrompts = Normal attributes
    /\ each distinct_from attributes.
Proof.
  unfold aggregateAttributes.
  assert (Hstart : each kept empty_attributes).
  { unfold each. cbn. repeat split; (eexists; split; [reflexivity | apply incl_nil_l]). }
  pose proof (merge_prompts_kept structuredPrompts empty_attributes Hstart) as Hall.
  destruct (merge_prompts JSON_parse structuredPrompts empty_attributes) as [all|t];
    cbn [ends bindC] in *; [|contradiction].
  eexists. split; [reflexivity|].
  unfold each in *. cbn [dedupe_all lighting colors mood atmosphere time weather location
                           technical].
  destruct Hall as [H1 [H2 [H3 [H4 [H5 [H6 [H7 H8]]]]]]].
  repeat split; apply dedupe_distinct; assumption.
Qed.

End AttributeFacts.

(** X14.  Whatever the structured prompts hold, [aggregateAttributes]
    returns; every category of the result is there, its values are distinct,
    and they are words of the keyword list of that category (for the colours:
    of the colour keywords or one of balanced, blue, golden). *)
Theorem aggregated_attributes_are_keywords :
  forall (JSON_parse : string -> option Js.JSON)
         (structuredPrompts : list BriaApi.StyleExtractResponse),
  exists attributes,
    ProfileName.aggregateAttributes JSON_parse structuredPrompts = Js.Normal attributes
    /\ Measures.each Measures.distinct_from attributes.
Proof. intros JSON_parse structuredPrompts. apply aggregateAttributes_distinct. Qed.

Section TopAttributeFacts.
Import Js Measures ProfileName.

Lemma count_in_keys (frequency : list (string * nat)) (val : string) :
  forall k, In k (map fst (count_in frequency val)) <-> k = val \/ In k (map fst frequency).
Proof.
  induction frequency as [|[k0 n0] rest IH]; intros k; cbn [count_in map fst In].
  - split; [intros [H|[]]; left; auto | intros [H|[]]; left; auto].
  - destruct (String.eqb k0 val) eqn:E; cbn [map fst In].
    + apply String.eqb_eq in E. subst k0. intuition congruence.
    + rewrite IH. intuition congruence.
Qed.

Lemma count_in_NoDup (frequency : list (string * nat)) (val : string) :
  NoDup (map fst frequency) -> NoDup (map fst (count_in frequency val)).
Proof.
  induction frequency as [|[k0 n0] rest IH]; cbn [count_in map fst]; intros Hnd.
  - constructor; [intros [] | constructor].
  - inversion Hnd as [|? ? Hnotin Hrest]; subst.
    destruct (String.eqb k0 val) eqn:E; cbn [map fst].
    + constructor; assumption.
    + constructor; [|apply IH; exact Hrest].
      rewrite count_in_keys. intros [->|Hin]; [|contradiction].
      rewrite String.eqb_refl in E. discriminate.
Qed.

Lemma count_in_count (frequency : list (string * nat)) (val k : string) :
  count_of (count_in frequency val) k
  = (count_of frequency k + if string_dec val k then 1 else 0)%nat.
Proof.
  unfold count_of.
  induction frequency as [|[k0 n0] rest IH]; cbn [count_in find fst snd].
  - destruct (string_dec val k) as [->|Hne].
    + rewrite String.eqb_refl. reflexivity.
    + apply String.eqb_neq in Hne. rewrite Hne. reflexivity.
  - destruct (String.eqb k0 val) eqn:E; cbn [find fst snd].
    + apply String.eqb_eq in E. subst k0.
      destruct (String.eqb val k) eqn:Ek.
      * apply String.eqb_eq in Ek. subst k.
        destruct (string_dec val val); [cbn [fst snd]; lia | congruence].
      * destruct (string_dec val k) as [->|_]; [rewrite String.eqb_refl in Ek; discriminate|].
        cbn [fst snd]. lia.
    + destruct (String.eqb k0 k) eqn:Ek; [|exact IH].
      apply String.eqb_eq in Ek. subst k0.
      destruct (string_dec val k) as [->|_]; [rewrite String.eqb_refl in E; discriminate|].
      cbn [fst snd]. lia.
Qed.

(** The map of frequencies after the values were counted. *)
Lemma frequency_counts (values : list string) :
  forall frequency,
    NoDup (map fst frequency) ->
    NoDup (map fst (fold_left count_in values frequency))
    /\ (forall k, In k (map fst (fold_left count_in values frequency))
                  <-> In k values \/ In k (map fst frequency))
    /\ (forall k, count_of (fold_left count_in values frequency) k
                  = (count_of frequency k + count_occ string_dec values k)%nat).
Proof.
  induction values as [|v rest IH]; intros frequency Hnd; cbn [fold_left].
  - split; [exact Hnd|]. split; [intros k; cbn [In]; tauto|].
    intros k. cbn [count_occ]. lia.
  - destruct (IH (count_in frequency v) (count_in_NoDup _ _ Hnd)) as [H1 [H2 H3]].
    split; [exact H1|]. split.
    + intros k. rewrite H2, count_in_keys. cbn [In]. split; intros H; intuition auto.
    + intros k. rewrite H3, count_in_count. cbn [count_occ].
      destruct (string_dec v k); lia.
Qed.

Lemma insert_entry_perm (e : string * nat) (sorted : list (string * nat)) :
  Permutation (insert_entry e sorted) (e :: sorted).
Proof.
  induction sorted as [|x rest IH]; cbn [insert_entry]; [apply Permutation_refl|].
  destruct (snd x <=? snd e)%nat; [apply Permutation_refl|].
  eapply Permutation_trans; [apply perm_skip, IH | apply perm_swap].
Qed.

Lemma sort_entries_perm (entries : list (string * nat)) :
  Permutation (sort_entries entries) entries.
Proof.
  induction entries as [|e rest IH]; cbn [sort_entries]; [constructor|].
  eapply Permutation_trans; [apply insert_entry_perm | apply perm_skip, IH].
Qed.

Lemma insert_entry_sorted (e : string * nat) (sorted : list (string * nat)) :
  StronglySorted falling sorted -> StronglySorted falling (insert_entry e sorted).
Proof.
  induction sorted as [|x rest IH]; cbn [insert_entry]; intros Hs.
  - constructor; [constructor | constructor].
  - inversion Hs as [|? ? Hrest Hall]; subst.
    destruct (snd x <=? snd e)%nat eqn:E.
    + apply Nat.leb_le in E. constructor; [exact Hs|].
      constructor; [exact E|]. eapply Forall_impl; [|exact Hall].
      intros y Hy. unfold falling in *. lia.
    + apply Nat.leb_gt in E. constructor; [apply IH; exact Hrest|].
      eapply Permutation_Forall; [apply Permutation_sym, insert_entry_perm|].
      constructor; [unfold falling; lia | exact Hall].
Qed.

Lemma sort_entries_sorted (entries : list (string * nat)) :
  StronglySorted falling (sort_entries entries).
Proof.
  induction entries as [|e rest IH]; cbn [sort_entries]; [constructor|].
  apply insert_entry_sorted, IH.
Qed.

Lemma firstn_sorted {X} (R : X -> X -> Prop) (n : nat) (l : list X) :
  StronglySorted R l -> StronglySorted R (firstn n l).
Proof.
  revert n. induction l as [|x rest IH]; intros n Hs; destruct n; cbn [firstn];
    try constructor.
  - inversion Hs; subst. apply IH. assumption.
  - inversion Hs as [|? ? _ Hall]; subst.
    rewrite <- (firstn_skipn n rest) in Hall. apply Forall_app in Hall. exact (proj1 Hall).
Qed.

Lemma firstn_incl {X} (n : nat) (l : list X) : incl (firstn n l) l.
Proof.
  intros x Hx. rewrite <- (firstn_skipn n l). apply in_or_app. left. exact Hx.
Qed.

Lemma firstn_NoDup_map {X Y} (f : X -> Y) (n : nat) (l : list X) :
  NoDup (map f l) -> NoDup (map f (firstn n l)).
Proof.
  intros Hnd. rewrite <- (firstn_skipn n l), map_app in Hnd.
  exact (NoDup_app_remove_r _ _ Hnd).
Qed.

Lemma count_of_entry (frequency : list (string * nat)) (e : string * nat) :
  NoDup (map fst frequency) -> In e frequency -> count_of frequency (fst e) = snd e.
Proof.
  unfold count_of. induction frequency as [|x rest IH]; intros Hnd Hin; [contradiction|].
  inversion Hnd as [|? ? Hnotin Hrest]; subst. cbn [find].
  destruct Hin as [->|Hin].
  - rewrite String.eqb_refl. reflexivity.
  - destruct (String.eqb (fst x) (fst e)) eqn:E; [|apply IH; assumption].
    apply String.eqb_eq in E. exfalso. apply Hnotin. rewrite E.
    apply in_map. exact Hin.
Qed.

Lemma sorted_map {X Y} (R : X -> X -> Prop) (S : Y -> Y -> Prop) (f : X -> Y)
      (l : list X) :
  (forall a b, In a l -> In b l -> R a b -> S (f a) (f b)) ->
  StronglySorted R l -> StronglySorted S (map f l).
Proof.
  induction l as [|x rest IH]; intros Hf Hs; cbn [map]; [constructor|].
  inversion Hs as [|? ? Hrest Hall]; subst. constructor.
  - apply IH; [|exact Hrest]. intros a b Ha Hb. apply Hf; right; assumption.
  - apply Forall_forall. intros y Hy. apply in_map_iff in Hy.
    destruct Hy as [b [<- Hb]]. rewrite Forall_forall in Hall.
    apply Hf; [left; reflexivity | right; exact Hb | apply Hall; exact Hb].
Qed.

(** What [getTopAttributes] returns. *)
Lemma getTopAttributes_sound (attributes : StyleAttributes) (limit : nat) :
  (List.length (getTopAttributes attributes limit) <= limit)%nat
  /\ NoDup (getTopAttributes attributes limit)
  /\ incl (getTopAttributes attributes limit) (allValues attributes)
  /\ StronglySorted
       (fun v w => (frequency_of attributes w <= frequency_of attributes v)%nat)
       (getTopAttributes attributes limit)
  /\ ((List.length (getTopAttributes attributes limit) < limit)%nat ->
      incl (allValues attributes) (getTopAttributes attributes limit)).
Proof.
  unfold getTopAttributes. fold (allValues attributes). cbv zeta.
  set (frequency := fold_left count_in (allValues attributes) []).
  destruct (frequency_counts (allValues attributes) [] (NoDup_nil _)) as [Hnd [Hkeys Hcount]].
  fold frequency in Hnd, Hkeys, Hcount.
  assert (Hperm : Permutation (sort_entries frequency) frequency)
    by apply sort_entries_perm.
  assert (Hnd' : NoDup (map fst (sort_entries frequency))).
  { eapply Permutation_NoDup; [apply Permutation_map, Permutation_sym, Hperm | exact Hnd]. }
  assert (Hin : forall e, In e (firstn limit (sort_entries frequency)) -> In e frequency).
  { intros e He. eapply Permutation_in; [exact Hperm|]. apply (firstn_incl limit), He. }
  split; [rewrite length_map, length_firstn; lia|].
  split; [apply firstn_NoDup_map, Hnd'|].
  split.
  { intros v Hv. apply in_map_iff in Hv. destruct Hv as [e [<- He]].
    assert (Hk : In (fst e) (map fst frequency)) by (apply in_map, Hin, He).
    apply Hkeys in Hk. destruct Hk as [Hk|[]]. exact Hk. }
  split.
  { apply (sorted_map falling); [|apply firstn_sorted, sort_entries_sorted].
    intros a b Ha Hb Hab. unfold frequency_of.
    pose proof (Hcount (fst a)) as Ca. pose proof (Hcount (fst b)) as Cb.
    rewrite (count_of_entry frequency a Hnd (Hin a Ha)) in Ca.
    rewrite (count_of_entry frequency b Hnd (Hin b Hb)) in Cb.
    unfold count_of in Ca, Cb. cbn [find] in Ca, Cb. unfold falling in Hab. lia. }
  rewrite length_map, length_firstn. intros Hlt v Hv.
  assert (Hall : firstn limit (sort_entries frequency) = sort_entries frequency).
  { apply firstn_all2. lia. }
  rewrite Hall.
  assert (Hk : In v (map fst frequency)) by (apply Hkeys; left; exact Hv).
  eapply Permutation_in; [apply Permutation_map, Permutation_sym, Hperm | exact Hk].
Qed.

End TopAttributeFacts.

(** X15.  [getTopAttributes] returns at most [limit] values, all distinct,
    each a value of some category of the attributes, in the order of falling
    frequency; when it returns fewer than [limit], it returns every value. *)
Theorem top_attributes_are_the_most_frequent :
  forall (attributes : ProfileName.StyleAttributes) (limit : nat),
    (List.length (ProfileName.getTopAttributes attributes limit) <= limit)%nat
    /\ NoDup (ProfileName.getTopAttributes attributes limit)
    /\ incl (ProfileName.getTopAttributes attributes limit) (Measures.allValues attributes)
    /\ StronglySorted
         (fun v w => (Measures.frequency_of attributes w
                      <= Measures.frequency_of attributes v)%nat)
         (ProfileName.getTopAttributes attributes limit)
    /\ ((List.length (ProfileName.getTopAttributes attributes limit) < limit)%nat ->
        incl (Measures.allValues attributes)
          (ProfileName.getTopAttributes attributes limit)).
Proof. intros attributes limit. apply getTopAttributes_sound. Qed.

Section NameLength.
Import Js Measures ProfileName.

Lemma length_append (a b : string) :
  String.length (a ++ b) = (String.length a + String.length b)%nat.
Proof. induction a as [|c a IH]; simpl; [reflexivity | rewrite IH; reflexivity]. Qed.

(** Splitting at [c] what was joined with [c] splits every part. *)
Lemma split_concat (c : ascii) (w s : string) :
  split c (w ++ String c s) = (split c w ++ split c s)%list.
Proof.
  induction w as [|a r IH]; cbn [append split].
  - rewrite Ascii.eqb_refl. reflexivity.
  - destruct (Ascii.eqb a c); [rewrite IH; reflexivity|].
    rewrite IH. pose proof (split_nonempty c r) as Hne.
    destruct (split c r) as [|w0 ws]; [congruence | reflexivity].
Qed.

Lemma split_of_join (c : ascii) (ws : list string) :
  ws <> [] -> split c (join (String c "") ws) = flat_map (split c) ws.
Proof.
  induction ws as [|w rest IH]; [congruence|]. intros _.
  destruct rest as [|w2 rest'].
  - cbn [join flat_map]. rewrite app_nil_r. reflexivity.
  - change (join (String c "") (w :: w2 :: rest'))
      with (w ++ String c (join (String c "") (w2 :: rest'))).
    rewrite split_concat, IH by discriminate. reflexivity.
Qed.

(** No piece of a string is longer than the string. *)
Lemma split_pieces (c : ascii) (s : string) :
  Forall (fun piece => (String.length piece <= String.length s)%nat) (split c s).
Proof.
  induction s as [|a r IH]; cbn [split].
  - constructor; [simpl; lia | constructor].
  - destruct (Ascii.eqb a c).
    + constructor; [simpl; lia|]. eapply Forall_impl; [|exact IH].
      intros piece Hp. simpl in *. lia.
    + destruct (split c r) as [|w ws]; [constructor; [simpl; lia | constructor]|].
      inversion IH as [|? ? Hw Hws]; subst. constructor; [simpl; lia|].
      eapply Forall_impl; [|exact Hws]. intros piece Hp. simpl in *. lia.
Qed.

Lemma tokens_short (ws : list string) :
  ws <> [] -> Forall short ws -> Forall short (split space (join " " ws)).
Proof.
  intros Hne Hws. change " " with (String space ""). rewrite split_of_join by exact Hne.
  apply Forall_forall. intros piece Hp. apply in_flat_map in Hp.
  destruct Hp as [w [Hw Hpiece]]. rewrite Forall_forall in Hws.
  pose proof (split_pieces space w) as Hall. rewrite Forall_forall in Hall.
  specialize (Hall piece Hpiece). specialize (Hws w Hw). unfold short in *. lia.
Qed.

Lemma capitalize_length (word : string) :
  String.length (capitalize word) = String.length word.
Proof. destruct word; reflexivity. Qed.

(** The words of a capitalized name are short when the attributes are. *)
Lemma capitalized_tokens_short (top : list string) :
  top <> [] -> Forall short top ->
  Forall short (split space (capitalizeWords (join " " top))).
Proof.
  intros Hne Htop. unfold capitalizeWords. apply tokens_short.
  - pose proof (split_nonempty space (join " " top)) as Hs.
    destruct (split space (join " " top)); [congruence | discriminate].
  - apply Forall_forall. intros w Hw. apply in_map_iff in Hw.
    destruct Hw as [w0 [<- Hw0]]. unfold short. rewrite capitalize_length.
    pose proof (tokens_short top Hne Htop) as Hall. rewrite Forall_forall in Hall.
    exact (Hall w0 Hw0).
Qed.

Lemma two_short_words (ws : list string) :
  (List.length ws <= 2)%nat -> Forall short ws ->
  (String.length (join " " ws) <= 27)%nat.
Proof.
  intros Hlen Hws. destruct ws as [|a [|b [|c rest]]]; cbn [List.length] in Hlen; try lia.
  - simpl. lia.
  - inversion Hws; subst. unfold short in *. cbn [join]. lia.
  - inversion Hws as [|? ? Ha Hrest]; subst. inversion Hrest as [|? ? Hb _]; subst.
    unfold short in *. cbn [join]. rewrite !length_append. simpl. lia.
Qed.

Lemma keywords_short :
  Forall short lighting_words /\ Forall short color_descriptors /\ Forall short mood_words
  /\ Forall short atmosphere_words /\ Forall short time_words /\ Forall short weather_words
  /\ Forall short location_words /\ Forall short technical_words.
Proof.
  unfold short. repeat split; repeat (constructor; [simpl; lia|]); constructor.
Qed.

Lemma distinct_short (category : option (list string)) (ws : list string) :
  Forall short ws -> distinct_from category ws -> Forall short (values_of category).
Proof.
  intros Hws [l [-> [_ Hl]]]. cbn [values_of]. rewrite Forall_forall in *.
  intros w Hw. apply Hws, Hl, Hw.
Qed.

Lemma allValues_short (attributes : StyleAttributes) :
  each distinct_from attributes -> Forall short (allValues attributes).
Proof.
  intros [H1 [H2 [H3 [H4 [H5 [H6 [H7 H8]]]]]]].
  destruct keywords_short as [K1 [K2 [K3 [K4 [K5 [K6 [K7 K8]]]]]]].
  unfold allValues. repeat (apply Forall_app; split);
    (eapply distinct_short; [|eassumption]; assumption).
Qed.

End NameLength.

(** X16.  With a length limit of 27 or more, the default 40 among them, the
    name [generateProfileName] returns is never longer than the limit: no
    keyword has a word of more than 13 letters, and the trimming leaves two
    words at most when the name does not fit. *)
Theorem profile_name_fits_from_27 :
  forall (JSON_parse : string -> option Js.JSON)
         (structuredPrompts : list BriaApi.StyleExtractResponse) (maxLength : Z),
    (27 <= maxLength)%Z ->
    exists name,
      ProfileName.generateProfileName JSON_parse structuredPrompts maxLength = Js.Normal name
      /\ (Z.of_nat (String.length name) <= maxLength)%Z.
Proof.
  intros JSON_parse structuredPrompts maxLength Hmax.
  destruct structuredPrompts as [|prompt rest].
  { exists "Untitled Style". split; [reflexivity | simpl; lia]. }
  unfold ProfileName.generateProfileName, Js.try_catch,
    ProfileName.generateProfileName_try.
  destruct (aggregateAttributes_distinct JSON_parse (prompt :: rest))
    as [attributes [Hagg Hdistinct]].
  rewrite Hagg. cbn [Js.bindC]. cbv zeta.
  destruct (getTopAttributes_sound attributes 4) as [_ [_ [Hincl _]]].
  set (top := ProfileName.getTopAttributes attributes 4) in *.
  destruct (List.length top =? 0)%nat eqn:Etop.
  { exists "Custom Style Profile". split; [reflexivity | simpl; lia]. }
  assert (Hne : top <> []).
  { intros Hnil. rewrite Hnil in Etop. discriminate. }
  assert (Hshort : Forall Measures.short top).
  { pose proof (allValues_short attributes Hdistinct) as Hall.
    rewrite Forall_forall in *. intros w Hw. apply Hall, Hincl, Hw. }
  pose proof (capitalized_tokens_short top Hne Hshort) as Htokens.
  set (name := ProfileName.capitalizeWords (Js.join " " top)) in *.
  eexists. split; [reflexivity|].
  match goal with
  | |- context [if (?n =? "")%string then _ else _] => destruct (n =? "")%string
  end; [simpl; lia|].
  destruct (maxLength <? Z.of_nat (String.length name))%Z eqn:Elong;
    [|apply Z.ltb_ge in Elong; exact Elong].
  destruct (drop_words_stops maxLength (List.length (Js.split ProfileName.space name))
              (Js.split ProfileName.space name) (le_n _)) as [Htwo|Hfit]; [|exact Hfit].
  pose proof (two_short_words _ Htwo
                (drop_words_Forall Measures.short maxLength _ _ Htokens)) as Hlen.
  lia.
Qed.

Lemma profile_name_fits_from_27_witness :
  exists name,
    ProfileName.generateProfileName JsonText.decode
      [Fixtures.prompt_of (Fixtures.json "{'location': 'architectural'}")]
      ProfileName.default_maxLength = Js.Normal name
    /\ (Z.of_nat (String.length name) <= ProfileName.default_maxLength)%Z.
Proof.
  apply (profile_name_fits_from_27 JsonText.decode
           [Fixtures.prompt_of (Fixtures.json "{'location': 'architectural'}")]
           ProfileName.default_maxLength).
  unfold ProfileName.default_maxLength. lia.
Defined.

(* ================================================================== *)
(** ** The style-only structured prompt *)
(* ================================================================== *)

Section StyleOnlyFacts.
Import Js Measures StyleOnly.

Lemma set_prop_Forall (P : string * JSON -> Prop) (obj : list (string * JSON))
      (k : string) (v : JSON) :
  Forall P obj -> P (k, v) -> Forall P (set_prop obj k v).
Proof.
  intros Hobj Hkv. induction obj as [|[k0 v0] rest IH]; cbn [set_prop].
  - constructor; [exact Hkv | constructor].
  - inversion Hobj as [|? ? H0 Hrest]; subst.
    destruct (String.eqb k0 k) eqn:E.
    + apply String.eqb_eq in E. subst k0. constructor; assumption.
    + constructor; [exact H0 | apply IH; exact Hrest].
Qed.

Lemma fold_Forall {X} (P : string * JSON -> Prop)
      (step : list (string * JSON) -> X -> list (string * JSON)) (l : list X) :
  (forall obj x, Forall P obj -> Forall P (step obj x)) ->
  forall obj, Forall P obj -> Forall P (fold_left step l obj).
Proof.
  intros Hstep. induction l as [|x rest IH]; intros obj Hobj; cbn [fold_left];
    [exact Hobj | apply IH, Hstep, Hobj].
Qed.

Lemma startsWith_refl (s : string) : startsWith s s = true.
Proof.
  induction s as [|c r IH]; cbn [startsWith]; [reflexivity|].
  rewrite Ascii.eqb_refl. exact IH.
Qed.

Lemma includes_refl (s : string) : includes s s = true.
Proof. destruct s; cbn [includes]; rewrite startsWith_refl; reflexivity. Qed.

Lemma isStyleField_whitelisted (key : string) :
  isStyleField (toLowerCase key) = true -> whitelisted key.
Proof.
  unfold isStyleField. intros H. apply existsb_exists in H.
  destruct H as [allowed [Hin Hmatch]]. exists allowed. split; [exact Hin|].
  apply orb_true_iff in Hmatch. destruct Hmatch as [E|E]; [|exact E].
  apply String.eqb_eq in E. rewrite E. apply includes_refl.
Qed.

Lemma cleanAesthetics_clean (value : JSON) :
  Forall (fun entry => includes (toLowerCase (fst entry)) "composition" = false)
    (cleanAesthetics value).
Proof.
  unfold cleanAesthetics. apply fold_Forall; [|constructor].
  intros obj [subKey subValue] Hobj.
  destruct (includes (toLowerCase subKey) "composition") eqn:E; cbn [negb]; [exact Hobj|].
  apply set_prop_Forall; [exact Hobj | exact E].
Qed.

Lemma copy_entry_style_only (obj : list (string * JSON)) (entry : string * JSON) :
  Forall style_only obj -> Forall style_only (copy_entry obj entry).
Proof.
  intros Hobj. destruct entry as [key value]. unfold copy_entry. cbv zeta.
  destruct (isStyleField (toLowerCase key)) eqn:Efield; cbn [andb]; [|exact Hobj].
  destruct (truthy (Some value)) eqn:Etruthy; [|exact Hobj].
  apply isStyleField_whitelisted in Efield.
  destruct (String.eqb key "aesthetics") eqn:Ekey; cbn [andb].
  - destruct (typeof (Some value)) eqn:Etype;
      try (apply set_prop_Forall; [exact Hobj|];
           split; [exact Efield|]; split; [exact Etruthy|];
           intros _ props Hv; cbn in Hv; subst value; cbn in Etype; discriminate Etype).
    destruct (0 <? List.length (cleanAesthetics value))%nat; [|exact Hobj].
    apply set_prop_Forall; [exact Hobj|].
    split; [exact Efield|]. split; [reflexivity|].
    intros _ props Hprops. cbn in Hprops. injection Hprops as <-.
    apply cleanAesthetics_clean.
  - apply set_prop_Forall; [exact Hobj|].
    split; [exact Efield|]. split; [exact Etruthy|].
    cbn [fst]. intros Hkey. rewrite Hkey in Ekey. discriminate.
Qed.

Lemma fall_back_style_only (obj : list (string * JSON)) (k : string) (v : Value) :
  In k styleFieldsWhitelist -> toLowerCase k = k -> k <> "aesthetics" ->
  Forall style_only obj -> Forall style_only (fall_back obj k v).
Proof.
  intros Hin Hlow Hne Hobj. unfold fall_back. destruct v as [x|]; [|exact Hobj].
  destruct (truthy (Some x)) eqn:E; [|exact Hobj].
  apply set_prop_Forall; [exact Hobj|].
  split; [exists k; split; [exact Hin | cbn [fst]; rewrite Hlow; apply includes_refl]|].
  split; [exact E | intros Hk; contradiction].
Qed.

End StyleOnlyFacts.

(** X17.  Whatever the style DNA holds, every property of the object
    [createStyleOnlyStructuredPrompt] serializes has a name that, in lower
    case, includes a whitelisted name, and a truthy value; and an object
    under [aesthetics] has no sub-field whose name includes [composition]. *)
Theorem style_only_prompt_is_whitelisted :
  forall (styleDNA : StyleDna.StyleDNA),
    StyleOnly.createStyleOnlyStructuredPrompt styleDNA
    = Js.stringify (Js.JObject (StyleOnly.styleObj styleDNA))
    /\ Forall Measures.style_only (StyleOnly.styleObj styleDNA).
Proof.
  intros styleDNA. split; [reflexivity|]. unfold StyleOnly.styleObj. cbv zeta.
  assert (Hcopied : Forall Measures.style_only
                      (fold_left StyleOnly.copy_entry
                         (StyleOnly.entries
                            (Js.or_default (StyleDna.original styleDNA) (Js.JObject [])))
                         [])).
  { apply fold_Forall; [|constructor]. intros obj x. apply copy_entry_style_only. }
  destruct (List.length _ =? 0)%nat; [|exact Hcopied].
  repeat (apply fall_back_style_only;
          [cbn; tauto | reflexivity | discriminate |]).
  exact Hcopied.
Qed.

Example style_only_prompt_example :
  option_map
    (fun parsed => StyleOnly.createStyleOnlyStructuredPrompt (StyleDna.only_original parsed))
    (JsonText.decode
       (Fixtures.json
          "{'objects': ['bike'], 'Lighting': 'warm', 'aesthetics': {'composition': 'centered', 'mood': 'calm'}}"))
  = Some (Fixtures.json "{'Lighting':'warm','aesthetics':{'mood':'calm'}}").
Proof. vm_compute. reflexivity. Qed.

(* ================================================================== *)
(** ** Previews and batches *)
(* ================================================================== *)

Section FiboFacts.
Import Js World Notions Measures BriaApi Fibo.

Lemma or_default_truthy (a : Value) (d : JSON) :
  truthy (Some d) = true -> truthy (Some (or_default a d)) = true.
Proof.
  intros Hd. unfold or_default. destruct a as [j|]; [|exact Hd].
  destruct (truthy (Some j)) eqn:E; [exact E | exact Hd].
Qed.

Lemma own_after_field (k k' : string) (v : Value) (rest : list (string * JSON)) :
  String.eqb k' k = false -> own k (field k' v ++ rest) = own k rest.
Proof. intros E. destruct v as [x|]; cbn [field app own]; [rewrite E|]; reflexivity. Qed.

(** With a preset that is an object or a primitive, the payload is built and
    complete. *)
Lemma mapPresetToFIBO_complete (j : JSON) (prompt negativePrompt : Value) :
  j <> JNull ->
  exists payload,
    mapPresetToFIBO (Some j) prompt negativePrompt = Normal payload
    /\ complete_payload payload.
Proof.
  intros Hj.
  assert (Hget : forall k, getProp (Some j) k = Normal (prop j k)).
  { intros k. destruct j; try reflexivity. congruence. }
  unfold mapPresetToFIBO, or_lazy. rewrite !Hget.
  destruct (truthy prompt); destruct (truthy negativePrompt); cbn [bindC];
    (eexists; split; [reflexivity|]);
    unfold complete_payload; cbn [prop];
    rewrite !own_after_field by reflexivity; cbn [own String.eqb Ascii.eqb Bool.eqb andb];
    (split; [eexists; reflexivity|]);
    repeat split;
    cbn [getOpt prop own app field String.eqb Ascii.eqb Bool.eqb andb];
    rewrite ?own_after_field by reflexivity;
    cbn [own String.eqb Ascii.eqb Bool.eqb andb];
    apply or_default_truthy; reflexivity.
Qed.

Lemma mapPresetToFIBO_throws (preset prompt negativePrompt : Value) :
  preset = None \/ preset = Some JNull ->
  exists t, mapPresetToFIBO preset prompt negativePrompt = Throw t.
Proof.
  intros [-> | ->]; unfold mapPresetToFIBO, or_lazy; cbn [getProp];
    destruct (truthy prompt); destruct (truthy negativePrompt); cbn [bindC];
    eexists; reflexivity.
Qed.

Lemma map_items_length (items : list PreviewRequest) :
  forall payloads, map_items items = Normal payloads ->
    List.length payloads = List.length items.
Proof.
  induction items as [|item rest IH]; intros payloads; cbn [map_items].
  - intros H. injection H as <-. reflexivity.
  - destruct (mapPresetToFIBO (preset item) (prompt item) (negativePrompt item));
      cbn [bindC]; [|discriminate].
    destruct (map_items rest) as [more|t]; cbn [bindC]; [|discriminate].
    intros H. injection H as <-. cbn [List.length]. rewrite (IH more eq_refl). reflexivity.
Qed.

Lemma emits_fibo_catch {A} (Q : Event -> Prop) (error : Thrown) :
  emits Q (@fibo_catch A error).
Proof.
  unfold fibo_catch. destruct error as [e|v]; [|apply emits_throw].
  destruct (isAxiosError e); [apply emits_throwError | apply emits_throw].
Qed.

Lemma costs_fibo_catch {A} (weight : Event -> nat) (error : Thrown) :
  costs weight 0 (@fibo_catch A error).
Proof.
  unfold fibo_catch. destruct error as [e|v]; [|apply costs_throw].
  destruct (isAxiosError e); apply costs_throw.
Qed.

Lemma emits_pollPreviewStatus (Q : Event -> Prop) (requestId : Value) :
  (forall ms, Q (Slept ms)) ->
  (forall url, Q (Called {| req_method := GET; req_url := url; req_body := None |})) ->
  emits Q (pollPreviewStatus requestId).
Proof.
  intros Hwait Hget. unfold pollPreviewStatus.
  apply emits_for_loop; [|apply emits_throwError].
  intros i. apply emits_catch.
  - apply emits_bind; [apply emits_request, Hget|].
    intros resp. apply emits_preview_settle; assumption.
  - intros t. destruct (i =? 30 - 1)%nat; [apply emits_throwError | apply emits_ret].
Qed.

Lemma emits_preview (request : PreviewRequest) :
  emits (preview_event request) (preview request).
Proof.
  unfold preview. apply emits_retried; [intros ms; exact I|].
  apply emits_catch; [|intros t; apply emits_fibo_catch].
  unfold preview_try, lift at 1, bind at 1.
  destruct (mapPresetToFIBO (preset request) (prompt request) (negativePrompt request))
    as [payload|t] eqn:E; [|apply emits_throw].
  apply emits_bind.
  { apply emits_request. cbn [preview_event req_method]. exists payload.
    split; [exact E | reflexivity]. }
  intros response. apply emits_bind; [apply emits_lift|]. intros requestId.
  apply emits_pollPreviewStatus; [intros ms; exact I | intros url; reflexivity].
Qed.

Lemma emits_createBatch (items : list PreviewRequest) :
  emits (batch_event items) (createBatch items).
Proof.
  unfold createBatch. apply emits_retried; [intros ms; exact I|].
  apply emits_catch; [|intros t; apply emits_fibo_catch].
  unfold createBatch_try, lift at 1, bind at 1.
  destruct (map_items items) as [payloads|t] eqn:E; [|apply emits_throw].
  apply emits_bind.
  { apply emits_request. cbn [batch_event]. exists payloads.
    split; [exact E|]. split; [apply map_items_length, E | reflexivity]. }
  intros response. apply emits_bind; [apply emits_lift | intros; apply emits_ret].
Qed.

Lemma emits_getBatchStatus (job : Value) :
  emits (status_event job) (getBatchStatus job).
Proof.
  unfold getBatchStatus. apply emits_retried; [intros ms; exact I|].
  apply emits_catch; [|intros t; apply emits_fibo_catch].
  unfold getBatchStatus_try.
  apply emits_bind; [apply emits_request; reflexivity|]. intros response. cbv zeta.
  repeat (apply emits_bind; [apply emits_lift|]; intros ?).
  apply emits_ret.
Qed.

Lemma costs_preview (request : PreviewRequest) : costs call_weight 124 (preview request).
Proof.
  unfold preview.
  apply (costs_retried call_weight 31 0); [|intros ms; simpl; lia].
  apply (costs_catch call_weight 31 0); [|intros t; apply costs_fibo_catch].
  unfold preview_try.
  apply (costs_bind call_weight 0 31); [apply costs_lift|]. intros payload.
  apply (costs_bind call_weight 1 30); [apply costs_request|]. intros response.
  apply (costs_bind call_weight 0 30); [apply costs_lift|]. intros requestId.
  apply costs_pollPreviewStatus. left. reflexivity.
Qed.

Lemma costs_createBatch (items : list PreviewRequest) :
  costs call_weight 4 (createBatch items).
Proof.
  unfold createBatch.
  apply (costs_retried call_weight 1 0); [|intros ms; simpl; lia].
  apply (costs_catch call_weight 1 0); [|intros t; apply costs_fibo_catch].
  unfold createBatch_try.
  apply (costs_bind call_weight 0 1); [apply costs_lift|]. intros payloads.
  apply (costs_bind call_weight 1 0); [apply costs_request|]. intros response.
  apply (costs_bind call_weight 0 0); [apply costs_lift | intros; apply costs_ret].
Qed.

Lemma costs_getBatchStatus (job : Value) : costs call_weight 4 (getBatchStatus job).
Proof.
  unfold getBatchStatus.
  apply (costs_retried call_weight 1 0); [|intros ms; simpl; lia].
  apply (costs_catch call_weight 1 0); [|intros t; apply costs_fibo_catch].
  unfold getBatchStatus_try.
  apply (costs_bind call_weight 1 0); [apply costs_request|]. intros response. cbv zeta.
  repeat (apply (costs_bind call_weight 0 0); [apply costs_lift|]; intros ?).
  apply costs_ret.
Qed.

End FiboFacts.

(** X18.  [mapPresetToFIBO] fills in every default: for a preset that is
    neither [null] nor [undefined] it returns a payload that has a negative
    prompt and truthy controls, film, expansion, steps, guidance and
    resolution, whatever the preset lacks; for [null] or [undefined] it
    throws. *)
Theorem mapPresetToFIBO_fills_defaults :
  forall (preset prompt negativePrompt : Js.Value),
    match preset with
    | None | Some Js.JNull =>
        exists t, Fibo.mapPresetToFIBO preset prompt negativePrompt = Js.Throw t
    | Some _ =>
        exists payload,
          Fibo.mapPresetToFIBO preset prompt negativePrompt = Js.Normal payload
          /\ Measures.complete_payload payload
    end.
Proof.
  intros preset prompt negativePrompt.
  destruct preset as [j|]; [|apply mapPresetToFIBO_throws; left; reflexivity].
  destruct j; try (apply mapPresetToFIBO_complete; discriminate).
  apply mapPresetToFIBO_throws. right. reflexivity.
Qed.

Example mapPresetToFIBO_example :
  option_map (fun preset => Fibo.mapPresetToFIBO (Some preset) None None)
    (JsonText.decode (Fixtures.json "{'prompt': 'a pier', 'render': {'steps': 50}}"))
  = Some (Js.Normal
            (Js.JObject
               [("prompt", Js.JString "a pier"); ("negative_prompt", Js.JString "");
                ("controls", Js.JObject []);
                ("render", Js.JObject [("steps", Js.JNumber "50");
                                       ("guidance", Js.JNumber "7.5");
                                       ("resolution", Js.JString "1024x1024")]);
                ("film", Js.JObject []); ("expansion", Js.JObject [])])).
Proof. vm_compute. reflexivity. Qed.

(** X19.  Whatever the remote service answers, [preview] only waits, polls
    with GETs and posts the payload of its request to [/fibo/generate];
    [createBatch] only waits and posts to [/fibo/batch] a body with exactly
    one payload per item; [getBatchStatus] only waits and GETs
    [/fibo/batch/<jobId>].  When the payload cannot be built, nothing is
    posted. *)
Theorem fibo_requests :
  forall (request : Fibo.PreviewRequest) (items : list Fibo.PreviewRequest)
         (job : Js.Value),
    Notions.emits (Measures.preview_event request) (Fibo.preview request)
    /\ Notions.emits (Measures.batch_event items) (Fibo.createBatch items)
    /\ Notions.emits (Measures.status_event job) (Fibo.getBatchStatus job).
Proof.
  intros request items job.
  split; [apply emits_preview|]. split; [apply emits_createBatch | apply emits_getBatchStatus].
Qed.

(** X20.  The calls of the preview and batch methods are bounded whatever
    the remote service answers: [preview] makes at most 124 calls (4 attempts
    of one POST and 30 polls), [createBatch] and [getBatchStatus] at most 4
    each. *)
Theorem fibo_calls_are_bounded :
  forall (request : Fibo.PreviewRequest) (items : list Fibo.PreviewRequest)
         (job : Js.Value),
    Measures.calls_within 124 (Fibo.preview request)
    /\ Measures.calls_within 4 (Fibo.createBatch items)
    /\ Measures.calls_within 4 (Fibo.getBatchStatus job).
Proof.
  intros request items job. split; [|split]; apply calls_within_intro.
  - apply costs_preview.
  - apply costs_createBatch.
  - apply costs_getBatchStatus.
Qed.

Section FiboOutcomes.
Import Js World Measures BriaApi Fibo.
Variable G : (nat -> HttpRequest -> HttpReply) -> Prop.
Hypothesis G_axios : forall service, G service -> axios_service service.

Lemma ends_or_lazy (a : Value) (b : Completion Value) :
  ends anything quiet b -> ends anything quiet (or_lazy a b).
Proof. intros Hb. unfold or_lazy. destruct (truthy a); [exact I | exact Hb]. Qed.

Lemma ends_mapPresetToFIBO (preset prompt negativePrompt : Value) :
  ends anything quiet (mapPresetToFIBO preset prompt negativePrompt).
Proof.
  unfold mapPresetToFIBO.
  apply ends_bindC; [apply ends_or_lazy, ends_getProp|]. intros p_prompt.
  apply ends_bindC; [apply ends_or_lazy, ends_getProp|]. intros p_negative.
  repeat (apply ends_bindC; [apply ends_getProp|]; intros ?).
  exact I.
Qed.

Lemma ends_map_items (items : list PreviewRequest) : ends anything quiet (map_items items).
Proof.
  induction items as [|item rest IH]; cbn [map_items]; [exact I|].
  apply ends_bindC; [apply ends_mapPresetToFIBO|]. intros payload.
  apply ends_bindC; [exact IH|]. intros more. exact I.
Qed.

Lemma ends_first_of (data : Value) (k1 k2 : string) :
  ends anything quiet (bindC (getProp data k1) (fun v => or_lazy v (getProp data k2))).
Proof.
  apply ends_bindC; [apply ends_getProp|]. intros v. apply ends_or_lazy, ends_getProp.
Qed.

Lemma yields_pollPreviewStatus (requestId : Value) :
  yields G anything tame (pollPreviewStatus requestId).
Proof.
  unfold pollPreviewStatus. cbv zeta.
  apply yields_for_loop; [|apply yields_throw; right; reflexivity].
  intros i. eapply yields_catch with (P1 := tame).
  - unfold preview_poll. eapply yields_bind; [apply (yields_call G G_axios)|].
    intros resp _. unfold preview_settle.
    eapply yields_bind; [apply yields_read, ends_getProp|]. intros status _.
    destruct (is_text status "completed").
    { eapply yields_bind; [apply yields_read, ends_getProp|].
      intros imgs _. apply yields_ret. exact I. }
    destruct (is_text status "failed").
    { eapply yields_bind; [apply yields_read, ends_getProp|].
      intros e _. apply yields_ret. exact I. }
    apply yields_waited.
  - intros t _. destruct (i =? 30 - 1)%nat;
      [apply yields_throw; right; reflexivity | apply yields_ret; exact I].
Qed.

Lemma yields_fibo_catch {A} (N : A -> Prop) (t : Thrown) :
  tame t -> yields G N quiet (@fibo_catch A t).
Proof.
  intros Ht. unfold fibo_catch. destruct t as [e|v].
  - destruct (isAxiosError e) eqn:Eax.
    + apply yields_throw. split; reflexivity.
    + apply yields_throw. split; [exact Eax|].
      destruct Ht as [Ht|Ht]; [cbn [is_axios] in Ht; congruence | exact Ht].
  - apply yields_throw. split; reflexivity.
Qed.

Lemma yields_fibo (request : PreviewRequest) (items : list PreviewRequest) (job : Value) :
  yields G anything plain_error (preview request)
  /\ yields G anything plain_error (createBatch items)
  /\ yields G anything plain_error (getBatchStatus job).
Proof.
  unfold preview, createBatch, getBatchStatus.
  split; [|split];
    apply (yields_retried G anything quiet
             (fun e => isAxiosError e = false /\ response e = None));
    try apply quiet_toError;
    (eapply yields_catch with (P1 := tame);
     [|intros t Ht; apply yields_fibo_catch; exact Ht]).
  - unfold preview_try.
    eapply yields_bind; [apply yields_read, ends_mapPresetToFIBO|]. intros payload _.
    eapply yields_bind; [apply (yields_call G G_axios)|]. intros response _.
    eapply yields_bind; [apply yields_read, ends_first_of|]. intros requestId _.
    apply yields_pollPreviewStatus.
  - unfold createBatch_try.
    eapply yields_bind; [apply yields_read, ends_map_items|]. intros payloads _.
    eapply yields_bind; [apply (yields_call G G_axios)|]. intros response _.
    eapply yields_bind; [apply yields_read, ends_first_of|]. intros job_id _.
    apply yields_ret. exact I.
  - unfold getBatchStatus_try.
    eapply yields_bind; [apply (yields_call G G_axios)|]. intros response _. cbv zeta.
    repeat (eapply yields_bind; [apply yields_read, ends_getProp|]; intros ? _).
    apply yields_ret. exact I.
Qed.

End FiboOutcomes.

(** X21.  Against a service whose rejections are axios errors, what
    [preview], [createBatch] and [getBatchStatus] raise is never the axios
    error itself: it is an [Error] that is no axios error and carries no
    [response]. *)
Theorem fibo_raises_plain_errors :
  forall (request : Fibo.PreviewRequest) (items : list Fibo.PreviewRequest)
         (job : Js.Value) (w : World.World),
    Measures.axios_service (World.remote w) ->
    Measures.ends Measures.anything Measures.plain_error (fst (Fibo.preview request w))
    /\ Measures.ends Measures.anything Measures.plain_error
         (fst (Fibo.createBatch items w))
    /\ Measures.ends Measures.anything Measures.plain_error
         (fst (Fibo.getBatchStatus job w)).
Proof.
  intros request items job w Hw.
  destruct (yields_fibo Measures.axios_service (fun _ H => H) request items job)
    as [Hp [Hc Hs]].
  split; [apply (Hp w Hw)|]. split; [apply (Hc w Hw) | apply (Hs w Hw)].
Qed.

Lemma fibo_raises_plain_errors_witness :
  Measures.ends Measures.anything Measures.plain_error
    (fst (Fibo.preview
            {| Fibo.preset := Some (Js.JObject [("prompt", Js.JString "a pier")]);
               Fibo.prompt := None; Fibo.negativePrompt := None |}
            (World.start Fixtures.answers_not_found)))
  /\ Measures.ends Measures.anything Measures.plain_error
       (fst (Fibo.createBatch [] (World.start Fixtures.answers_not_found)))
  /\ Measures.ends Measures.anything Measures.plain_error
       (fst (Fibo.getBatchStatus (Some (Js.JString "job-1"))
               (World.start Fixtures.answers_not_found))).
Proof.
  apply (fibo_raises_plain_errors
           {| Fibo.preset := Some (Js.JObject [("prompt", Js.JString "a pier")]);
              Fibo.prompt := None; Fibo.negativePrompt := None |}
           [] (Some (Js.JString "job-1")) (World.start Fixtures.answers_not_found)).
  exact answers_not_found_is_axios.
Defined.

(** The witness in full: four rejected calls, then the wrapped error. *)
Example getBatchStatus_not_found :
  fst (Fibo.getBatchStatus (Some (Js.JString "job-1"))
         (World.start Fixtures.answers_not_found))
  = Js.Throw (Js.ThrowError
                (Js.Error "Bria API error: Request failed with status code 404"))
  /\ List.length (World.calls (snd (Fibo.getBatchStatus (Some (Js.JString "job-1"))
                                      (World.start Fixtures.answers_not_found)))) = 4%nat.
Proof. vm_compute. split; reflexivity. Qed.

(* ================================================================== *)
(** ** The style DNA *)
(* ================================================================== *)

Section StyleDnaFacts.
Import Js Measures StyleDna.

Lemma assign_ok (current v : Value) :
  absent_or_truthy current -> absent_or_truthy (assign current v).
Proof.
  intros Hc. unfold assign. destruct (truthy v) eqn:E; [right; exact E | exact Hc].
Qed.

Lemma absent_ok : absent_or_truthy None.
Proof. left. reflexivity. Qed.

Lemma only_original_well_formed (x : JSON) : well_formed (only_original x).
Proof.
  split; [repeat (apply Forall_cons; [apply absent_ok|]); apply Forall_nil|].
  split; [intros tech H; discriminate H | discriminate].
Qed.

Lemma assign_last_wins (a b : Value) :
  assign (assign None a) b = first_truthy [b; a].
Proof. unfold assign. cbn [first_truthy]. destruct (truthy b), (truthy a); reflexivity. Qed.

Lemma assign_last_of_three (a b c : Value) :
  assign (assign (assign None a) b) c = first_truthy [c; b; a].
Proof.
  unfold assign. cbn [first_truthy].
  destruct (truthy c), (truthy b), (truthy a); reflexivity.
Qed.

Lemma own_without_direction (k : string) (props : list (string * JSON)) :
  String.eqb k "direction" = false ->
  own k (filter (fun entry => negb (String.eqb (fst entry) "direction")) props)
  = own k props.
Proof.
  intros Hk. induction props as [|[k0 x] rest IH]; cbn [filter own fst]; [reflexivity|].
  destruct (String.eqb k0 "direction") eqn:E; cbn [negb own].
  - apply String.eqb_eq in E. subst k0. rewrite String.eqb_sym, Hk. exact IH.
  - destruct (String.eqb k0 k); [reflexivity | exact IH].
Qed.

Lemma lighting_clause_without_direction (l : Value) :
  lighting_clause (without_direction l) = lighting_clause l.
Proof.
  destruct l as [[| | | | |props]|]; try reflexivity.
  unfold without_direction, lighting_clause. cbn [truthy flat_map prop].
  rewrite !own_without_direction by reflexivity. reflexivity.
Qed.

End StyleDnaFacts.

(** X22.  Whatever text it is given, [parseStructuredPrompt] returns a
    style DNA in which [original] is there and every other key, the keys of
    [technical] included, is absent or holds a truthy value: no key is ever
    set to an empty string, zero, [false] or [null]. *)
Theorem parsed_style_dna_is_well_formed :
  forall (JSON_parse : string -> option Js.JSON) (text : string),
  exists styleDNA,
    StyleDna.parseStructuredPrompt JSON_parse text = Js.Normal styleDNA
    /\ Measures.well_formed styleDNA.
Proof.
  intros JSON_parse text.
  unfold StyleDna.parseStructuredPrompt, StyleDna.parseStructuredPrompt_try, Js.try_catch.
  destruct (JSON_parse text) as [parsed|];
    [|eexists; split; [reflexivity | apply only_original_well_formed]].
  destruct (Js.keys_count (Some parsed)) as [n|t]; cbn [Js.bindC];
    [|eexists; split; [reflexivity | apply only_original_well_formed]].
  eexists. split; [reflexivity|]. cbv zeta.
  split; [repeat (apply Forall_cons; [repeat apply assign_ok; apply absent_ok|]);
          apply Forall_nil|].
  split; [|discriminate].
  cbn [StyleDna.technical]. intros tech Htech.
  destruct (Js.or_else (Js.or_else (Js.prop parsed "technical") (Js.prop parsed "camera"))
              (Js.prop parsed "photography")) as [src|] eqn:Esrc; [|discriminate Htech].
  destruct (Js.truthy (Some src)); [|discriminate Htech].
  injection Htech as <-.
  repeat (apply Forall_cons; [repeat apply assign_ok; apply absent_ok|]).
  apply Forall_nil.
Qed.

(** X23.  When the text decodes to an object, the last alias read wins for
    the keys of the style DNA ([illumination] over [light] over [lighting],
    [palette] over [color_palette], [vibe] over [mood], [style] over
    [artistic_style], [time] over [time_of_day]), while the source of
    [technical] is the first truthy one of [technical], [camera] and
    [photography]. *)
Theorem parsed_aliases :
  forall (JSON_parse : string -> option Js.JSON) (text : string)
         (props : list (string * Js.JSON)),
    JSON_parse text = Some (Js.JObject props) ->
    exists styleDNA,
      StyleDna.parseStructuredPrompt JSON_parse text = Js.Normal styleDNA
      /\ StyleDna.original styleDNA = Some (Js.JObject props)
      /\ StyleDna.lighting styleDNA
         = Measures.first_truthy [Js.own "illumination" props; Js.own "light" props;
                                  Js.own "lighting" props]
      /\ StyleDna.color_palette styleDNA
         = Measures.first_truthy [Js.own "palette" props; Js.own "color_palette" props]
      /\ StyleDna.mood styleDNA
         = Measures.first_truthy [Js.own "vibe" props; Js.own "mood" props]
      /\ StyleDna.artistic_style styleDNA
         = Measures.first_truthy [Js.own "style" props; Js.own "artistic_style" props]
      /\ StyleDna.time_of_day styleDNA
         = Measures.first_truthy [Js.own "time" props; Js.own "time_of_day" props]
      /\ option_map StyleDna.depth_of_field (StyleDna.technical styleDNA)
         = option_map
             (fun src => Measures.first_truthy [Js.prop src "dof";
                                                Js.prop src "depth_of_field"])
             (Measures.first_truthy [Js.own "technical" props; Js.own "camera" props;
                                     Js.own "photography" props]).
Proof.
  intros JSON_parse text props Hparse.
  unfold StyleDna.parseStructuredPrompt, StyleDna.parseStructuredPrompt_try, Js.try_catch.
  rewrite Hparse. cbn [Js.keys_count Js.bindC]. cbv zeta.
  eexists. split; [reflexivity|]. cbn [StyleDna.original StyleDna.lighting
    StyleDna.color_palette StyleDna.mood StyleDna.artistic_style StyleDna.time_of_day
    StyleDna.technical Js.prop].
  split; [reflexivity|].
  split; [apply assign_last_of_three|].
  do 4 (split; [apply assign_last_wins|]).
  unfold Js.or_else. cbn [Measures.first_truthy].
  destruct (Js.truthy (Js.own "technical" props)) eqn:E1.
  - rewrite E1. destruct (Js.own "technical" props) as [src|]; [|discriminate E1].
    rewrite E1. cbn [option_map StyleDna.depth_of_field]. unfold StyleDna.assign.
    destruct (Js.truthy (Js.prop src "dof")), (Js.truthy (Js.prop src "depth_of_field"));
      reflexivity.
  - destruct (Js.truthy (Js.own "camera" props)) eqn:E2.
    + destruct (Js.own "camera" props) as [src|]; [|discriminate E2].
      rewrite E2. cbn [option_map StyleDna.depth_of_field]. unfold StyleDna.assign.
      destruct (Js.truthy (Js.prop src "dof")), (Js.truthy (Js.prop src "depth_of_field"));
        reflexivity.
    + destruct (Js.own "photography" props) as [src|]; [|reflexivity].
      destruct (Js.truthy (Some src)); [|reflexivity].
      cbn [option_map StyleDna.depth_of_field]. unfold StyleDna.assign.
      destruct (Js.truthy (Js.prop src "dof")), (Js.truthy (Js.prop src "depth_of_field"));
        reflexivity.
Qed.

Lemma parsed_aliases_witness :
  exists styleDNA,
    StyleDna.parseStructuredPrompt JsonText.decode
      (Fixtures.json "{'lighting': 'warm', 'mood': 'serene'}") = Js.Normal styleDNA
    /\ StyleDna.original styleDNA
       = Some (Js.JObject [("lighting", Js.JString "warm"); ("mood", Js.JString "serene")])
    /\ StyleDna.lighting styleDNA = Some (Js.JString "warm")
    /\ StyleDna.color_palette styleDNA = None
    /\ StyleDna.mood styleDNA = Some (Js.JString "serene")
    /\ StyleDna.artistic_style styleDNA = None
    /\ StyleDna.time_of_day styleDNA = None
    /\ option_map StyleDna.depth_of_field (StyleDna.technical styleDNA) = None.
Proof.
  exact (parsed_aliases JsonText.decode
           (Fixtures.json "{'lighting': 'warm', 'mood': 'serene'}")
           [("lighting", Js.JString "warm"); ("mood", Js.JString "serene")] eq_refl).
Defined.

(** X24.  The style description never shows the [direction] of a lighting
    object, the [iso] and the [shutter_speed] of the technical details, or
    [original]: taking them away changes neither [styleDNAToPrompt] nor the
    prompt [createStyleTransferPrompt] composes. *)
Theorem style_description_leaves_out :
  forall (newSubject : Js.JSON) (styleDNA : StyleDna.StyleDNA),
    StyleDna.styleDNAToPrompt (Measures.rendered_part styleDNA)
    = StyleDna.styleDNAToPrompt styleDNA
    /\ StyleDna.createStyleTransferPrompt newSubject (Measures.rendered_part styleDNA)
       = StyleDna.createStyleTransferPrompt newSubject styleDNA.
Proof.
  intros newSubject styleDNA.
  assert (H : StyleDna.styleDNAToPrompt (Measures.rendered_part styleDNA)
              = StyleDna.styleDNAToPrompt styleDNA).
  { unfold StyleDna.styleDNAToPrompt, Measures.rendered_part. cbv zeta.
    unfold StyleDna.color_clause, StyleDna.technical_clauses, StyleDna.style_clause.
    cbn [StyleDna.lighting StyleDna.color_palette StyleDna.colors StyleDna.mood
         StyleDna.atmosphere StyleDna.tone StyleDna.technical StyleDna.artistic_style
         StyleDna.photographic_style StyleDna.rendering_style StyleDna.time_of_day
         StyleDna.season StyleDna.weather].
    rewrite lighting_clause_without_direction.
    destruct (StyleDna.technical styleDNA) as [tech|]; reflexivity. }
  split; [exact H|]. unfold StyleDna.createStyleTransferPrompt. cbv zeta. rewrite H.
  reflexivity.
Qed.

(* ================================================================== *)
(** ** Answers given without a call *)
(* ================================================================== *)

Section Refusals.
Import Js World Measures.
Variable JSON_parse : string -> option JSON.
Variable env : Env.

(** The generation handler answers 400 before it calls the client. *)
Lemma generate_bad_request_is_early (body : JSON) (w : World) :
  forall c w', GenerateImageRoute.handler JSON_parse env body w = (c, w') ->
    match c with
    | Normal (GenerateImageRoute.BadRequest _) => w' = w
    | _ => True
    end.
Proof.
  unfold GenerateImageRoute.handler, catch, bind, lift, ret.
  destruct (getProp (Some body) "structured_prompt") as [sp|t];
    [|intros c w' H; injection H as <- <-; exact I].
  destruct (getProp (Some body) "prompt") as [pr|t];
    [|intros c w' H; injection H as <- <-; exact I].
  destruct (getProp (Some body) "seed") as [sd|t];
    [|intros c w' H; injection H as <- <-; exact I].
  destruct (getProp (Some body) "use_style_dna_parser") as [use|t];
    [|intros c w' H; injection H as <- <-; exact I].
  destruct (negb (truthy sp) && negb (truthy pr));
    [intros c w' H; injection H as <- <-; reflexivity|].
  destruct (truthy sp && negb (is_string sp));
    [intros c w' H; injection H as <- <-; reflexivity|].
  destruct (GenerateImageRoute.prepare JSON_parse sp pr use) as [[fp fsp] dna].
  destruct (getBriaClient env w) as [[[]|t] w0];
    [|intros c w' H; injection H as <- <-; exact I].
  destruct (BriaApi.generateImage (GenerateImageRoute.requestPayload fp fsp sd) w0)
    as [[result|t] w1]; intros c w' H; injection H as <- <-; exact I.
Qed.

(** The extraction handler answers 400 before it calls the client. *)
Lemma extract_bad_request_is_early (files : option (list Multer.File))
      (profile_name : Value) (w : World) :
  forall c w',
    StyleExtractRoute.handler JSON_parse env files profile_name w = (c, w') ->
    match c with
    | Normal (StyleExtractRoute.BadRequest _) => w' = w
    | _ => True
    end.
Proof.
  unfold StyleExtractRoute.handler, catch, bind, lift, ret.
  destruct files as [[|file files]|];
    try (intros c w' H; injection H as <- <-; reflexivity).
  set (fs := file :: files).
  destruct (List.length fs <? 1)%nat;
    [intros c w' H; injection H as <- <-; reflexivity|].
  destruct (20 <? List.length fs)%nat;
    [intros c w' H; injection H as <- <-; reflexivity|].
  destruct (StyleExtractRoute.validate fs 0) as [e|imageBuffers];
    [intros c w' H; injection H as <- <-; reflexivity|].
  destruct (getBriaClient env w) as [[[]|t] w0];
    [|intros c w' H; injection H as <- <-; exact I].
  destruct (StyleExtractRoute.process JSON_parse imageBuffers 0 [] [] w0)
    as [[[sps errs]|t] w1]; [|intros c w' H; injection H as <- <-; exact I].
  destruct (StyleExtractRoute.profileName JSON_parse env profile_name sps)
    as [[nm readings]|t]; intros c w' H; injection H as <- <-; exact I.
Qed.

Hypothesis no_key : BRIA_API_KEY env = None \/ BRIA_API_KEY env = Some "".

Lemma getBriaClient_refuses (w : World) :
  getBriaClient env w
  = (Throw (ThrowError (Error "BRIA_API_KEY is not configured")), w).
Proof. unfold getBriaClient. destruct no_key as [-> | ->]; reflexivity. Qed.

Lemma generate_without_key (body : JSON) (w : World) :
  exists reply,
    GenerateImageRoute.handler JSON_parse env body w = (Normal reply, w)
    /\ generation_refusal reply.
Proof.
  unfold GenerateImageRoute.handler, catch.
  unfold lift at 1, bind at 1.
  destruct (getProp (Some body) "structured_prompt") as [sp|t] eqn:E1.
  2:{ eexists. split; [reflexivity|]. destruct body; try discriminate E1.
      injection E1 as <-. reflexivity. }
  unfold lift at 1, bind at 1.
  destruct (getProp (Some body) "prompt") as [pr|t] eqn:E2.
  2:{ destruct body; discriminate. }
  unfold lift at 1, bind at 1.
  destruct (getProp (Some body) "seed") as [sd|t] eqn:E3.
  2:{ destruct body; discriminate. }
  unfold lift at 1, bind at 1.
  destruct (getProp (Some body) "use_style_dna_parser") as [use|t] eqn:E4.
  2:{ destruct body; discriminate. }
  destruct (negb (truthy sp) && negb (truthy pr));
    [eexists; split; [reflexivity | exact I]|].
  destruct (truthy sp && negb (is_string sp));
    [eexists; split; [reflexivity | exact I]|].
  destruct (GenerateImageRoute.prepare JSON_parse sp pr use) as [[fp fsp] dna].
  unfold bind at 1. rewrite getBriaClient_refuses.
  eexists. split; reflexivity.
Qed.

Lemma extract_without_key (form : StyleExtractRoute.Upload) (profile_name : Value)
      (w : World) :
  exists reply,
    StyleExtractRoute.route JSON_parse env form profile_name w = (Normal reply, w)
    /\ extraction_refusal reply.
Proof.
  assert (Hhandler : forall files, exists reply,
             StyleExtractRoute.handler JSON_parse env files profile_name w
             = (Normal reply, w) /\ extraction_refusal reply).
  { intros files. unfold StyleExtractRoute.handler, catch.
    destruct files as [[|file files]|];
      try (eexists; split; [reflexivity | exact I]).
    set (fs := file :: files).
    destruct (List.length fs <? 1)%nat; [eexists; split; [reflexivity | exact I]|].
    destruct (20 <? List.length fs)%nat; [eexists; split; [reflexivity | exact I]|].
    destruct (StyleExtractRoute.validate fs 0) as [e|imageBuffers];
      [eexists; split; [reflexivity | exact I]|].
    unfold bind at 1. rewrite getBriaClient_refuses.
    eexists. split; reflexivity. }
  unfold StyleExtractRoute.route. destruct form as [parts|]; [|apply Hhandler].
  destruct (StyleExtractRoute.upload env parts) as [err|files]; [|apply Hhandler].
  destruct (handleMulterError_is_400 err) as [msg Hmsg].
  exists (StyleExtractRoute.BadRequest msg). unfold ret. rewrite Hmsg.
  split; [reflexivity | exact I].
Qed.

End Refusals.

(** X25.  A 400 is answered before any call: when the generation endpoint
    or the extraction endpoint answers 400, be it for a validation failure
    or an upload error, it has made no call to the remote service and has
    not waited. *)
Theorem bad_requests_make_no_call :
  forall (JSON_parse : string -> option Js.JSON) (env : Env) (body : Js.JSON)
         (form : StyleExtractRoute.Upload) (profile_name : Js.Value) (w : World.World),
    match fst (GenerateImageRoute.handler JSON_parse env body w) with
    | Js.Normal (GenerateImageRoute.BadRequest _) =>
        snd (GenerateImageRoute.handler JSON_parse env body w) = w
    | _ => True
    end
    /\ match fst (StyleExtractRoute.route JSON_parse env form profile_name w) with
       | Js.Normal (StyleExtractRoute.BadRequest _) =>
           snd (StyleExtractRoute.route JSON_parse env form profile_name w) = w
       | _ => True
       end.
Proof.
  intros JSON_parse env body form profile_name w. split.
  - destruct (GenerateImageRoute.handler JSON_parse env body w) as [c w'] eqn:E.
    exact (generate_bad_request_is_early JSON_parse env body w c w' E).
  - unfold StyleExtractRoute.route. destruct form as [parts|].
    + destruct (StyleExtractRoute.upload env parts) as [err|files].
      * cbn [World.ret fst snd].
        destruct (StyleExtractRoute.handleMulterError err); exact I || reflexivity.
      * destruct (StyleExtractRoute.handler JSON_parse env (Some files) profile_name w)
          as [c w'] eqn:E.
        exact (extract_bad_request_is_early JSON_parse env _ _ w c w' E).
    + destruct (StyleExtractRoute.handler JSON_parse env None profile_name w)
        as [c w'] eqn:E.
      exact (extract_bad_request_is_early JSON_parse env _ _ w c w' E).
Qed.

(** X26.  Without an API key (none, or an empty one) neither endpoint
    reaches the remote service: each answers with a 400 or with a 500, and
    leaves the world as it was. *)
Theorem missing_key_makes_no_call :
  forall (JSON_parse : string -> option Js.JSON) (env : Env) (body : Js.JSON)
         (form : StyleExtractRoute.Upload) (profile_name : Js.Value) (w : World.World),
    BRIA_API_KEY env = None \/ BRIA_API_KEY env = Some "" ->
    (exists reply,
        GenerateImageRoute.handler JSON_parse env body w = (Js.Normal reply, w)
        /\ Measures.generation_refusal reply)
    /\ (exists reply,
           StyleExtractRoute.route JSON_parse env form profile_name w = (Js.Normal reply, w)
           /\ Measures.extraction_refusal reply).
Proof.
  intros JSON_parse env body form profile_name w Hkey.
  split; [apply generate_without_key | apply extract_without_key]; exact Hkey.
Qed.

Lemma missing_key_makes_no_call_witness :
  (exists reply,
      GenerateImageRoute.handler JsonText.decode Fixtures.env0 Fixtures.bicycle_styled
        (World.start Fixtures.obliging)
      = (Js.Normal reply, World.start Fixtures.obliging)
      /\ Measures.generation_refusal reply)
  /\ (exists reply,
         StyleExtractRoute.route JsonText.decode Fixtures.env0
           (StyleExtractRoute.Multipart Fixtures.three_images) None
           (World.start Fixtures.obliging)
         = (Js.Normal reply, World.start Fixtures.obliging)
         /\ Measures.extraction_refusal reply).
Proof.
  apply (missing_key_makes_no_call JsonText.decode Fixtures.env0 Fixtures.bicycle_styled
           (StyleExtractRoute.Multipart Fixtures.three_images) None
           (World.start Fixtures.obliging)).
  left. reflexivity.
Defined.

(** X27.  A custom profile name that is not blank wins: whenever the
    extraction endpoint answers with a profile, the name of the profile is
    the trimmed custom name, whatever was extracted. *)
Theorem custom_profile_name_wins :
  forall (JSON_parse : string -> option Js.JSON) (env : Env)
         (form : StyleExtractRoute.Upload) (text : string) (w : World.World),
    Js.trim text <> "" ->
    match fst (StyleExtractRoute.route JSON_parse env form (Some (Js.JString text)) w) with
    | Js.Normal (StyleExtractRoute.Profile p) => StyleExtractRoute.name p = Js.trim text
    | _ => True
    end.
Proof.
  intros JSON_parse env form text w Htrim.
  assert (Htext : text <> "") by (intros ->; apply Htrim; reflexivity).
  assert (Hhandler : forall files,
             match fst (StyleExtractRoute.handler JSON_parse env files
                          (Some (Js.JString text)) w) with
             | Js.Normal (StyleExtractRoute.Profile p) =>
                 StyleExtractRoute.name p = Js.trim text
             | _ => True
             end).
  { intros files. unfold StyleExtractRoute.handler, World.catch.
    destruct files as [[|file files]|]; try exact I.
    set (fs := file :: files).
    destruct (List.length fs <? 1)%nat; [exact I|].
    destruct (20 <? List.length fs)%nat; [exact I|].
    destruct (StyleExtractRoute.validate fs 0) as [e|imageBuffers]; [exact I|].
    unfold World.bind at 1. destruct (getBriaClient env w) as [[[]|t] w0]; [|exact I].
    unfold World.bind at 1.
    destruct (StyleExtractRoute.process JSON_parse imageBuffers 0 [] [] w0)
      as [[[sps errs]|t] w1]; [|exact I].
    unfold World.bind at 1, World.lift, StyleExtractRoute.profileName.
    cbn [Js.truthy]. apply String.eqb_neq in Htext, Htrim. rewrite Htext, Htrim.
    cbn [negb World.ret fst]. reflexivity. }
  unfold StyleExtractRoute.route. destruct form as [parts|]; [|apply Hhandler].
  destruct (StyleExtractRoute.upload env parts) as [err|files]; [|apply Hhandler].
  cbn [World.ret fst]. destruct (handleMulterError_is_400 err) as [msg Hmsg].
  rewrite Hmsg. exact I.
Qed.

Lemma custom_profile_name_wins_witness :
  match fst (StyleExtractRoute.route JsonText.decode Fixtures.env1
               (StyleExtractRoute.Multipart Fixtures.three_images)
               (Some (Js.JString "  Harbour at dusk ")) (World.start Fixtures.second_fails)) with
  | Js.Normal (StyleExtractRoute.Profile p) =>
      StyleExtractRoute.name p = Js.trim "  Harbour at dusk "
  | _ => True
  end.
Proof.
  apply (custom_profile_name_wins JsonText.decode Fixtures.env1
           (StyleExtractRoute.Multipart Fixtures.three_images) "  Harbour at dusk "
           (World.start Fixtures.second_fails)).
  vm_compute. discriminate.
Defined.

(** The witness in full. *)
Example custom_name_example :
  match fst (StyleExtractRoute.route JsonText.decode Fixtures.env1
               (StyleExtractRoute.Multipart Fixtures.three_images)
               (Some (Js.JString "  Harbour at dusk ")) (World.start Fixtures.second_fails)) with
  | Js.Normal (StyleExtractRoute.Profile p) => StyleExtractRoute.name p
  | _ => "no profile"
  end = "Harbour at dusk".
Proof. vm_compute. reflexivity. Qed.

(** White space that is not ASCII is trimmed too; a name of nothing else is
    no custom name. *)
Example trim_unicode_white_space :
  Js.trim (Fixtures.nbsp ++ " Harbour" ++ Fixtures.nbsp ++ "at dusk"
           ++ Fixtures.ideographic_space)
  = "Harbour" ++ Fixtures.nbsp ++ "at dusk"
  /\ Js.trim (Fixtures.nbsp ++ Fixtures.ideographic_space) = "".
Proof. vm_compute. split; reflexivity. Qed.

(* ================================================================== *)
(** ** The file filter of the upload *)
(* ================================================================== *)

Section FileFilterFacts.
Import Js Notions StyleExtractRoute.

Lemma toLowerCase_app (a b : string) :
  toLowerCase (a ++ b) = (toLowerCase a ++ toLowerCase b)%string.
Proof. induction a as [|c a IH]; cbn [append toLowerCase]; [|rewrite IH]; reflexivity. Qed.

Lemma last_app_nonempty {X} (a b : list X) (d : X) : b <> [] -> last (a ++ b) d = last b d.
Proof.
  intros Hb. induction a as [|x a IH]; [reflexivity|].
  cbn [app last]. destruct (a ++ b)%list eqn:E; [|exact IH].
  apply app_eq_nil in E. destruct E as [_ E]. contradiction.
Qed.

(** The extension of [name.ext] is [ext] in lower case, when [ext] has no
    dot. *)
Lemma extension_of (name ext : string) :
  occurs "."%char (toLowerCase ext) = false ->
  extension (name ++ "." ++ ext) = toLowerCase ext.
Proof.
  intros Hfree. unfold extension. rewrite toLowerCase_app.
  change (toLowerCase ("." ++ ext)) with (String "."%char (toLowerCase ext)).
  rewrite split_concat, last_app_nonempty by apply split_nonempty.
  rewrite (split_word _ _ Hfree). reflexivity.
Qed.

Lemma allowedExtensions_free (e : string) :
  In e allowedExtensions -> occurs "."%char e = false /\ e <> "" /\ mem e allowedExtensions = true.
Proof.
  intros [<-|[<-|[<-|[<-|[]]]]]; (split; [reflexivity|]; split; [discriminate | reflexivity]).
Qed.

End FileFilterFacts.

(** X28.  The file filter falls back on the extension, whatever its letter
    case: a file whose name ends in a dot and jpg, jpeg, png or webp is
    accepted whatever its MIME type is. *)
Theorem fileFilter_accepts_by_extension :
  forall (file : Multer.File) (name ext : string),
    Multer.originalname file = (name ++ "." ++ ext)%string ->
    In (Js.toLowerCase ext) StyleExtractRoute.allowedExtensions ->
    StyleExtractRoute.fileFilter file = None.
Proof.
  intros file name ext Hname Hext.
  destruct (allowedExtensions_free _ Hext) as [Hfree [Hne Hmem]].
  unfold StyleExtractRoute.fileFilter. cbv zeta.
  rewrite Hname, (extension_of name ext Hfree), Hmem.
  apply String.eqb_neq in Hne. rewrite Hne. cbn [negb andb].
  rewrite orb_true_r. reflexivity.
Qed.

Lemma fileFilter_accepts_by_extension_witness :
  StyleExtractRoute.fileFilter
    {| Multer.fieldname := "images"; Multer.originalname := "IMG_0042.JPG";
       Multer.mimetype := "application/octet-stream"; Multer.buffer := "image-one" |}
  = None.
Proof.
  apply (fileFilter_accepts_by_extension
           {| Multer.fieldname := "images"; Multer.originalname := "IMG_0042.JPG";
              Multer.mimetype := "application/octet-stream"; Multer.buffer := "image-one" |}
           "IMG_0042" "JPG").
  - reflexivity.
  - vm_compute. left. reflexivity.
Defined.

(* ================================================================== *)
(** ** Every image is sent *)
(* ================================================================== *)

Section Sending.
Import Js World Notions Measures BriaApi.

Lemma emits_anything {A} (m : M A) (Q : Event -> Prop) (e : Event) (w : World) :
  emits Q m -> In e (events w) -> In e (events (snd (m w))).
Proof.
  intros Hm Hin. destruct (Hm w) as [extra [E _]]. rewrite E.
  apply in_or_app. right. exact Hin.
Qed.

Lemma records_request (r : HttpRequest) : records (Called r) (request r).
Proof.
  intros w. unfold request.
  destruct (remote w (List.length (calls w)) r); left; reflexivity.
Qed.

Lemma records_bind {A B} (Q : Event -> Prop) (e : Event) (m : M A) (k : A -> M B) :
  records e m -> (forall a, emits Q (k a)) -> records e (bind m k).
Proof.
  intros Hm Hk w. unfold bind. specialize (Hm w).
  destruct (m w) as [[a|t] w1]; cbn [snd] in *; [|exact Hm].
  exact (emits_anything (k a) Q e w1 (Hk a) Hm).
Qed.

Lemma records_catch {A} (Q : Event -> Prop) (e : Event) (m : M A) (h : Thrown -> M A) :
  records e m -> (forall t, emits Q (h t)) -> records e (catch m h).
Proof.
  intros Hm Hh w. unfold catch. specialize (Hm w).
  destruct (m w) as [[a|t] w1]; cbn [snd] in *; [exact Hm|].
  exact (emits_anything (h t) Q e w1 (Hh t) Hm).
Qed.

(** What the operation records at each invocation, the retrier records as
    soon as it invokes the operation once. *)
Lemma records_retried {A} (Q : Event -> Prop) (e : Event) (fn : M A) :
  (forall ms, Q (Slept ms)) -> emits Q fn -> records e fn -> records e (retried fn).
Proof.
  intros Hwait Hemits Hfn.
  assert (H : records e (retried_passes fn)).
  { unfold retried_passes. apply (records_catch Q); [exact Hfn|]. intros _.
    apply emits_bind; [apply emits_sleep, Hwait|]. intros _.
    repeat (apply emits_catch; [exact Hemits|]; intros ?;
            try (apply emits_bind; [apply emits_sleep, Hwait|]; intros _)).
    apply emits_throw. }
  intros w. rewrite retried_unfold. apply H.
Qed.

(** [extractStyle] on one image that is not empty posts it. *)
Lemma extractStyle_posts (image : Buffer) :
  (0 < String.length image)%nat ->
  records (Called (style_post image)) (extractStyle [image]).
Proof.
  intros Hlen. unfold extractStyle.
  assert (Hop : emits (extraction_event [image]) (extractStyle_operation [image])).
  { unfold extractStyle_operation.
    apply emits_catch; [|intros t; apply emits_extractStyle_catch].
    unfold extractStyle_try, lift at 1, bind at 1. cbn [encode_images].
    replace (String.length image =? 0)%nat with false
      by (symmetry; apply Nat.eqb_neq; lia).
    cbn [bindC]. apply emits_bind.
    { apply emits_request. cbn [extraction_event req_method]. exists image.
      split; [left; reflexivity | reflexivity]. }
    intros response.
    apply emits_bind; [apply emits_lift|]. intros request_id.
    apply emits_bind; [apply emits_lift|]. intros status_url.
    destruct ((resp_status response =? 202)%Z && truthy status_url).
    - apply emits_pollStyleExtractStatus;
        [apply extraction_event_wait | apply extraction_event_get].
    - apply emits_lift. }
  apply (records_retried (extraction_event [image]));
    [apply extraction_event_wait | exact Hop |].
  unfold extractStyle_operation.
  apply (records_catch (extraction_event [image]));
    [|intros t; apply emits_extractStyle_catch].
  unfold extractStyle_try, lift at 1, bind at 1. cbn [encode_images].
  replace (String.length image =? 0)%nat with false
    by (symmetry; apply Nat.eqb_neq; lia).
  cbn [bindC].
  apply (records_bind (extraction_event [image])); [apply records_request|].
  intros response.
  apply emits_bind; [apply emits_lift|]. intros request_id.
  apply emits_bind; [apply emits_lift|]. intros status_url.
  destruct ((resp_status response =? 202)%Z && truthy status_url).
  - apply emits_pollStyleExtractStatus;
      [apply extraction_event_wait | apply extraction_event_get].
  - apply emits_lift.
Qed.

Variable JSON_parse : string -> option JSON.
Variable env : Env.

(** The loop over the images posts every one of them. *)
Lemma process_posts (imageBuffers : list Buffer) :
  Forall (fun image => (0 < String.length image)%nat) imageBuffers ->
  forall image, In image imageBuffers ->
  forall i structuredPrompts errors,
    records (Called (style_post image))
      (StyleExtractRoute.process JSON_parse imageBuffers i structuredPrompts errors).
Proof.
  induction 1 as [|buffer rest Hbuffer Hrest IH]; intros image Hin i sps errs;
    [contradiction|].
  cbn [StyleExtractRoute.process]. destruct Hin as [<-|Hin].
  - apply (records_bind (extraction_event (buffer :: rest))).
    + apply (records_catch (extraction_event [buffer])); [|intros t; apply emits_ret].
      apply (records_bind (extraction_event [buffer]));
        [apply extractStyle_posts, Hbuffer|].
      intros result. apply emits_bind; [apply emits_lift | intros; apply emits_ret].
    + intros [prompt|e]; apply emits_process; apply incl_tl, incl_refl.
  - intros w. unfold bind at 1.
    match goal with
    | |- context [catch ?m ?h w] => destruct (catch m h w) as [[[prompt|e]|t] w1] eqn:E
    end; cbn [snd].
    + apply IH, Hin.
    + apply IH, Hin.
    + exfalso. unfold catch in E.
      match type of E with
      | context [bind ?m ?k w] => destruct (bind m k w) as [[a|t0] w0]
      end; discriminate E.
Qed.

End Sending.

(** X29.  When an upload of one to five acceptable images reaches the
    extraction endpoint of a configured process, every image of the form is
    posted to the remote service, whatever the service answers to the
    others. *)
Theorem every_accepted_image_is_posted :
  forall (JSON_parse : string -> option Js.JSON) (env : Env)
         (parts : list Multer.File) (profile_name : Js.Value) (key : string)
         (w : World.World),
    (1 <= List.length parts <= 5)%nat ->
    Forall (Notions.acceptable env) parts ->
    BRIA_API_KEY env = Some key -> key <> "" ->
    forall file, In file parts ->
      In (World.Called (Measures.style_post (Multer.buffer file)))
        (World.events
           (snd (StyleExtractRoute.route JSON_parse env (StyleExtractRoute.Multipart parts)
                   profile_name w))).
Proof.
  intros JSON_parse env parts profile_name key w Hlen Hok Hkey Hne file Hfile.
  unfold StyleExtractRoute.route, StyleExtractRoute.upload, Multer.array.
  rewrite (take_accepts env parts Hok 0 5) by lia.
  unfold StyleExtractRoute.handler.
  destruct parts as [|first rest]; [contradiction|].
  set (fs := first :: rest) in *.
  replace (List.length fs <? 1)%nat with false by (symmetry; apply Nat.ltb_ge; lia).
  replace (20 <? List.length fs)%nat with false by (symmetry; apply Nat.ltb_ge; lia).
  rewrite (validate_accepts env fs Hok 0).
  apply (records_catch (fun _ => True)); [|intros t; apply emits_ret].
  unfold World.bind at 1, getBriaClient. rewrite Hkey.
  apply String.eqb_neq in Hne. rewrite Hne. cbn [World.ret].
  apply (records_bind (fun _ => True)).
  - apply process_posts; [|apply in_map, Hfile].
    apply Forall_forall. intros image Himage. apply in_map_iff in Himage.
    destruct Himage as [f [<- Hf]]. rewrite Forall_forall in Hok.
    destruct (Hok f Hf) as [_ [_ [_ [Hpos _]]]]. exact Hpos.
  - intros [sps errs]. apply emits_bind; [apply emits_lift|].
    intros [nm readings]. apply emits_ret.
Qed.

Lemma three_images_are_acceptable :
  Forall (Notions.acceptable Fixtures.env1) Fixtures.three_images.
Proof.
  repeat (apply Forall_cons; [repeat split; vm_compute; reflexivity || lia || discriminate|]).
  apply Forall_nil.
Qed.

Lemma every_accepted_image_is_posted_witness :
  In (World.Called (Measures.style_post "image-two"))
    (World.events
       (snd (StyleExtractRoute.route JsonText.decode Fixtures.env1
               (StyleExtractRoute.Multipart Fixtures.three_images) None
               (World.start Fixtures.second_fails)))).
Proof.
  apply (every_accepted_image_is_posted JsonText.decode Fixtures.env1 Fixtures.three_images
           None "key" (World.start Fixtures.second_fails)
           ltac:(simpl; lia) three_images_are_acceptable eq_refl ltac:(discriminate)
           (Fixtures.png "two.png" "image-two")).
  simpl. right. left. reflexivity.
Defined.

(** What the upload does not accept.  A file whose size reaches the limit of
    the upload is refused with a 400 and nothing is sent; a part without a
    file name is left out of the files, and of the count of the profile. *)
Example upload_limits :
  StyleExtractRoute.route JsonText.decode Fixtures.env9
    (StyleExtractRoute.Multipart [Fixtures.png "one.png" "image-one"]) None
    (World.start Fixtures.obliging)
  = (Js.Normal (StyleExtractRoute.BadRequest "File size too large. Maximum 10MB per file."),
     World.start Fixtures.obliging)
  /\ match fst (StyleExtractRoute.route JsonText.decode Fixtures.env1
                  (StyleExtractRoute.Multipart
                     [Fixtures.png "" "image-one"; Fixtures.png "two.png" "image-two"]) None
                  (World.start Fixtures.obliging)) with
     | Js.Normal (StyleExtractRoute.Profile p) => StyleExtractRoute.processedImages p
     | _ => 0%nat
     end = 1%nat.
Proof. vm_compute. split; reflexivity. Qed.

(* ================================================================== *)
(** ** What the endpoints send and record *)
(* ================================================================== *)

Section GenerationRequests.
Import Js World Notions Measures BriaApi.
Variable JSON_parse : string -> option JSON.
Variable env : Env.

(** [generateImage] posts the payload it builds from the request, unless
    the prompt is there and is no string. *)
Lemma generateImage_posts (request : ImageGenerateRequest) :
  (truthy (in_prompt request) = true -> is_string (in_prompt request) = true) ->
  records (Called (generation_post (generateImage_payload request))) (generateImage request).
Proof.
  intros Hprompt. unfold generateImage.
  assert (Hcheck : truthy (in_prompt request) && negb (is_string (in_prompt request)) = false).
  { destruct (truthy (in_prompt request)); [|reflexivity].
    rewrite (Hprompt eq_refl). reflexivity. }
  assert (Hrest : forall response : AxiosResponse,
             emits (fun _ => True)
               (bind (lift (getProp (Some (resp_data response)) "result")) (fun _ =>
                bind (lift (getProp (Some (resp_data response)) "request_id"))
                  (fun request_id =>
                bind (lift (getProp (Some (resp_data response)) "status_url"))
                  (fun status_url =>
                if (resp_status response =? 202)%Z && truthy status_url
                then pollImageGeneration request_id status_url
                else lift (imageResult (resp_data response) (in_seed request)
                             request_id)))))).
  { intros response.
    apply emits_bind; [apply emits_lift|]. intros _.
    apply emits_bind; [apply emits_lift|]. intros request_id.
    apply emits_bind; [apply emits_lift|]. intros status_url.
    destruct ((resp_status response =? 202)%Z && truthy status_url).
    - apply emits_pollImageGeneration; intros; exact I.
    - apply emits_lift. }
  apply (records_retried (fun _ => True)); [intros ms; exact I | |].
  - unfold generateImage_operation.
    apply emits_catch; [|intros t; apply emits_generateImage_catch].
    unfold generateImage_try. rewrite Hcheck.
    apply emits_bind; [apply emits_ret|]. intros _.
    apply emits_bind; [apply emits_request; exact I | exact Hrest].
  - unfold generateImage_operation.
    apply (records_catch (fun _ => True)); [|intros t; apply emits_generateImage_catch].
    unfold generateImage_try. rewrite Hcheck.
    unfold bind at 1, ret at 1.
    apply (records_bind (fun _ => True)); [apply records_request | exact Hrest].
Qed.

(** What the handler prepares is a string when the prompt it was given is. *)
Lemma prepare_prompt_is_string (structured_prompt prompt use_style_dna_parser : Value) :
  (truthy prompt = true -> is_string prompt = true) ->
  truthy (fst (fst (GenerateImageRoute.prepare JSON_parse structured_prompt prompt
                      use_style_dna_parser))) = true ->
  is_string (fst (fst (GenerateImageRoute.prepare JSON_parse structured_prompt prompt
                         use_style_dna_parser))) = true.
Proof.
  intros Hprompt. unfold GenerateImageRoute.prepare.
  destruct (truthy use_style_dna_parser && truthy structured_prompt); [|exact Hprompt].
  destruct (StyleDna.parseStructuredPrompt JSON_parse (ToStringValue structured_prompt))
    as [styleDNA|t]; [|exact Hprompt].
  destruct (1 <? StyleDna.keys_length styleDNA)%nat; [|exact Hprompt].
  intros _. reflexivity.
Qed.

(** On a body that is accepted, in a configured process, the handler posts
    the payload of the request it prepared. *)
Lemma generate_handler_posts (body : JSON) (key : string) (w : World) :
  accepted body -> BRIA_API_KEY env = Some key -> key <> "" ->
  In (Called (generation_post
                (generateImage_payload
                   (let '(finalPrompt, finalStructuredPrompt, _) :=
                      GenerateImageRoute.prepare JSON_parse (prop body "structured_prompt")
                        (prop body "prompt") (prop body "use_style_dna_parser") in
                    GenerateImageRoute.requestPayload finalPrompt finalStructuredPrompt
                      (prop body "seed")))))
    (events (snd (GenerateImageRoute.handler JSON_parse env body w))).
Proof.
  intros [Hgiven [Hsp Hpr]] Hkey Hne.
  assert (Hget : forall k, getProp (Some body) k = Normal (prop body k)).
  { intros k. destruct body as [| | | | |props]; try reflexivity;
      destruct Hgiven as [H|H]; discriminate H. }
  revert w.
  change (records (Called (generation_post
                (generateImage_payload
                   (let '(finalPrompt, finalStructuredPrompt, _) :=
                      GenerateImageRoute.prepare JSON_parse (prop body "structured_prompt")
                        (prop body "prompt") (prop body "use_style_dna_parser") in
                    GenerateImageRoute.requestPayload finalPrompt finalStructuredPrompt
                      (prop body "seed")))))
            (GenerateImageRoute.handler JSON_parse env body)).
  unfold GenerateImageRoute.handler.
  apply (records_catch (fun _ => True)); [|intros t; apply emits_ret].
  rewrite !Hget. unfold lift at 1, bind at 1. unfold lift at 1, bind at 1.
  unfold lift at 1, bind at 1. unfold lift at 1, bind at 1.
  replace (negb (truthy (prop body "structured_prompt"))
           && negb (truthy (prop body "prompt"))) with false
    by (destruct Hgiven as [H|H]; rewrite H; [reflexivity|];
        destruct (truthy (prop body "structured_prompt")); reflexivity).
  replace (truthy (prop body "structured_prompt")
           && negb (is_string (prop body "structured_prompt"))) with false
    by (destruct (truthy (prop body "structured_prompt")); [|reflexivity];
        rewrite (Hsp eq_refl); reflexivity).
  pose proof (prepare_prompt_is_string (prop body "structured_prompt") (prop body "prompt")
                (prop body "use_style_dna_parser") Hpr) as Hfinal.
  destruct (GenerateImageRoute.prepare JSON_parse (prop body "structured_prompt")
              (prop body "prompt") (prop body "use_style_dna_parser"))
    as [[finalPrompt finalStructuredPrompt] styleDNA].
  cbn [fst] in Hfinal.
  unfold bind at 1, getBriaClient. rewrite Hkey.
  apply String.eqb_neq in Hne. rewrite Hne. cbn [ret].
  apply (records_bind (fun _ => True)); [|intros result; apply emits_ret].
  apply generateImage_posts. exact Hfinal.
Qed.

End GenerationRequests.

(** C10.  Whatever the inbound body holds, a [sync] field included, every
    request the generation endpoint posts to the remote service has [sync]
    equal to [true]; and on every body that is accepted, in a configured
    process, the endpoint does post a generation request to the remote
    service, with [sync] equal to [true]. *)
Theorem generation_request_is_sync :
  forall (JSON_parse : string -> option Js.JSON) (env : Env) (body : Js.JSON),
    Notions.emits
      (Notions.posting (fun payload => Js.prop payload "sync" = Some (Js.JBool true)))
      (GenerateImageRoute.handler JSON_parse env body)
    /\ forall (key : string) (w : World.World),
        Notions.accepted body -> BRIA_API_KEY env = Some key -> key <> "" ->
        exists payload,
          In (World.Called (Notions.generation_post payload))
            (World.events (snd (GenerateImageRoute.handler JSON_parse env body w)))
          /\ Js.prop payload "sync" = Some (Js.JBool true).
Proof.
  intros JSON_parse env body. split.
  - apply emits_generate_handler.
    intros sp pr sd use _ _ _ _ _.
    destruct (GenerateImageRoute.prepare JSON_parse sp pr use) as [[fp fsp] dna].
    reflexivity.
  - intros key w Haccepted Hkey Hne.
    eexists. split; [exact (generate_handler_posts JSON_parse env body key w Haccepted Hkey Hne)|].
    destruct (GenerateImageRoute.prepare JSON_parse (Js.prop body "structured_prompt")
                (Js.prop body "prompt") (Js.prop body "use_style_dna_parser"))
      as [[fp fsp] dna].
    reflexivity.
Qed.

(** The claim on a body that carries [sync: false]: the request posted has
    [sync: true]. *)
Lemma generation_request_is_sync_witness :
  exists payload,
    In (World.Called (Notions.generation_post payload))
      (World.events (snd (GenerateImageRoute.handler JsonText.decode Fixtures.env1
                            Fixtures.bicycle_no_style (World.start Fixtures.obliging))))
    /\ Js.prop payload "sync" = Some (Js.JBool true).
Proof.
  apply (proj2 (generation_request_is_sync JsonText.decode Fixtures.env1
                  Fixtures.bicycle_no_style) "key" (World.start Fixtures.obliging)).
  - repeat split; intros; reflexivity || (left; reflexivity).
  - reflexivity.
  - discriminate.
Defined.



Section ExtractionRecords.
Import Js World Notions StyleExtractRoute.
Variable JSON_parse : string -> option JSON.
Variable env : Env.

(** An attempt ends as the call of the client does, or with what the log of
    its result throws. *)
Lemma attempt_eq (buffer : BriaApi.Buffer) (w : World) :
  attempt JSON_parse buffer w
  = match BriaApi.extractStyle [buffer] w with
    | (Normal result, w1) =>
        match log_structure JSON_parse result with
        | Normal _ => (Normal result, w1)
        | Throw t => (Throw t, w1)
        end
    | (Throw t, w1) => (Throw t, w1)
    end.
Proof.
  unfold attempt, bind, lift, ret.
  destruct (BriaApi.extractStyle [buffer] w) as [[result|t] w1]; [|reflexivity].
  destruct (log_structure JSON_parse result) as [[]|t]; reflexivity.
Qed.

(** The loop over the images records the outcome of every image, in order:
    it adds what their attempts leave and ends in the world they leave. *)
Lemma process_outcomes (imageBuffers : list BriaApi.Buffer) :
  forall i structuredPrompts errors w outcomes w',
    attempts JSON_parse imageBuffers w = (outcomes, w') ->
    process JSON_parse imageBuffers i structuredPrompts errors w
    = (Normal ((structuredPrompts ++ extracted outcomes i)%list,
               (errors ++ failures outcomes i)%list), w').
Proof.
  induction imageBuffers as [|buffer rest IH]; intros i sps errs w outcomes w' Hatt.
  - cbn [attempts] in Hatt. injection Hatt as <- <-.
    cbn [process extracted failures]. rewrite !app_nil_r. reflexivity.
  - cbn [attempts] in Hatt. rewrite attempt_eq in Hatt.
    cbn [process]. unfold bind at 1, catch. unfold bind at 1.
    destruct (BriaApi.extractStyle [buffer] w) as [[result|t] w1].
    + unfold bind at 1, lift at 1.
      destruct (log_structure JSON_parse result) as [[]|t]; cbn [ret fst snd];
        destruct (attempts JSON_parse rest w1) as [outcomes1 w1'] eqn:E1;
        injection Hatt as <- <-;
        rewrite (IH _ _ _ _ _ _ E1); cbn [extracted failures];
        rewrite <- app_assoc; reflexivity.
    + cbn [ret fst snd].
      destruct (attempts JSON_parse rest w1) as [outcomes1 w1'] eqn:E1.
      injection Hatt as <- <-.
      rewrite (IH _ _ _ _ _ _ E1). cbn [extracted failures].
      rewrite <- app_assoc. reflexivity.
Qed.

Lemma process_attempts (imageBuffers : list BriaApi.Buffer) :
  forall i structuredPrompts errors w,
    process JSON_parse imageBuffers i structuredPrompts errors w
    = (Normal ((structuredPrompts
                ++ extracted (fst (attempts JSON_parse imageBuffers w)) i)%list,
               (errors ++ failures (fst (attempts JSON_parse imageBuffers w)) i)%list),
       snd (attempts JSON_parse imageBuffers w)).
Proof.
  intros i sps errs w.
  destruct (attempts JSON_parse imageBuffers w) as [outcomes w'] eqn:E.
  apply process_outcomes. exact E.
Qed.

Lemma attempts_length (buffers : list BriaApi.Buffer) :
  forall w, List.length (fst (attempts JSON_parse buffers w)) = List.length buffers.
Proof.
  induction buffers as [|buffer rest IH]; intros w; cbn [attempts]; [reflexivity|].
  destruct (attempt JSON_parse buffer w) as [outcome w1]. specialize (IH w1).
  destruct (attempts JSON_parse rest w1) as [outcomes w']. cbn [fst List.length] in *.
  rewrite IH. reflexivity.
Qed.

(** A profile answered by the handler accounts for every file it was given. *)
Lemma handler_records (files : list Multer.File) (profile_name : Value) (w w' : World)
      (p : StyleProfile) :
  handler JSON_parse env (Some files) profile_name w = (Normal (Profile p), w') ->
  let outcomes := fst (attempts JSON_parse (map Multer.buffer files) w) in
  processedImages p = List.length files
  /\ images p = extracted outcomes 0
  /\ errors_of p = failures outcomes 0
  /\ w' = snd (attempts JSON_parse (map Multer.buffer files) w).
Proof.
  unfold handler, catch.
  destruct files as [|file files]; [simpl; discriminate|].
  set (fs := file :: files).
  destruct (List.length fs <? 1)%nat; [simpl; discriminate|].
  destruct (20 <? List.length fs)%nat; [simpl; discriminate|].
  destruct (validate fs 0) as [e|imageBuffers] eqn:Evalid; [simpl; discriminate|].
  apply validate_keeps in Evalid. subst imageBuffers.
  unfold bind at 1, getBriaClient.
  destruct (BRIA_API_KEY env) as [key|]; [|simpl; discriminate].
  destruct (String.eqb key ""); [simpl; discriminate|]. cbn [ret].
  destruct (attempts JSON_parse (map Multer.buffer fs) w) as [outcomes wf] eqn:Eatt.
  unfold bind at 1. rewrite (process_outcomes _ 0 [] [] w outcomes wf Eatt). cbn [app fst snd].
  unfold bind at 1, lift.
  destruct (profileName JSON_parse env profile_name (extracted outcomes 0))
    as [[nm readings]|t]; [|simpl; discriminate].
  cbn [ret]. intros Heq. injection Heq as <- <-.
  unfold errors_of. cbn [processedImages images errors].
  split; [apply (length_map Multer.buffer fs)|].
  split; [reflexivity|]. split; [|reflexivity].
  destruct (failures outcomes 0); reflexivity.
Qed.

End ExtractionRecords.

(** C9.  Every style profile the extraction endpoint answers satisfies
    [images.length = processedImages - errors.length] (no errors when the
    field is absent); every image in it carries an index, the indices are
    distinct and lie in [0, processedImages).  The profile accounts for every
    file of the request: [processedImages] is their number; each of them is
    attempted, in order, whether the ones before it failed or not; [images]
    holds the result of each attempt that succeeded and [errors] the message
    of each that failed, under the index of the file. *)
Theorem style_profile_invariants :
  forall (JSON_parse : string -> option Js.JSON) (env : Env)
         (form : StyleExtractRoute.Upload) (profile_name : Js.Value) (w : World.World)
         (p : StyleExtractRoute.StyleProfile),
    fst (StyleExtractRoute.route JSON_parse env form profile_name w)
    = Js.Normal (StyleExtractRoute.Profile p) ->
    Notions.profile_invariant p
    /\ exists parts,
        form = StyleExtractRoute.Multipart parts
        /\ let buffers := map Multer.buffer (List.filter Notions.named parts) in
           let outcomes := fst (Notions.attempts JSON_parse buffers w) in
           StyleExtractRoute.processedImages p = List.length buffers
           /\ List.length outcomes = List.length buffers
           /\ StyleExtractRoute.images p = Notions.extracted outcomes 0
           /\ Notions.errors_of p = Notions.failures outcomes 0
           /\ snd (StyleExtractRoute.route JSON_parse env form profile_name w)
              = snd (Notions.attempts JSON_parse buffers w).
Proof.
  intros JSON_parse env form profile_name w p. unfold StyleExtractRoute.route.
  destruct form as [parts|].
  - destruct (StyleExtractRoute.upload env parts) as [err|files] eqn:Eupload.
    + destruct (handleMulterError_is_400 err) as [msg Hmsg]. rewrite Hmsg.
      discriminate.
    + intros Hp. split; [exact (handler_profile JSON_parse env _ _ _ _ Hp)|].
      exists parts. split; [reflexivity|].
      apply take_keeps in Eupload. subst files.
      destruct (StyleExtractRoute.handler JSON_parse env
                  (Some (List.filter Notions.named parts)) profile_name w)
        as [c w'] eqn:Erun.
      cbn [fst] in Hp. subst c.
      destruct (handler_records JSON_parse env _ _ _ _ _ Erun) as [Hn [Hi [He Hw]]].
      cbv zeta. cbn [snd]. rewrite attempts_length, length_map.
      repeat split; assumption.
  - intros Hp. exfalso. revert Hp. unfold StyleExtractRoute.handler, World.catch.
    simpl. discriminate.
Qed.

(** The claim on three images of which the remote service fails the second:
    three processed; the first and the third among the images, under the
    indices 0 and 2; the failure of the second among the errors, under the
    index 1. *)
Lemma style_profile_invariants_witness :
  Notions.profile_invariant Fixtures.two_of_three
  /\ exists parts,
      StyleExtractRoute.Multipart Fixtures.three_images = StyleExtractRoute.Multipart parts
      /\ let buffers := map Multer.buffer (List.filter Notions.named parts) in
         let outcomes :=
           fst (Notions.attempts JsonText.decode buffers (World.start Fixtures.second_fails)) in
         StyleExtractRoute.processedImages Fixtures.two_of_three = List.length buffers
         /\ List.length outcomes = List.length buffers
         /\ StyleExtractRoute.images Fixtures.two_of_three = Notions.extracted outcomes 0
         /\ Notions.errors_of Fixtures.two_of_three = Notions.failures outcomes 0
         /\ snd (StyleExtractRoute.route JsonText.decode Fixtures.env1
                   (StyleExtractRoute.Multipart Fixtures.three_images) None
                   (World.start Fixtures.second_fails))
            = snd (Notions.attempts JsonText.decode buffers
                     (World.start Fixtures.second_fails)).
Proof.
  apply (style_profile_invariants JsonText.decode Fixtures.env1
           (StyleExtractRoute.Multipart Fixtures.three_images) None
           (World.start Fixtures.second_fails) Fixtures.two_of_three).
  vm_compute. reflexivity.
Defined.
